(** * Flight finder: the booking backend of server/index.js

    A shallow embedding of the Express routes of [server/index.js] over
    the three Mongoose collections declared in [server/schemas.js], and
    the properties of seat bookkeeping, seat-code assignment,
    registration and login that hold (or fail) on that code.

    Conventions of the embedding:
    - a collection is the sequence of its documents in insertion order
      (users, bookings) or a finite map from [_id] to document (flights,
      which the routes only ever reach through [findById]);
    - the [_id] minted by [new Model(...)] and the clock read by
      [new Date()] are inputs of the route that creates the document;
    - JavaScript numbers are IEEE-754 doubles, taken here at integer
      values ([Z]): a number that is stored or received is read through
      [toDouble], which rounds it to the nearest double (ties to the even
      mantissa), and every sum, difference and product of the routes is
      rounded the same way, so that arithmetic is exact up to 2^53 and
      loses the low bits above it; fractions, NaN and the infinities
      (magnitudes from 2^1024 on) and the sign of zero are not modelled,
      and numbers are printed in the range where JavaScript prints them
      digit by digit;
    - [document.save()] writes the paths that were assigned a value other
      than the one loaded, and nothing when there is none;
    - request fields are present and of their schema type unless the
      route itself tests for their absence (then they are an [option]);
      an array is a list, of fewer than 2^32 elements where its length
      matters ([jsArray]), and the passengers counted over the stored
      bookings of a class are a natural number; ids arrive already cast
      to ObjectId;
    - [bcrypt] and [jsonwebtoken] are external: a stored credential
      remembers the password it was derived from, of which [bcrypt] reads
      the first 72 bytes, and a token is its payload. *)

From Stdlib Require Import ZArith List String Ascii Lia.
From Stdlib Require Import DecimalString DecimalNat DecimalZ.
From stdpp Require Import gmap strings list.

Local Open Scope string_scope.
Local Open Scope list_scope.
Local Open Scope Z_scope.

Abbreviation ObjectId := positive (only parsing).

(** ** JavaScript values the routes rely on *)

(** The nearest double of a non-negative integer: exact below 2^53; above,
    the 53 leading bits are kept and the rest rounded, a tie going to the
    even mantissa. *)
Definition roundMagnitude (a : Z) : Z :=
  if a <? 2 ^ 53 then a
  else
    let u := 2 ^ (Z.log2 a - 52) in
    let q := a / u in
    let r := a mod u in
    if 2 * r <? u then q * u
    else if u <? 2 * r then (q + 1) * u
    else if Z.even q then q * u else (q + 1) * u.

(** The double an integer-valued number is. *)
Definition toDouble (z : Z) : Z :=
  if z <? 0 then - roundMagnitude (- z) else roundMagnitude z.

(** [x + y], [x - y], [x * y] and [x < y] on numbers. *)
Definition jsAdd (x y : Z) : Z := toDouble (toDouble x + toDouble y).

Definition jsSub (x y : Z) : Z := toDouble (toDouble x - toDouble y).

Definition jsMul (x y : Z) : Z := toDouble (toDouble x * toDouble y).

Definition jsLt (x y : Z) : bool := bool_decide (toDouble x < toDouble y).

(** An array has fewer than 2^32 elements. *)
Definition jsArray {A : Type} (l : list A) : Prop :=
  Z.of_nat (length l) < 2 ^ 32.

(** [`${n}`] for a number. *)
Definition numberText (z : Z) : string :=
  NilZero.string_of_int (Z.to_int (toDouble z)).


(** The same for a non-negative count. *)
Definition countText (n : nat) : string := NilZero.string_of_uint (Nat.to_uint n).

(** Truthiness, as [a || b] and [if (a)] test it. *)
Class Truthy (A : Type) := truthy : A -> bool.

#[global] Instance string_truthy : Truthy string :=
  fun s => negb (String.eqb s "").

#[global] Instance number_truthy : Truthy Z :=
  fun z => negb (Z.eqb z 0).

(** [a || b] where [a] is a request field that may be missing. *)
Definition jsOr {A : Type} `{Truthy A} (a : option A) (b : A) : A :=
  match a with
  | Some v => if truthy v then v else b
  | None => b
  end.

(** The result of [new Date(x)]. *)
Inductive JsDate :=
| DateAt (ms : Z)
| InvalidDate.

Definition isValidDate (d : JsDate) : bool :=
  match d with DateAt _ => true | InvalidDate => false end.

(** What a property read on an object literal can give: an own string
    property, a member inherited from [Object.prototype], or nothing. *)
Inductive JsProp :=
| JsUndefined
| JsStr (s : string)
| JsNativeFunction (name : string)
| JsObjectPrototype.

(** The members every object literal inherits from [Object.prototype]. *)
Definition objectPrototype (key : string) : JsProp :=
  if decide (key = "constructor") then JsNativeFunction "Object"
  else if decide (key ∈ ["toString"; "toLocaleString"; "valueOf";
                         "hasOwnProperty"; "isPrototypeOf";
                         "propertyIsEnumerable"; "__defineGetter__";
                         "__defineSetter__"; "__lookupGetter__";
                         "__lookupSetter__"])
  then JsNativeFunction key
  else if decide (key = "__proto__") then JsObjectPrototype
  else JsUndefined.

(** [`${v}`] for such a value (the text of a built-in function is the one
    Node prints). *)
Definition templateText (v : JsProp) : string :=
  match v with
  | JsUndefined => "undefined"
  | JsStr s => s
  | JsNativeFunction name => "function " +:+ name +:+ "() { [native code] }"
  | JsObjectPrototype => "[object Object]"
  end.

(** ** The schemas (server/schemas.js) *)

(** String-valued fields that only the routes write. *)
Inductive Approval := approved | not_approved | rejected.

Inductive BookingStatus := confirmed | cancelled.

#[global] Instance Approval_eq_dec : EqDecision Approval.
Proof. solve_decision. Defined.

#[global] Instance BookingStatus_eq_dec : EqDecision BookingStatus.
Proof. solve_decision. Defined.

(** The value [bcrypt.hash(password, rounds)] stands for. *)
Inductive Credential := Bcrypt (rounds : nat) (plain : string).

Definition bcrypt_hash (password : string) (rounds : nat) : Credential :=
  Bcrypt rounds password.

(** The bytes of a password that [bcrypt] reads: the first 72. *)
Definition bcryptInput (password : string) : string :=
  String.substring 0 72 password.

Definition bcrypt_compare (password : string) (c : Credential) : bool :=
  match c with
  | Bcrypt _ plain => String.eqb (bcryptInput password) (bcryptInput plain)
  end.

Definition nonEmpty (s : string) : bool := negb (String.eqb s "").

Module User.
Record t := mk {
  _id : ObjectId;
  username : string;
  email : string;
  usertype : string;
  password : Credential;
  approval : Approval
}.

(** [required: true] on username, email, usertype (password is a hash). *)
Definition valid (u : t) : bool :=
  nonEmpty (username u) && nonEmpty (email u) && nonEmpty (usertype u).
End User.

Module Flight.
Record t := mk {
  _id : ObjectId;
  flightName : string;
  flightId : string;
  origin : string;
  destination : string;
  departureTime : string;
  arrivalTime : string;
  basePrice : Z;
  totalSeats : Z;
  journeyDate : JsDate;
  availableSeats : Z
}.

(** [required: true] on every field; a Date field rejects Invalid Date. *)
Definition valid (f : t) : bool :=
  nonEmpty (flightName f) && nonEmpty (flightId f) && nonEmpty (origin f)
  && nonEmpty (destination f) && nonEmpty (departureTime f)
  && nonEmpty (arrivalTime f) && isValidDate (journeyDate f).

Definition set_availableSeats (v : Z) (f : t) : t :=
  mk (_id f) (flightName f) (flightId f) (origin f) (destination f)
     (departureTime f) (arrivalTime f) (basePrice f) (totalSeats f)
     (journeyDate f) v.
End Flight.

Module Passenger.
Record t := mk { name : string; age : Z }.
End Passenger.

Module Booking.
Record t := mk {
  _id : ObjectId;
  user : ObjectId;
  flight : ObjectId;
  flightName : string;
  flightId : string;
  departure : string;
  destination : string;
  email : option string;
  mobile : string;
  seats : string;
  passengers : list Passenger.t;
  totalPrice : Z;
  bookingDate : JsDate;
  journeyDate : JsDate;
  journeyTime : string;
  seatClass : string;
  bookingStatus : BookingStatus
}.

(** [required: true] on user, flight and flightName. *)
Definition valid (b : t) : bool := nonEmpty (flightName b).

Definition set_bookingStatus (s : BookingStatus) (b : t) : t :=
  mk (_id b) (user b) (flight b) (flightName b) (flightId b) (departure b)
     (destination b) (email b) (mobile b) (seats b) (passengers b)
     (totalPrice b) (bookingDate b) (journeyDate b) (journeyTime b)
     (seatClass b) s.
End Booking.

(** The database: three collections. *)
Record DB := mkDB {
  users : list User.t;
  flights : gmap ObjectId Flight.t;
  bookings : list Booking.t
}.

Definition emptyDB : DB := mkDB [] ∅ [].

(** ** Requests and responses *)

Module Jwt.
(** The payload [{ user: { id, usertype, approval } }] of a token. *)
Record payload := mk {
  id : ObjectId;
  usertype : string;
  approval : Approval
}.
End Jwt.

(** The [x-auth-token] header: missing, failing [jwt.verify] (bad
    signature, expired), or verifying to a payload. *)
Inductive AuthHeader :=
| NoToken
| BadToken
| GoodToken (p : Jwt.payload).

Inductive Body :=
| Message (message : string)
| MessageTokenUser (message : string) (token : Jwt.payload) (user : User.t)
| MessageUser (message : string) (user : User.t)
| MessageFlight (message : string) (flight : Flight.t)
| MessageBooking (message : string) (booking : Booking.t).

Record Response := mkResponse { status : nat; body : Body }.

Definition json (st : nat) (message : string) : Response :=
  mkResponse st (Message message).

Module RegisterReq.
Record t := mk {
  username : string;
  email : string;
  usertype : string;
  password : string
}.
End RegisterReq.

Module LoginReq.
Record t := mk { email : string; password : string }.
End LoginReq.

Module AddFlightReq.
(** [journeyDate] is the value of [new Date(req.body.journeyDate)]. *)
Record t := mk {
  flightName : string;
  flightId : string;
  origin : string;
  destination : string;
  departureTime : string;
  arrivalTime : string;
  basePrice : Z;
  totalSeats : Z;
  journeyDate : JsDate
}.
End AddFlightReq.

Module UpdateFlightReq.
(** Every field but [_id] may be missing; a truthy [journeyDate] is given
    by the value of [new Date(journeyDate)], a missing or falsy one is
    [None]. *)
Record t := mk {
  _id : ObjectId;
  flightName : option string;
  flightId : option string;
  origin : option string;
  destination : option string;
  departureTime : option string;
  arrivalTime : option string;
  basePrice : option Z;
  totalSeats : option Z;
  journeyDate : option JsDate
}.
End UpdateFlightReq.

Module BookReq.
Record t := mk {
  flightId : ObjectId;
  passengers : list Passenger.t;
  seatClass : string;
  mobile : option string
}.
End BookReq.

(** ** Middleware *)

Definition authMiddleware (h : AuthHeader) : Response + Jwt.payload :=
  match h with
  | NoToken => inl (json 401 "No token, authorization denied")
  | BadToken => inl (json 401 "Token is not valid")
  | GoodToken p => inr p
  end.

Definition adminAuth (u : Jwt.payload) : option Response :=
  if decide (Jwt.usertype u ≠ "admin")
  then Some (json 403 "Access denied: Admin role required")
  else None.

Definition flightOperatorAuth (u : Jwt.payload) : option Response :=
  if decide (Jwt.usertype u ≠ "flight-operator" ∨ Jwt.approval u ≠ approved)
  then Some (json 403 "Access denied: Approved Flight Operator role required")
  else None.

(** ** Store operations *)

(** [Model.findOne(filter)]: the first document, in insertion order. *)
Definition findOne {A : Type} (P : A -> Prop) `{∀ x, Decision (P x)}
    (l : list A) : option A :=
  List.find (fun x => bool_decide (P x)) l.

(** [updateOne({_id}, change)]: the first document with that id. *)
Fixpoint updateOne {A : Type} (P : A -> Prop) `{∀ x, Decision (P x)}
    (change : A -> A) (l : list A) : list A :=
  match l with
  | [] => []
  | x :: r => if decide (P x) then change x :: r
              else x :: updateOne P change r
  end.

(** [newUser.save()]: schema validation, then an insert that the [_id]
    index and the unique index on [email] may refuse. *)
Definition User_insert (u : User.t) (db : DB) : option DB :=
  if User.valid u
     && bool_decide (findOne (fun v => User._id v = User._id u) (users db) = None)
     && bool_decide (findOne (fun v => User.email v = User.email u) (users db) = None)
  then Some (mkDB (users db ++ [u]) (flights db) (bookings db))
  else None.

Definition Flight_insert (f : Flight.t) (db : DB) : option DB :=
  if Flight.valid f && bool_decide (flights db !! Flight._id f = None)
  then Some (mkDB (users db) (<[Flight._id f := f]> (flights db)) (bookings db))
  else None.

(** [flight.save()] on the document found under [fid], after the route
    assigned the listed fields. *)
Definition Flight_update (fid : ObjectId) (f : Flight.t) (db : DB) : option DB :=
  if Flight.valid f
  then Some (mkDB (users db) (<[fid := f]> (flights db)) (bookings db))
  else None.

(** [flight.save()] after the route changed [availableSeats] only: the
    write is [$set: { availableSeats }] on the stored document. *)
Definition Flight_saveAvailableSeats (fid : ObjectId) (v : Z) (db : DB) : DB :=
  mkDB (users db) (alter (Flight.set_availableSeats v) fid (flights db))
       (bookings db).

(** [flight.availableSeats = v; flight.save()] on the document loaded as
    [flight]: the path is written when [v] is not the number loaded. *)
Definition Flight_assignAvailableSeats (flight : Flight.t) (fid : ObjectId)
    (v : Z) (db : DB) : DB :=
  if decide (v = toDouble (Flight.availableSeats flight)) then db
  else Flight_saveAvailableSeats fid v db.

Definition Booking_insert (b : Booking.t) (db : DB) : option DB :=
  if Booking.valid b
     && bool_decide (findOne (fun c => Booking._id c = Booking._id b) (bookings db) = None)
  then Some (mkDB (users db) (flights db) (bookings db ++ [b]))
  else None.

(** [booking.save()] after the route changed [bookingStatus] only. *)
Definition Booking_saveStatus (bid : ObjectId) (s : BookingStatus) (db : DB) : DB :=
  mkDB (users db) (flights db)
       (updateOne (fun c => Booking._id c = bid) (Booking.set_bookingStatus s)
                  (bookings db)).

(** ** POST /register *)

Definition register (oid : ObjectId) (req : RegisterReq.t) (db : DB)
    : DB * Response :=
  match findOne (fun u => User.email u = RegisterReq.email req) (users db) with
  | Some _ => (db, json 400 "User already exists with this email.")
  | None =>
  match findOne (fun u => User.username u = RegisterReq.username req) (users db) with
  | Some _ => (db, json 400 "Username already taken.")
  | None =>
  let usertype := RegisterReq.usertype req in
  let checked : Response + Approval :=
    if decide (usertype = "flight-operator") then inr not_approved
    else if decide (usertype ≠ "user" ∧ usertype ≠ "admin")
    then inl (json 400 "Invalid usertype. Must be user, admin, or flight-operator.")
    else inr approved in
  match checked with
  | inl r => (db, r)
  | inr approval =>
  let hashedPassword := bcrypt_hash (RegisterReq.password req) 10 in
  let newUser := User.mk oid (RegisterReq.username req) (RegisterReq.email req)
                         usertype hashedPassword approval in
  match User_insert newUser db with
  | None => (db, json 500 "Server Error during registration.")
  | Some db' =>
    let payload := Jwt.mk (User._id newUser) (User.usertype newUser)
                          (User.approval newUser) in
    (db', mkResponse 201
            (MessageTokenUser "Registration successful!" payload newUser))
  end end end end.

(** ** POST /login *)

Definition login (req : LoginReq.t) (db : DB) : Response :=
  match findOne (fun u => User.email u = LoginReq.email req) (users db) with
  | None => json 401 "Invalid credentials"
  | Some user =>
    if negb (bcrypt_compare (LoginReq.password req) (User.password user))
    then json 401 "Invalid credentials"
    else if decide (User.usertype user = "flight-operator"
                    ∧ User.approval user = not_approved)
    then json 403 "Flight operator account is not yet approved."
    else
      let payload := Jwt.mk (User._id user) (User.usertype user)
                            (User.approval user) in
      mkResponse 200 (MessageTokenUser "Login successful!" payload user)
  end.

(** ** POST /approve-operator and POST /reject-operator *)

(** [user.save()] after the route changed [approval] only. *)
Definition User_saveApproval (uid : ObjectId) (a : Approval) (db : DB) : DB :=
  mkDB (updateOne (fun v => User._id v = uid)
          (fun v => User.mk (User._id v) (User.username v) (User.email v)
                            (User.usertype v) (User.password v) a)
          (users db))
       (flights db) (bookings db).

(** The two routes differ in the approval they write and in their
    messages. *)
Definition decideOperator (a : Approval) (refusal done : string)
    (h : AuthHeader) (id : ObjectId) (db : DB) : DB * Response :=
  match authMiddleware h with
  | inl r => (db, r)
  | inr u =>
  match adminAuth u with
  | Some r => (db, r)
  | None =>
  match findOne (fun v => User._id v = id) (users db) with
  | None => (db, json 404 "User not found.")
  | Some user =>
    if decide (User.usertype user ≠ "flight-operator")
    then (db, json 400 refusal)
    else
      let user' := User.mk (User._id user) (User.username user)
                     (User.email user) (User.usertype user)
                     (User.password user) a in
      (User_saveApproval id a db, mkResponse 200 (MessageUser done user'))
  end end end.

Definition approveOperator : AuthHeader -> ObjectId -> DB -> DB * Response :=
  decideOperator approved "Only flight operators can be approved."
                 "Flight operator approved!".

Definition rejectOperator : AuthHeader -> ObjectId -> DB -> DB * Response :=
  decideOperator rejected "Only flight operators can be rejected."
                 "Flight operator rejected!".

(** ** POST /add-flight *)

Definition addFlight (h : AuthHeader) (oid : ObjectId) (req : AddFlightReq.t)
    (db : DB) : DB * Response :=
  match authMiddleware h with
  | inl r => (db, r)
  | inr u =>
  match flightOperatorAuth u with
  | Some r => (db, r)
  | None =>
  let flight :=
    Flight.mk oid (AddFlightReq.flightName req) (AddFlightReq.flightId req)
      (AddFlightReq.origin req) (AddFlightReq.destination req)
      (AddFlightReq.departureTime req) (AddFlightReq.arrivalTime req)
      (AddFlightReq.basePrice req) (AddFlightReq.totalSeats req)
      (AddFlightReq.journeyDate req)
      (AddFlightReq.totalSeats req) in
  match Flight_insert flight db with
  | None => (db, json 500 "Server Error adding flight.")
  | Some db' =>
    (db', mkResponse 201 (MessageFlight "Flight added successfully!" flight))
  end end end.

(** ** PUT /update-flight *)

(** The nine assignments of the route, on the loaded document. *)
Definition applyUpdate (req : UpdateFlightReq.t) (flight : Flight.t) : Flight.t :=
  Flight.mk (Flight._id flight)
    (jsOr (UpdateFlightReq.flightName req) (Flight.flightName flight))
    (jsOr (UpdateFlightReq.flightId req) (Flight.flightId flight))
    (jsOr (UpdateFlightReq.origin req) (Flight.origin flight))
    (jsOr (UpdateFlightReq.destination req) (Flight.destination flight))
    (jsOr (UpdateFlightReq.departureTime req) (Flight.departureTime flight))
    (jsOr (UpdateFlightReq.arrivalTime req) (Flight.arrivalTime flight))
    (jsOr (UpdateFlightReq.basePrice req) (Flight.basePrice flight))
    (jsOr (UpdateFlightReq.totalSeats req) (Flight.totalSeats flight))
    (match UpdateFlightReq.journeyDate req with
     | Some d => d
     | None => Flight.journeyDate flight
     end)
    (Flight.availableSeats flight).

Definition updateFlight (h : AuthHeader) (req : UpdateFlightReq.t) (db : DB)
    : DB * Response :=
  match authMiddleware h with
  | inl r => (db, r)
  | inr u =>
  match flightOperatorAuth u with
  | Some r => (db, r)
  | None =>
  match flights db !! UpdateFlightReq._id req with
  | None => (db, json 404 "Flight not found.")
  | Some flight =>
    let flight' := applyUpdate req flight in
    match Flight_update (UpdateFlightReq._id req) flight' db with
    | None => (db, json 500 "Server Error updating flight.")
    | Some db' =>
      (db', mkResponse 200 (MessageFlight "Flight updated successfully!" flight'))
    end
  end end end.

(** ** POST /book-ticket *)

(** The object literal [seatCode] of the route: its own properties. *)
Definition seatCode : gmap string string :=
  <["economy" := "E"]> (<["premium-economy" := "P"]>
    (<["business" := "B"]> (<["first-class" := "A"]> ∅))).

(** [object[key]] on an object literal: own properties first, then the
    prototype. *)
Definition getProp (object : gmap string string) (key : string) : JsProp :=
  match object !! key with
  | Some s => JsStr s
  | None => objectPrototype key
  end.

(** [let coachPrefix = seatCode[seatClass]], as the template literal of
    the loop prints it. *)
Definition coachPrefix (seatClass : string) : string :=
  templateText (getProp seatCode seatClass).

(** [Booking.find({ flight: flightId, seatClass: seatClass })]. *)
Definition existingBookingsInClass (flightId : ObjectId) (seatClass : string)
    (db : DB) : list Booking.t :=
  filter (fun b => Booking.flight b = flightId ∧ Booking.seatClass b = seatClass)
         (bookings db).

(** The [reduce] over the bookings found. *)
Definition numBookedSeatsInClass (found : list Booking.t) : nat :=
  foldl (fun acc booking => (acc + length (Booking.passengers booking))%nat)
        0%nat found.

(** The [for] loop that fills [seatsAssigned]. *)
Definition seatsAssigned (coachPrefix : string) (booked numSeatsToBook : nat)
    : list string :=
  (fun i => coachPrefix +:+ "-" +:+ countText (booked + i + 1))
    <$> seq 0 numSeatsToBook.

(** The document [new Booking({...})] builds from the loaded flight and
    the bookings found in the class. *)
Definition newBooking (u : Jwt.payload) (oid : ObjectId) (now : Z)
    (req : BookReq.t) (flight : Flight.t) (found : list Booking.t)
    : Booking.t :=
  let numSeatsToBook := length (BookReq.passengers req) in
  let totalPrice := jsMul (Z.of_nat numSeatsToBook) (Flight.basePrice flight) in
  let seats := seatsAssigned (coachPrefix (BookReq.seatClass req))
                             (numBookedSeatsInClass found) numSeatsToBook in
  Booking.mk oid (Jwt.id u) (BookReq.flightId req)
    (Flight.flightName flight) (Flight.flightId flight)
    (Flight.departureTime flight) (Flight.destination flight)
    None
    (jsOr (BookReq.mobile req) "N/A")
    (String.concat ", " seats)
    (BookReq.passengers req)
    totalPrice
    (DateAt now)
    (Flight.journeyDate flight)
    (Flight.departureTime flight)
    (BookReq.seatClass req)
    confirmed.

Definition notEnoughSeats (available : Z) : Response :=
  json 400 ("Not enough seats available. Only " +:+ numberText available
            +:+ " seats left.").

Definition bookTicket (h : AuthHeader) (oid : ObjectId) (now : Z)
    (req : BookReq.t) (db : DB) : DB * Response :=
  match authMiddleware h with
  | inl r => (db, r)
  | inr u =>
  match flights db !! BookReq.flightId req with
  | None => (db, json 404 "Flight not found.")
  | Some flight =>
    let numSeatsToBook := length (BookReq.passengers req) in
    if jsLt (Flight.availableSeats flight) (Z.of_nat numSeatsToBook)
    then (db, notEnoughSeats (Flight.availableSeats flight))
    else
      let found := existingBookingsInClass (BookReq.flightId req)
                                           (BookReq.seatClass req) db in
      let booking := newBooking u oid now req flight found in
      match Booking_insert booking db with
      | None => (db, json 500 "Server Error during booking.")
      | Some db' =>
        (Flight_assignAvailableSeats flight (BookReq.flightId req)
           (jsSub (Flight.availableSeats flight) (Z.of_nat numSeatsToBook)) db',
         mkResponse 201 (MessageBooking "Booking successful!" booking))
      end
  end end.

(** ** PUT /cancel-ticket/:id *)

Definition cancelTicket (h : AuthHeader) (bookingId : ObjectId) (db : DB)
    : DB * Response :=
  match authMiddleware h with
  | inl r => (db, r)
  | inr u =>
  match findOne (fun b => Booking._id b = bookingId) (bookings db) with
  | None => (db, json 404 "Booking not found.")
  | Some booking =>
    if decide (Booking.user booking ≠ Jwt.id u ∧ Jwt.usertype u ≠ "admin")
    then (db, json 403 "Not authorized to cancel this booking.")
    else if decide (Booking.bookingStatus booking = cancelled)
    then (db, json 400 "Booking is already cancelled.")
    else
      let db1 := Booking_saveStatus bookingId cancelled db in
      let booking' := Booking.set_bookingStatus cancelled booking in
      let db2 :=
        match flights db1 !! Booking.flight booking with
        | Some flight =>
          Flight_assignAvailableSeats flight (Booking.flight booking)
            (jsAdd (Flight.availableSeats flight)
                   (Z.of_nat (length (Booking.passengers booking)))) db1
        | None => db1
        end in
      (db2, mkResponse 200
              (MessageBooking "Booking cancelled successfully!" booking'))
  end end.

(** ** Requests in flight

    The route for /book-ticket awaits the store four times.  Node runs
    the code between two awaits without interruption, so a call in
    flight is described by the await it is parked at and the locals it
    holds; resuming it performs the awaited store operation on the
    database as it is then, and runs the route up to its next await. *)

Module InFlight.

Record BookCall := mkCall {
  header : AuthHeader;
  oid : ObjectId;
  now : Z;
  req : BookReq.t
}.

Inductive Task :=
| AwaitFindFlight (u : Jwt.payload) (c : BookCall)
| AwaitFindBookings (u : Jwt.payload) (c : BookCall) (flight : Flight.t)
| AwaitBookingSave (c : BookCall) (flight : Flight.t) (booking : Booking.t)
| AwaitFlightSave (c : BookCall) (flight : Flight.t) (availableSeats : Z)
    (booking : Booking.t)
| Responded (r : Response).

(** The request arrives: the middleware runs, the route issues
    [Flight.findById]. *)
Definition start (c : BookCall) : Task :=
  match authMiddleware (header c) with
  | inl r => Responded r
  | inr u => AwaitFindFlight u c
  end.

Definition resume (t : Task) (db : DB) : DB * Task :=
  match t with
  | AwaitFindFlight u c =>
    match flights db !! BookReq.flightId (req c) with
    | None => (db, Responded (json 404 "Flight not found."))
    | Some flight =>
      if jsLt (Flight.availableSeats flight)
              (Z.of_nat (length (BookReq.passengers (req c))))
      then (db, Responded (notEnoughSeats (Flight.availableSeats flight)))
      else (db, AwaitFindBookings u c flight)
    end
  | AwaitFindBookings u c flight =>
    let found := existingBookingsInClass (BookReq.flightId (req c))
                                         (BookReq.seatClass (req c)) db in
    (db, AwaitBookingSave c flight (newBooking u (oid c) (now c) (req c) flight found))
  | AwaitBookingSave c flight booking =>
    match Booking_insert booking db with
    | None => (db, Responded (json 500 "Server Error during booking."))
    | Some db' =>
      (db', AwaitFlightSave c flight
              (jsSub (Flight.availableSeats flight)
                     (Z.of_nat (length (BookReq.passengers (req c)))))
              booking)
    end
  | AwaitFlightSave c flight availableSeats booking =>
    (Flight_assignAvailableSeats flight (BookReq.flightId (req c))
       availableSeats db,
     Responded (mkResponse 201 (MessageBooking "Booking successful!" booking)))
  | Responded r => (db, Responded r)
  end.

(** A schedule names, step by step, the call that is resumed next. *)
Fixpoint run (schedule : list nat) (db : DB) (tasks : list Task)
    : DB * list Task :=
  match schedule with
  | [] => (db, tasks)
  | i :: rest =>
    match tasks !! i with
    | None => run rest db tasks
    | Some t =>
      let (db', t') := resume t db in
      run rest db' (<[i := t']> tasks)
    end
  end.

(** One call resumed until it has responded, nothing in between. *)
Definition complete (c : BookCall) (db : DB) : DB * Task :=
  let (db1, t1) := resume (start c) db in
  let (db2, t2) := resume t1 db1 in
  let (db3, t3) := resume t2 db2 in
  resume t3 db3.

(** The calls served one after another. *)
Fixpoint serial (calls : list BookCall) (db : DB) : DB * list Response :=
  match calls with
  | [] => (db, [])
  | c :: rest =>
    let (db1, r) := bookTicket (header c) (oid c) (now c) (req c) db in
    let (db2, rs) := serial rest db1 in
    (db2, r :: rs)
  end.

End InFlight.

(** ** Sequences of operations *)

Inductive Op :=
| OpAddFlight (h : AuthHeader) (oid : ObjectId) (req : AddFlightReq.t)
| OpUpdateFlight (h : AuthHeader) (req : UpdateFlightReq.t)
| OpBookTicket (h : AuthHeader) (oid : ObjectId) (now : Z) (req : BookReq.t)
| OpCancelTicket (h : AuthHeader) (bookingId : ObjectId).

Definition step (db : DB) (o : Op) : DB :=
  match o with
  | OpAddFlight h oid req => fst (addFlight h oid req db)
  | OpUpdateFlight h req => fst (updateFlight h req db)
  | OpBookTicket h oid now req => fst (bookTicket h oid now req db)
  | OpCancelTicket h bookingId => fst (cancelTicket h bookingId db)
  end.

Definition runOps (ops : list Op) (db : DB) : DB := foldl step db ops.

(** The largest capacity that is counted without rounding is 2^53 - 1. *)
Definition exactBelow : Z := 2 ^ 53.

(** The capacity a flight had in a database: 0 when it is not there. *)
Definition capacityIn (db : DB) (fid : ObjectId) : Z :=
  default 0 (Flight.totalSeats <$> flights db !! fid).

(** An operation after which every stored flight has a capacity below
    2^53 that is not less than the one it had before (and not negative
    when the operation created the flight). *)
Definition keepsCapacity (db : DB) (o : Op) : bool :=
  bool_decide
    (map_Forall (fun fid f' => Flight.totalSeats f' < exactBelow
                               ∧ capacityIn db fid ≤ Flight.totalSeats f')
                (flights (step db o))).

Fixpoint capacityKept (db : DB) (ops : list Op) : bool :=
  match ops with
  | [] => true
  | o :: rest => keepsCapacity db o && capacityKept (step db o) rest
  end.

(** ** Quantities the properties speak of *)

(** Seats held on a flight by its confirmed bookings. *)
Fixpoint confirmedSeats (fid : ObjectId) (bs : list Booking.t) : Z :=
  match bs with
  | [] => 0
  | b :: rest =>
    (if decide (Booking.flight b = fid ∧ Booking.bookingStatus b = confirmed)
     then Z.of_nat (length (Booking.passengers b)) else 0)
    + confirmedSeats fid rest
  end.

(** Passengers of every booking ever made on a flight in a class,
    whatever its status. *)
Fixpoint priorCount (fid : ObjectId) (c : string) (bs : list Booking.t) : nat :=
  match bs with
  | [] => 0%nat
  | b :: rest =>
    ((if decide (Booking.flight b = fid ∧ Booking.seatClass b = c)
      then length (Booking.passengers b) else 0%nat)
     + priorCount fid c rest)%nat
  end.

(** The codes [prefix-(prior+1)] ... [prefix-(prior+n)]. *)
Definition codesFrom (prefix : string) (prior n : nat) : list string :=
  (fun k => prefix +:+ "-" +:+ countText (prior + k)) <$> seq 1 n.

(** A booking of one seat whose code was numbered after the bookings
    [before] and no later than the bookings [after]. *)
Definition issuedBetween (fid : ObjectId) (before after : list Booking.t)
    (b : Booking.t) : Prop :=
  ∃ k,
    Booking.seats b = coachPrefix (Booking.seatClass b) +:+ "-" +:+ countText k
    ∧ (priorCount fid (Booking.seatClass b) before < k
       ≤ priorCount fid (Booking.seatClass b) after)%nat.

Fixpoint hasDash (s : string) : bool :=
  match s with
  | EmptyString => false
  | String a rest => Ascii.eqb a "-" || hasDash rest
  end.

Definition created (b : Booking.t) : Response :=
  mkResponse 201 (MessageBooking "Booking successful!" b).

(** The four seat classes of the table. *)
Definition knownClass (c : string) : Prop :=
  c ∈ ["economy"; "premium-economy"; "business"; "first-class"].

(** The names an object literal answers to without owning them. *)
Definition inheritedName (c : string) : Prop :=
  c ∈ ["constructor"; "toString"; "toLocaleString"; "valueOf";
       "hasOwnProperty"; "isPrototypeOf"; "propertyIsEnumerable";
       "__defineGetter__"; "__defineSetter__"; "__lookupGetter__";
       "__lookupSetter__"; "__proto__"].

(** What the field of a document loaded with [loaded] holds once [v] was
    assigned to it and the document saved, nothing else having written
    in between. *)
Definition assigned (loaded v : Z) : Z :=
  if decide (v = toDouble loaded) then loaded else v.

(** Seat bookkeeping: no flight is overdrawn, the seats out on confirmed
    bookings fit in the capacity, which is below 2^53, and bookings name
    stored flights. *)
Record SeatsAccounted (db : DB) : Prop := mkSeatsAccounted {
  seats_exact : ∀ fid f, flights db !! fid = Some f →
                Flight.totalSeats f < exactBelow;
  seats_nonneg : ∀ fid f, flights db !! fid = Some f →
                 0 ≤ Flight.availableSeats f;
  seats_fit : ∀ fid f, flights db !! fid = Some f →
              Flight.availableSeats f + confirmedSeats fid (bookings db)
              ≤ Flight.totalSeats f;
  bookings_on_flights : ∀ b, b ∈ bookings db →
                        is_Some (flights db !! Booking.flight b)
}.

(** ** The read-only routes *)

(** [res.json(document)] answers 200 with the document itself: a read
    either refuses with a status and a message or sends what it found. *)

(** GET /fetch-user/:id *)
Definition fetchUser (h : AuthHeader) (id : ObjectId) (db : DB)
    : Response + User.t :=
  match authMiddleware h with
  | inl r => inl r
  | inr u =>
    match findOne (fun v => User._id v = id) (users db) with
    | None => inl (json 404 "User not found.")
    | Some user =>
      if decide (Jwt.id u ≠ id ∧ Jwt.usertype u ≠ "admin")
      then inl (json 403 "Not authorized to view this user.")
      else inr user
    end
  end.

(** GET /fetch-users *)
Definition fetchUsers (h : AuthHeader) (db : DB) : Response + list User.t :=
  match authMiddleware h with
  | inl r => inl r
  | inr u =>
    match adminAuth u with
    | Some r => inl r
    | None => inr (users db)
    end
  end.

(** GET /fetch-flight/:id *)
Definition fetchFlight (id : ObjectId) (db : DB) : Response + Flight.t :=
  match flights db !! id with
  | None => inl (json 404 "Flight not found.")
  | Some flight => inr flight
  end.

Module Populated.

(** [.populate('user', 'username email usertype')]: the selected fields
    and the [_id]. *)
Record userFields := mkUser {
  user_id : ObjectId;
  username : string;
  email : string;
  usertype : string
}.

(** [.populate('flight', 'flightName origin destination departureTime
    journeyDate')]. *)
Record flightFields := mkFlight {
  flight_id : ObjectId;
  flightName : string;
  origin : string;
  destination : string;
  departureTime : string;
  journeyDate : JsDate
}.

(** A booking whose two references are replaced by the documents they
    name, or by [null] when there is none. *)
Record t := mk {
  booking : Booking.t;
  user : option userFields;
  flight : option flightFields
}.

End Populated.

Definition populate (db : DB) (b : Booking.t) : Populated.t :=
  Populated.mk b
    ((fun v => Populated.mkUser (User._id v) (User.username v) (User.email v)
                                (User.usertype v))
       <$> findOne (fun v => User._id v = Booking.user b) (users db))
    ((fun f => Populated.mkFlight (Flight._id f) (Flight.flightName f)
                 (Flight.origin f) (Flight.destination f)
                 (Flight.departureTime f) (Flight.journeyDate f))
       <$> flights db !! Booking.flight b).

(** GET /fetch-bookings *)
Definition fetchBookings (h : AuthHeader) (db : DB)
    : Response + list Populated.t :=
  match authMiddleware h with
  | inl r => inl r
  | inr u =>
    match adminAuth u with
    | Some r => inl r
    | None => inr (populate db <$> bookings db)
    end
  end.

(** ** Every route that writes *)

Inductive Request :=
| PostRegister (oid : ObjectId) (req : RegisterReq.t)
| PostApproveOperator (h : AuthHeader) (id : ObjectId)
| PostRejectOperator (h : AuthHeader) (id : ObjectId)
| FlightSide (o : Op).

Definition serve (db : DB) (r : Request) : DB :=
  match r with
  | PostRegister oid req => fst (register oid req db)
  | PostApproveOperator h id => fst (approveOperator h id db)
  | PostRejectOperator h id => fst (rejectOperator h id db)
  | FlightSide o => step db o
  end.

Definition serveAll (rs : list Request) (db : DB) : DB := foldl serve db rs.

(** A request after which every stored flight has a capacity from 0 up
    to 2^53 - 1, the one it had before if it was stored before. *)
Definition keepsTotal (db : DB) (r : Request) : bool :=
  bool_decide
    (map_Forall (fun fid f' =>
                   0 ≤ Flight.totalSeats f' < exactBelow
                   ∧ default (Flight.totalSeats f')
                             (Flight.totalSeats <$> flights db !! fid)
                     = Flight.totalSeats f')
                (flights (serve db r))).

Fixpoint totalsKept (db : DB) (rs : list Request) : bool :=
  match rs with
  | [] => true
  | r :: rest => keepsTotal db r && totalsKept (serve db r) rest
  end.

(** Every request of a sequence passes a test, each on the database it
    is served on. *)
Fixpoint allServed (ok : DB → Request → bool) (db : DB) (rs : list Request)
    : bool :=
  match rs with
  | [] => true
  | r :: rest => ok db r && allServed ok (serve db r) rest
  end.

(** ** More quantities the properties speak of *)

(** What the user collection is expected to satisfy. *)
Record UsersInOrder (db : DB) : Prop := mkUsersInOrder {
  emails_unique : NoDup (User.email <$> users db);
  usernames_unique : NoDup (User.username <$> users db);
  user_ids_unique : NoDup (User._id <$> users db);
  roles_known : ∀ u, u ∈ users db →
                User.usertype u ∈ ["user"; "admin"; "flight-operator"];
  others_approved : ∀ u, u ∈ users db →
                    User.usertype u ≠ "flight-operator" →
                    User.approval u = approved
}.

(** Every booking carries the codes its position in the collection
    gives it: numbered after the passengers of the bookings stored before
    it for its flight and class. *)
Definition numberedInOrder (bs : list Booking.t) : Prop :=
  ∀ i b, bs !! i = Some b →
    Booking.seats b
    = String.concat ", "
        (codesFrom (coachPrefix (Booking.seatClass b))
           (priorCount (Booking.flight b) (Booking.seatClass b) (take i bs))
           (length (Booking.passengers b))).

(** The document /register stores for a request that it accepts with
    approval [a]. *)
Definition registeredUser (oid : ObjectId) (req : RegisterReq.t) (a : Approval)
    : User.t :=
  User.mk oid (RegisterReq.username req) (RegisterReq.email req)
          (RegisterReq.usertype req) (bcrypt_hash (RegisterReq.password req) 10) a.

(** A user document with another approval. *)
Definition withApproval (a : Approval) (v : User.t) : User.t :=
  User.mk (User._id v) (User.username v) (User.email v) (User.usertype v)
          (User.password v) a.

(** The same booking, but for its status. *)
Definition sameButStatus (b b' : Booking.t) : Prop :=
  Booking.set_bookingStatus confirmed b' = Booking.set_bookingStatus confirmed b.

(** Seats are conserved: every flight has a capacity from 0 up to
    2^53 - 1, of which the seats left and the seats of its confirmed
    bookings are the two parts; bookings name stored flights. *)
Definition SeatsConserved (fl : gmap positive Flight.t) (bs : list Booking.t)
    : Prop :=
  (∀ fid f, fl !! fid = Some f →
     0 ≤ Flight.availableSeats f
     ∧ Flight.totalSeats f < exactBelow
     ∧ Flight.availableSeats f + confirmedSeats fid bs = Flight.totalSeats f)
  ∧ (∀ b, b ∈ bs → is_Some (fl !! Booking.flight b)).

(** A request field that [||] would pass over counts as missing. *)
Definition truthyOnly {A : Type} `{Truthy A} (a : option A) : option A :=
  match a with
  | Some v => if truthy v then Some v else None
  | None => None
  end.

Definition dropFalsy (req : UpdateFlightReq.t) : UpdateFlightReq.t :=
  UpdateFlightReq.mk (UpdateFlightReq._id req)
    (truthyOnly (UpdateFlightReq.flightName req))
    (truthyOnly (UpdateFlightReq.flightId req))
    (truthyOnly (UpdateFlightReq.origin req))
    (truthyOnly (UpdateFlightReq.destination req))
    (truthyOnly (UpdateFlightReq.departureTime req))
    (truthyOnly (UpdateFlightReq.arrivalTime req))
    (truthyOnly (UpdateFlightReq.basePrice req))
    (truthyOnly (UpdateFlightReq.totalSeats req))
    (UpdateFlightReq.journeyDate req).

(** The schedule that resumes call 0 four times, then call 1 four times,
    and so on. *)
Definition oneAtATime (first n : nat) : list nat :=
  flat_map (fun i => replicate 4 i) (seq first n).

(** What a call in flight holds never asks for more seats than the
    flight it read had left. *)
Definition withinSeatsRead (t : InFlight.Task) : Prop :=
  match t with
  | InFlight.AwaitFindBookings _ c flight
  | InFlight.AwaitBookingSave c flight _ =>
    toDouble (Z.of_nat (length (BookReq.passengers (InFlight.req c))))
    ≤ toDouble (Flight.availableSeats flight)
  | InFlight.AwaitFlightSave _ _ availableSeats _ => 0 ≤ availableSeats
  | _ => True
  end.

(** ** A small database for the examples *)

Module Sample.

Definition operator : Jwt.payload := Jwt.mk 1 "flight-operator" approved.

Definition traveler : Jwt.payload := Jwt.mk 2 "user" approved.

Definition passenger : Passenger.t := Passenger.mk "Asha" 30.

Definition flightReq (seats : Z) : AddFlightReq.t :=
  AddFlightReq.mk "SkyJet" "SJ101" "Delhi" "Mumbai" "10:00 AM" "12:00 PM"
                  100 seats (DateAt 0).

(** The flight /add-flight stores for [flightReq seats] under id 1. *)
Definition flight (seats : Z) : Flight.t :=
  Flight.mk 1 "SkyJet" "SJ101" "Delhi" "Mumbai" "10:00 AM" "12:00 PM"
            100 seats (DateAt 0) seats.

Definition withFlight (seats : Z) : DB := mkDB [] (<[1%positive := flight seats]> ∅) [].

Definition bookReq (seatClass : string) (n : nat) : BookReq.t :=
  BookReq.mk 1 (replicate n passenger) seatClass None.

(** The booking the traveler gets for two economy seats on the fresh
    flight with ten seats, and the database after it. *)
Definition booking : Booking.t :=
  newBooking traveler 7 0 (bookReq "economy" 2) (flight 10) [].

Definition booked : DB :=
  mkDB [] (<[1%positive := Flight.set_availableSeats 8 (flight 10)]> ∅) [booking].

Definition admin : Jwt.payload := Jwt.mk 3 "admin" approved.

Definition operatorSignup : RegisterReq.t :=
  RegisterReq.mk "opal" "opal@skyjet.example" "flight-operator" "s3cret".

Definition travelerSignup : RegisterReq.t :=
  RegisterReq.mk "tara" "tara@mail.example" "traveler" "pa55word".

(** A call for one seat in a class, by the traveler. *)
Definition call (oid : ObjectId) (seatClass : string) : InFlight.BookCall :=
  InFlight.mkCall (GoodToken traveler) oid 0 (bookReq seatClass 1).

(** An edit that carries nothing but a lower capacity. *)
Definition shrink : UpdateFlightReq.t :=
  UpdateFlightReq.mk 1 None None None None None None None (Some 5) None.

Definition noChange : UpdateFlightReq.t :=
  UpdateFlightReq.mk 1 None None None None None None None None None.

End Sample.

(** More sample data. *)

Module Demo.

Definition adminSignup : RegisterReq.t :=
  RegisterReq.mk "ada" "ada@skyjet.example" "admin" "r00t".

Definition userSignup : RegisterReq.t :=
  RegisterReq.mk "tara" "tara@mail.example" "user" "pa55word".

(** The users after an admin, an operator and a traveler signed up. *)
Definition signedUp : DB :=
  serveAll [PostRegister 3 adminSignup;
            PostRegister 1 Sample.operatorSignup;
            PostRegister 2 userSignup] emptyDB.

Definition stranger : Jwt.payload := Jwt.mk 4 "user" approved.

(** A password of 72 bytes followed by [tail]. *)
Definition longPassword (tail : string) : string :=
  "correct-horse-battery-staple-correct-horse-battery-staple-correct-horse-"
  +:+ tail.

Definition longSignup : RegisterReq.t :=
  RegisterReq.mk "lena" "lena@mail.example" "user" (longPassword "x").

Definition zeroPrice : UpdateFlightReq.t :=
  UpdateFlightReq.mk 1 (Some "") None None None None None (Some 0) (Some 0)
                     None.

Definition badDate : UpdateFlightReq.t :=
  UpdateFlightReq.mk 1 (Some "NightJet") None None None None None None None
                     (Some InvalidDate).

End Demo.

(** * Properties *)

(** Case analysis on [x ∈ [a; b; ...]] for a list that is written out. *)
Ltac cases_of_membership H :=
  rewrite !elem_of_cons, elem_of_nil in H; decompose [or] H; try contradiction.

(** ** Numbers *)

Lemma binade (a : Z) :
  2 ^ 53 ≤ a →
  let e := Z.log2 a - 52 in
  1 ≤ e ∧ 2 ^ 52 * 2 ^ e ≤ a < 2 ^ 53 * 2 ^ e
  ∧ 2 ^ 52 ≤ a / 2 ^ e < 2 ^ 53.
Proof.
  intros Ha e.
  assert (Hpos : 0 < a) by lia.
  pose proof (Z.log2_spec a Hpos) as [Hlo Hhi].
  assert (Hlog : 53 ≤ Z.log2 a).
  { apply Z.log2_le_pow2; lia. }
  assert (He : 1 ≤ e) by (subst e; lia).
  assert (Hu : 0 < 2 ^ e) by (apply Z.pow_pos_nonneg; lia).
  assert (E1 : 2 ^ 52 * 2 ^ e = 2 ^ Z.log2 a).
  { rewrite <- Z.pow_add_r by lia. f_equal. subst e. lia. }
  assert (E2 : 2 ^ 53 * 2 ^ e = 2 ^ Z.succ (Z.log2 a)).
  { rewrite <- Z.pow_add_r by lia. f_equal. subst e. lia. }
  split; [done |]. split; [lia |]. split.
  - apply Z.div_le_lower_bound; lia.
  - apply Z.div_lt_upper_bound; lia.
Qed.

(** The rounded magnitude stays within its binade. *)
Lemma roundMagnitude_binade (a : Z) :
  2 ^ 53 ≤ a →
  let e := Z.log2 a - 52 in
  ∃ q, roundMagnitude a = q * 2 ^ e ∧ 2 ^ 52 ≤ q ≤ 2 ^ 53
       ∧ (q = a / 2 ^ e ∨ q = a / 2 ^ e + 1).
Proof.
  intros Ha e. destruct (binade a Ha) as (He & Hb & Hq). fold e in He, Hb, Hq.
  unfold roundMagnitude. rewrite (proj2 (Z.ltb_ge _ _)) by lia. fold e.
  cbv zeta.
  repeat match goal with |- context [if ?c then _ else _] => destruct c end;
    eexists; (split; [reflexivity |]); lia.
Qed.

Lemma roundMagnitude_nonneg (a : Z) : 0 ≤ a → 0 ≤ roundMagnitude a.
Proof.
  intros Ha. destruct (decide (a < 2 ^ 53)) as [Hs|Hl].
  - unfold roundMagnitude. by rewrite (proj2 (Z.ltb_lt _ _)) by lia.
  - destruct (roundMagnitude_binade a) as (q & -> & Hq & _); [lia |].
    assert (0 < 2 ^ (Z.log2 a - 52)) by (apply Z.pow_pos_nonneg; [lia |];
      destruct (binade a); lia).
    nia.
Qed.

Lemma roundMagnitude_small (a : Z) : a ≤ 2 ^ 53 → roundMagnitude a = a.
Proof.
  intros Ha. destruct (decide (a = 2 ^ 53)) as [-> | Hne]; [reflexivity |].
  unfold roundMagnitude. by rewrite (proj2 (Z.ltb_lt _ _)) by lia.
Qed.

(** A significand of 53 bits times a power of two is kept. *)
Lemma roundMagnitude_fixed (q e : Z) :
  1 ≤ e → 2 ^ 52 ≤ q < 2 ^ 53 → roundMagnitude (q * 2 ^ e) = q * 2 ^ e.
Proof.
  intros He Hq.
  assert (Hu : 0 < 2 ^ e) by (apply Z.pow_pos_nonneg; lia).
  assert (Hu2 : 2 ≤ 2 ^ e).
  { change 2 with (2 ^ 1) at 1. apply Z.pow_le_mono_r; lia. }
  assert (Hlog : Z.log2 (q * 2 ^ e) = 52 + e).
  { apply Z.log2_unique; [lia |].
    rewrite Z.pow_succ_r, Z.pow_add_r by lia. nia. }
  unfold roundMagnitude. rewrite (proj2 (Z.ltb_ge _ _)) by nia.
  rewrite Hlog. replace (52 + e - 52) with e by lia. cbv zeta.
  rewrite Z.mod_mul, Z.div_mul by lia.
  by rewrite (proj2 (Z.ltb_lt _ _)) by lia.
Qed.

Lemma roundMagnitude_idemp (a : Z) :
  roundMagnitude (roundMagnitude a) = roundMagnitude a.
Proof.
  destruct (decide (a < 2 ^ 53)) as [Hs|Hl].
  - rewrite (roundMagnitude_small a) by lia. apply roundMagnitude_small. lia.
  - destruct (binade a) as (He & _ & _); [lia |].
    destruct (roundMagnitude_binade a) as (q & -> & Hq & _); [lia |].
    set (e := Z.log2 a - 52) in *.
    destruct (decide (q = 2 ^ 53)) as [-> | Hne].
    + replace (2 ^ 53 * 2 ^ e) with (2 ^ 52 * 2 ^ (e + 1))
        by (rewrite Z.pow_add_r by lia; lia).
      apply roundMagnitude_fixed; lia.
    + apply roundMagnitude_fixed; lia.
Qed.

Lemma roundMagnitude_mono (a b : Z) :
  0 ≤ a → a ≤ b → roundMagnitude a ≤ roundMagnitude b.
Proof.
  intros Ha Hab.
  destruct (decide (b < 2 ^ 53)) as [Hb|Hb].
  { rewrite !roundMagnitude_small by lia. done. }
  destruct (binade b) as (Heb & Hbb & Hqb); [lia |].
  destruct (roundMagnitude_binade b) as (qb & Eb & Hqb' & Hqb''); [lia |].
  set (eb := Z.log2 b - 52) in *.
  assert (Hub : 0 < 2 ^ eb) by (apply Z.pow_pos_nonneg; lia).
  destruct (decide (a < 2 ^ 53)) as [Hsa|Hla].
  { rewrite (roundMagnitude_small a) by lia. rewrite Eb. nia. }
  destruct (binade a) as (Hea & Hba & Hqa); [lia |].
  destruct (roundMagnitude_binade a) as (qa & Ea & Hqa' & Hqa''); [lia |].
  set (ea := Z.log2 a - 52) in *.
  assert (Hua : 0 < 2 ^ ea) by (apply Z.pow_pos_nonneg; lia).
  assert (Hle : ea ≤ eb).
  { subst ea eb. pose proof (Z.log2_le_mono a b Hab). lia. }
  destruct (decide (ea = eb)) as [Heq | Hlt].
  - (* the same binade *)
    clear Ea Eb qa qb Hqa' Hqa'' Hqb' Hqb''.
    unfold roundMagnitude.
    rewrite !(proj2 (Z.ltb_ge _ _)) by lia.
    fold ea eb. rewrite Heq in *. cbv zeta.
    set (u := 2 ^ eb) in *.
    pose proof (Z.div_mod a u ltac:(lia)) as Da.
    pose proof (Z.div_mod b u ltac:(lia)) as Db.
    pose proof (Z.mod_pos_bound a u Hub) as Ra.
    pose proof (Z.mod_pos_bound b u Hub) as Rb.
    assert (Hq : a / u ≤ b / u) by (apply Z.div_le_mono; lia).
    destruct (decide (a / u = b / u)) as [Eq | Nq].
    + rewrite <- Eq in *.
      assert (a mod u ≤ b mod u) by lia.
      repeat match goal with
             | |- context [?x <? ?y] => destruct (Z.ltb_spec x y)
             end; destruct (Z.even (a / u)); nia.
    + assert (a / u + 1 ≤ b / u) by lia.
      repeat match goal with
             | |- context [?x <? ?y] => destruct (Z.ltb_spec x y)
             end; destruct (Z.even (a / u)); destruct (Z.even (b / u)); nia.
  - (* a lower binade *)
    rewrite Ea, Eb.
    assert (2 ^ 53 * 2 ^ ea ≤ 2 ^ 52 * 2 ^ eb).
    { replace (2 ^ 53 * 2 ^ ea) with (2 ^ 52 * 2 ^ (ea + 1))
        by (rewrite Z.pow_add_r by lia; lia).
      apply Z.mul_le_mono_nonneg_l; [lia |].
      apply Z.pow_le_mono_r; lia. }
    nia.
Qed.

Lemma toDouble_small (z : Z) : - 2 ^ 53 ≤ z ≤ 2 ^ 53 → toDouble z = z.
Proof.
  intros Hz. unfold toDouble. destruct (Z.ltb_spec z 0).
  - rewrite roundMagnitude_small by lia. lia.
  - apply roundMagnitude_small. lia.
Qed.

Lemma toDouble_idemp (z : Z) : toDouble (toDouble z) = toDouble z.
Proof.
  unfold toDouble. destruct (Z.ltb_spec z 0) as [Hz|Hz].
  - pose proof (roundMagnitude_nonneg (- z) ltac:(lia)) as Hr.
    destruct (Z.ltb_spec (- roundMagnitude (- z)) 0).
    + rewrite Z.opp_involutive. by rewrite roundMagnitude_idemp.
    + assert (E : roundMagnitude (- z) = 0) by lia. rewrite E. reflexivity.
  - pose proof (roundMagnitude_nonneg z Hz) as Hr.
    rewrite (proj2 (Z.ltb_ge _ _)) by lia. apply roundMagnitude_idemp.
Qed.

Lemma toDouble_mono (x y : Z) : x ≤ y → toDouble x ≤ toDouble y.
Proof.
  intros Hxy. unfold toDouble.
  destruct (Z.ltb_spec x 0) as [Hx|Hx]; destruct (Z.ltb_spec y 0) as [Hy|Hy].
  - pose proof (roundMagnitude_mono (- y) (- x) ltac:(lia) ltac:(lia)). lia.
  - pose proof (roundMagnitude_nonneg (- x) ltac:(lia)).
    pose proof (roundMagnitude_nonneg y Hy). lia.
  - lia.
  - by apply roundMagnitude_mono.
Qed.

Lemma toDouble_nonneg (z : Z) : 0 ≤ z → 0 ≤ toDouble z.
Proof. intros Hz. by apply (toDouble_mono 0 z). Qed.

Lemma toDouble_neg (z : Z) : z < 0 → toDouble z < 0.
Proof.
  intros Hz. pose proof (toDouble_mono z (-1) ltac:(lia)) as H.
  rewrite (toDouble_small (-1)) in H by lia. lia.
Qed.

(** A count that passes the seat check of a flight with fewer than 2^53
    seats left is no more than the seats left. *)
Lemma toDouble_le_exact (n a : Z) :
  0 ≤ n → a < 2 ^ 53 → toDouble n ≤ toDouble a → 0 ≤ a ∧ n ≤ a.
Proof.
  intros Hn Ha Hle.
  assert (0 ≤ a) as Ha0.
  { destruct (Z_lt_le_dec a 0) as [Hneg | ?]; [| done].
    pose proof (toDouble_neg a Hneg). pose proof (toDouble_nonneg n Hn). lia. }
  split; [done |].
  rewrite (toDouble_small a) in Hle by lia.
  destruct (Z_lt_le_dec n (2 ^ 53)) as [? | Hbig].
  - rewrite (toDouble_small n) in Hle by lia. done.
  - pose proof (toDouble_mono _ _ Hbig) as H.
    rewrite (toDouble_small (2 ^ 53)) in H by lia. lia.
Qed.

Lemma jsLt_exact (x y : Z) :
  - 2 ^ 53 ≤ x ≤ 2 ^ 53 → - 2 ^ 53 ≤ y ≤ 2 ^ 53 →
  jsLt x y = bool_decide (x < y).
Proof. intros Hx Hy. unfold jsLt. by rewrite !toDouble_small. Qed.

Lemma jsLt_le (x y : Z) : y ≤ x → jsLt x y = false.
Proof.
  intros Hle. apply bool_decide_eq_false_2.
  pose proof (toDouble_mono _ _ Hle). lia.
Qed.

Lemma jsSub_exact (x y : Z) :
  - 2 ^ 53 ≤ x ≤ 2 ^ 53 → - 2 ^ 53 ≤ y ≤ 2 ^ 53 → - 2 ^ 53 ≤ x - y ≤ 2 ^ 53 →
  jsSub x y = x - y.
Proof.
  intros Hx Hy Hxy. unfold jsSub.
  rewrite (toDouble_small x), (toDouble_small y) by done.
  by apply toDouble_small.
Qed.

Lemma jsAdd_exact (x y : Z) :
  - 2 ^ 53 ≤ x ≤ 2 ^ 53 → - 2 ^ 53 ≤ y ≤ 2 ^ 53 → - 2 ^ 53 ≤ x + y ≤ 2 ^ 53 →
  jsAdd x y = x + y.
Proof.
  intros Hx Hy Hxy. unfold jsAdd.
  rewrite (toDouble_small x), (toDouble_small y) by done.
  by apply toDouble_small.
Qed.

Lemma jsMul_exact (x y : Z) :
  - 2 ^ 53 ≤ x ≤ 2 ^ 53 → - 2 ^ 53 ≤ y ≤ 2 ^ 53 → - 2 ^ 53 ≤ x * y ≤ 2 ^ 53 →
  jsMul x y = x * y.
Proof.
  intros Hx Hy Hxy. unfold jsMul.
  rewrite (toDouble_small x), (toDouble_small y) by done.
  by apply toDouble_small.
Qed.

(** The price of [x] seats at [y] each, when neither the price of one
    seat nor the product leaves the exact range. *)
Lemma jsMul_count (x y : Z) :
  0 ≤ x → - 2 ^ 53 ≤ y ≤ 2 ^ 53 → - 2 ^ 53 ≤ x * y ≤ 2 ^ 53 →
  jsMul x y = x * y.
Proof.
  intros Hx Hy Hxy. destruct (decide (y = 0)) as [-> | Hy0].
  - unfold jsMul. rewrite (toDouble_small 0) by lia.
    by rewrite !Z.mul_0_r.
  - apply jsMul_exact; [| done | done]. nia.
Qed.

Lemma jsSub_0 (x : Z) : jsSub x 0 = toDouble x.
Proof.
  unfold jsSub. rewrite (toDouble_small 0) by lia.
  rewrite Z.sub_0_r. apply toDouble_idemp.
Qed.

Lemma jsMul_0 (y : Z) : jsMul 0 y = 0.
Proof. unfold jsMul. by rewrite (toDouble_small 0) by lia. Qed.

(** The difference that /book-ticket stores is not negative when the
    check passed, and not more than the count read. *)
Lemma jsSub_bounds (x y : Z) :
  0 ≤ y → toDouble y ≤ toDouble x → 0 ≤ jsSub x y ≤ toDouble x.
Proof.
  intros Hy Hle. unfold jsSub. pose proof (toDouble_nonneg y Hy). split.
  - apply toDouble_nonneg. lia.
  - rewrite <- (toDouble_idemp x) at 2. apply toDouble_mono. lia.
Qed.

(** ** The store operations *)

(** Saving the count that was loaded changes nothing. *)
Lemma Flight_saveAvailableSeats_same (fid : ObjectId) (flight : Flight.t)
    (db : DB) :
  flights db !! fid = Some flight →
  Flight_saveAvailableSeats fid (Flight.availableSeats flight) db = db.
Proof.
  intros Hf. destruct db as [us fs bs]. unfold Flight_saveAvailableSeats.
  simpl in *. f_equal. apply map_eq. intros i.
  destruct (decide (i = fid)) as [-> | Hne].
  - rewrite lookup_alter_eq, Hf. simpl. by destruct flight.
  - by rewrite lookup_alter_ne.
Qed.

Lemma Flight_assign_assigned (flight : Flight.t) (fid : ObjectId) (v : Z)
    (db : DB) :
  flights db !! fid = Some flight →
  Flight_assignAvailableSeats flight fid v db
  = Flight_saveAvailableSeats fid (assigned (Flight.availableSeats flight) v) db.
Proof.
  intros Hf. unfold Flight_assignAvailableSeats, assigned.
  case_decide; [| done]. symmetry. by apply Flight_saveAvailableSeats_same.
Qed.

Lemma Flight_assign_bookings (flight : Flight.t) (fid : ObjectId) (v : Z)
    (db : DB) :
  bookings (Flight_assignAvailableSeats flight fid v db) = bookings db.
Proof. unfold Flight_assignAvailableSeats. by case_decide. Qed.

Lemma Flight_assign_users (flight : Flight.t) (fid : ObjectId) (v : Z)
    (db : DB) :
  users (Flight_assignAvailableSeats flight fid v db) = users db.
Proof. unfold Flight_assignAvailableSeats. by case_decide. Qed.

(** A count below 2^53 that passed the seat check is lowered by exactly
    the seats asked for. *)
Lemma assigned_sub_exact (a n : Z) :
  0 ≤ n → a < 2 ^ 53 → toDouble n ≤ toDouble a →
  assigned a (jsSub a n) = a - n.
Proof.
  intros Hn Ha Hle. destruct (toDouble_le_exact n a Hn Ha Hle) as [Ha0 Hna].
  unfold assigned. rewrite jsSub_exact by lia.
  rewrite (toDouble_small a) by lia. case_decide; lia.
Qed.

Lemma assigned_add_exact (a n : Z) :
  0 ≤ n → 0 ≤ a → a + n ≤ 2 ^ 53 →
  assigned a (jsAdd a n) = a + n.
Proof.
  intros Hn Ha Hle. unfold assigned. rewrite jsAdd_exact by lia.
  rewrite (toDouble_small a) by lia. case_decide; lia.
Qed.


Lemma assigned_sub_0 (a : Z) : assigned a (jsSub a 0) = a.
Proof. unfold assigned. rewrite jsSub_0. by rewrite decide_True. Qed.

Lemma findOne_app_None {A : Type} (P : A -> Prop) `{∀ x, Decision (P x)}
    (l : list A) (x : A) :
  findOne P l = None → findOne P (l ++ [x]) = (if decide (P x) then Some x else None).
Proof.
  unfold findOne. induction l as [|y l IH]; simpl.
  - intros _. destruct (decide (P x)) as [Hp|Hp].
    + by rewrite bool_decide_eq_true_2.
    + by rewrite bool_decide_eq_false_2.
  - destruct (bool_decide (P y)); [done | exact IH].
Qed.

Lemma findOne_Some {A : Type} (P : A -> Prop) `{∀ x, Decision (P x)}
    (l : list A) (x : A) :
  findOne P l = Some x → P x ∧ x ∈ l.
Proof.
  unfold findOne. induction l as [|y l IH]; simpl; [done |].
  destruct (bool_decide (P y)) eqn:Hy.
  - intros [= ->]. apply bool_decide_eq_true in Hy. split; [done | left].
  - intros Hx. destruct (IH Hx). split; [done | by right].
Qed.

Lemma findOne_updateOne {A : Type} (P : A -> Prop) `{∀ x, Decision (P x)}
    (change : A -> A) (l : list A) (x : A) :
  (∀ y, P y → P (change y)) →
  findOne P l = Some x →
  findOne P (updateOne P change l) = Some (change x).
Proof.
  intros Hkeep. unfold findOne. induction l as [|y l IH]; simpl; [done |].
  destruct (decide (P y)) as [Hy|Hy].
  - rewrite (bool_decide_eq_true_2 _ Hy). intros [= ->]. simpl.
    by rewrite (bool_decide_eq_true_2 _ (Hkeep _ Hy)).
  - rewrite (bool_decide_eq_false_2 _ Hy). simpl.
    rewrite (bool_decide_eq_false_2 _ Hy). exact IH.
Qed.

Lemma nonEmpty_true (s : string) : nonEmpty s = true ↔ s ≠ "".
Proof.
  unfold nonEmpty. rewrite negb_true_iff. split.
  - intros E ->. by rewrite String.eqb_refl in E.
  - intros Hne. by apply String.eqb_neq.
Qed.

(** ** Counting the seats of a class *)

Lemma numBooked_from (fid : ObjectId) (c : string) (bs : list Booking.t) (a : nat) :
  foldl (fun acc booking => (acc + length (Booking.passengers booking))%nat) a
        (filter (fun b => Booking.flight b = fid ∧ Booking.seatClass b = c) bs)
  = (a + priorCount fid c bs)%nat.
Proof.
  revert a. induction bs as [|b bs IH]; intros a; simpl.
  - lia.
  - rewrite filter_cons. destruct (decide _); simpl; rewrite IH; lia.
Qed.

Lemma numBooked_priorCount (fid : ObjectId) (c : string) (db : DB) :
  numBookedSeatsInClass (existingBookingsInClass fid c db)
  = priorCount fid c (bookings db).
Proof.
  unfold numBookedSeatsInClass, existingBookingsInClass.
  by rewrite numBooked_from.
Qed.

Lemma priorCount_app (fid : ObjectId) (c : string) (l1 l2 : list Booking.t) :
  priorCount fid c (l1 ++ l2) = (priorCount fid c l1 + priorCount fid c l2)%nat.
Proof. induction l1 as [|b l1 IH]; simpl; [done | rewrite IH; lia]. Qed.

Lemma priorCount_updateOne (fid : ObjectId) (c : string) (bid : ObjectId)
    (s : BookingStatus) (bs : list Booking.t) :
  priorCount fid c
    (updateOne (fun b => Booking._id b = bid) (Booking.set_bookingStatus s) bs)
  = priorCount fid c bs.
Proof.
  induction bs as [|b bs IH]; simpl; [done |].
  destruct (decide (Booking._id b = bid)); simpl; [done | by rewrite IH].
Qed.

Lemma seatsAssigned_codesFrom (prefix : string) (prior n : nat) :
  seatsAssigned prefix prior n = codesFrom prefix prior n.
Proof.
  unfold seatsAssigned, codesFrom.
  rewrite <- (fmap_S_seq 0 n), <- list_fmap_compose.
  apply list_fmap_ext. intros _ i _. simpl.
  by replace (prior + i + 1)%nat with (prior + S i)%nat by lia.
Qed.

(** ** What /book-ticket does, case by case *)

Lemma bookTicket_created (u : Jwt.payload) (oid : ObjectId) (now : Z)
    (req : BookReq.t) (db : DB) (flight : Flight.t) :
  flights db !! BookReq.flightId req = Some flight →
  toDouble (Z.of_nat (length (BookReq.passengers req)))
  ≤ toDouble (Flight.availableSeats flight) →
  nonEmpty (Flight.flightName flight) = true →
  findOne (fun b => Booking._id b = oid) (bookings db) = None →
  let b := newBooking u oid now req flight
             (existingBookingsInClass (BookReq.flightId req)
                                      (BookReq.seatClass req) db) in
  bookTicket (GoodToken u) oid now req db
  = (Flight_saveAvailableSeats (BookReq.flightId req)
       (assigned (Flight.availableSeats flight)
          (jsSub (Flight.availableSeats flight)
                 (Z.of_nat (length (BookReq.passengers req)))))
       (mkDB (users db) (flights db) (bookings db ++ [b])),
     created b).
Proof.
  intros Hf Hn Hname Hfresh b. unfold bookTicket. simpl. rewrite Hf.
  unfold jsLt. rewrite bool_decide_eq_false_2 by lia.
  unfold Booking_insert. fold b.
  replace (Booking.valid b) with true by (symmetry; exact Hname).
  replace (Booking._id b) with oid by reflexivity.
  rewrite Hfresh. rewrite bool_decide_eq_true_2 by done. simpl.
  by rewrite Flight_assign_assigned.
Qed.

(** Either nothing is stored and the answer is an error, or the call was
    authenticated, found its flight with seats enough, and stored the
    booking and the lowered seat count. *)
Lemma bookTicket_cases (h : AuthHeader) (oid : ObjectId) (now : Z)
    (req : BookReq.t) (db : DB) :
  (fst (bookTicket h oid now req db) = db
   ∧ status (snd (bookTicket h oid now req db)) ≠ 201%nat)
  ∨ ∃ u flight,
      h = GoodToken u
      ∧ flights db !! BookReq.flightId req = Some flight
      ∧ toDouble (Z.of_nat (length (BookReq.passengers req)))
        ≤ toDouble (Flight.availableSeats flight)
      ∧ findOne (fun b => Booking._id b = oid) (bookings db) = None
      ∧ bookTicket h oid now req db
        = (Flight_saveAvailableSeats (BookReq.flightId req)
             (assigned (Flight.availableSeats flight)
                (jsSub (Flight.availableSeats flight)
                       (Z.of_nat (length (BookReq.passengers req)))))
             (mkDB (users db) (flights db)
                (bookings db
                 ++ [newBooking u oid now req flight
                       (existingBookingsInClass (BookReq.flightId req)
                          (BookReq.seatClass req) db)])),
           created
             (newBooking u oid now req flight
                (existingBookingsInClass (BookReq.flightId req)
                   (BookReq.seatClass req) db))).
Proof.
  unfold bookTicket.
  destruct h as [| |u]; simpl; [left; split; [done | lia].. |].
  destruct (flights db !! BookReq.flightId req) as [flight|] eqn:Hf;
    [| left; split; [done | simpl; lia]].
  unfold jsLt. case_bool_decide as Hn; [left; split; [done | simpl; lia] |].
  unfold Booking_insert.
  destruct (Booking.valid _ && _) eqn:Hins; [| left; split; [done | simpl; lia]].
  right. exists u, flight.
  apply andb_true_iff in Hins as [_ Hfresh].
  apply bool_decide_eq_true in Hfresh.
  split; [done |]. split; [done |]. split; [lia |]. split; [exact Hfresh |].
  by rewrite Flight_assign_assigned.
Qed.

Lemma set_availableSeats_same (f : Flight.t) :
  Flight.set_availableSeats (Flight.availableSeats f) f = f.
Proof. by destruct f. Qed.

(** C4: with exactly [n] seats left, a booking for [n] passengers is
    created (201) and leaves [availableSeats = 0]; a booking for [n+1]
    passengers (an array) is answered 400 with the message "Not enough
    seats available. Only n seats left.", [n] printed as the number it
    is, and the database, flight and bookings, is the one it was. *)
Theorem book_exact_fit (u u' : Jwt.payload) (oid oid' : ObjectId) (now now' : Z)
    (req req' : BookReq.t) (db : DB) (flight : Flight.t) :
  flights db !! BookReq.flightId req = Some flight →
  Flight.availableSeats flight = Z.of_nat (length (BookReq.passengers req)) →
  nonEmpty (Flight.flightName flight) = true →
  findOne (fun b => Booking._id b = oid) (bookings db) = None →
  BookReq.flightId req' = BookReq.flightId req →
  length (BookReq.passengers req') = S (length (BookReq.passengers req)) →
  jsArray (BookReq.passengers req') →
  (∃ b db', bookTicket (GoodToken u) oid now req db
            = (db', mkResponse 201 (MessageBooking "Booking successful!" b))
     ∧ bookings db' = bookings db ++ [b]
     ∧ Flight.availableSeats <$> flights db' !! BookReq.flightId req = Some 0)
  ∧ bookTicket (GoodToken u') oid' now' req' db
    = (db, mkResponse 400
             (Message ("Not enough seats available. Only "
                       +:+ numberText (Flight.availableSeats flight)
                       +:+ " seats left."))).
Proof.
  intros Hf Hn Hname Hfresh Hsame Hmore Harr.
  unfold jsArray in Harr. rewrite Hmore in Harr.
  assert (Z.of_nat (length (BookReq.passengers req)) < 2 ^ 53) as Hsmall by lia.
  split.
  - eexists _, _. split; [apply (bookTicket_created u oid now req db flight);
                           [done | rewrite Hn; lia | done | done] |].
    split; [done |]. simpl. rewrite lookup_alter_eq, Hf. simpl.
    f_equal. rewrite assigned_sub_exact by (rewrite ?Hn; lia). lia.
  - unfold bookTicket. simpl. rewrite Hsame, Hf, Hmore.
    rewrite jsLt_exact by lia. rewrite bool_decide_eq_true_2 by lia.
    reflexivity.
Qed.

Lemma book_exact_fit_witness :
  (∃ b db', bookTicket (GoodToken Sample.traveler) 7 0
              (Sample.bookReq "economy" 3) (Sample.withFlight 3) = (db', created b)
     ∧ bookings db' = bookings (Sample.withFlight 3) ++ [b]
     ∧ Flight.availableSeats <$> flights db' !! 1%positive = Some 0)
  ∧ bookTicket (GoodToken Sample.traveler) 8 0
      (Sample.bookReq "economy" 4) (Sample.withFlight 3)
    = (Sample.withFlight 3,
       mkResponse 400
         (Message "Not enough seats available. Only 3 seats left.")).
Proof.
  apply (book_exact_fit Sample.traveler Sample.traveler 7 8 0 0
           (Sample.bookReq "economy" 3) (Sample.bookReq "economy" 4)
           (Sample.withFlight 3) (Sample.flight 3));
    first [reflexivity | unfold jsArray; simpl; lia].
Defined.



(** C9: /update-flight leaves every field that the request does not
    carry at its stored value, never touches [availableSeats], and
    changes no other document. *)
Theorem update_keeps_absent_fields (h : AuthHeader) (req : UpdateFlightReq.t)
    (db : DB) (flight : Flight.t) :
  flights db !! UpdateFlightReq._id req = Some flight →
  let db' := fst (updateFlight h req db) in
  ∃ flight',
    flights db' !! UpdateFlightReq._id req = Some flight'
    ∧ Flight.availableSeats flight' = Flight.availableSeats flight
    ∧ Flight._id flight' = Flight._id flight
    ∧ (UpdateFlightReq.flightName req = None →
       Flight.flightName flight' = Flight.flightName flight)
    ∧ (UpdateFlightReq.flightId req = None →
       Flight.flightId flight' = Flight.flightId flight)
    ∧ (UpdateFlightReq.origin req = None →
       Flight.origin flight' = Flight.origin flight)
    ∧ (UpdateFlightReq.destination req = None →
       Flight.destination flight' = Flight.destination flight)
    ∧ (UpdateFlightReq.departureTime req = None →
       Flight.departureTime flight' = Flight.departureTime flight)
    ∧ (UpdateFlightReq.arrivalTime req = None →
       Flight.arrivalTime flight' = Flight.arrivalTime flight)
    ∧ (UpdateFlightReq.basePrice req = None →
       Flight.basePrice flight' = Flight.basePrice flight)
    ∧ (UpdateFlightReq.totalSeats req = None →
       Flight.totalSeats flight' = Flight.totalSeats flight)
    ∧ (UpdateFlightReq.journeyDate req = None →
       Flight.journeyDate flight' = Flight.journeyDate flight)
    ∧ (∀ fid, fid ≠ UpdateFlightReq._id req →
       flights db' !! fid = flights db !! fid)
    ∧ users db' = users db
    ∧ bookings db' = bookings db.
Proof.
  intros Hf db'. subst db'. unfold updateFlight.
  destruct (authMiddleware h) as [r|u];
    [exists flight; by repeat split |].
  destruct (flightOperatorAuth u) as [r|];
    [exists flight; by repeat split |].
  rewrite Hf. unfold Flight_update.
  destruct (Flight.valid (applyUpdate req flight));
    [| exists flight; by repeat split].
  exists (applyUpdate req flight). simpl.
  rewrite lookup_insert_eq.
  repeat split; try done; try (by intros ->).
  intros fid Hne. by rewrite lookup_insert_ne.
Qed.

Example sample_booking :
  bookTicket (GoodToken Sample.traveler) 7 0 (Sample.bookReq "economy" 2)
             (Sample.withFlight 10)
  = (Sample.booked, created Sample.booking).
Proof. vm_compute. reflexivity. Qed.


Lemma update_keeps_absent_fields_witness :
  ∃ flight',
    flights (fst (updateFlight (GoodToken Sample.operator) Sample.noChange
                    Sample.booked)) !! 1%positive = Some flight'
    ∧ Flight.availableSeats flight' = 8.
Proof.
  destruct (update_keeps_absent_fields (GoodToken Sample.operator)
              Sample.noChange Sample.booked
              (Flight.set_availableSeats 8 (Sample.flight 10)))
    as (flight' & Hlook & Havail & _); [reflexivity |].
  exists flight'. split; [exact Hlook | exact Havail].
Defined.

(** ** Registration and login *)

(** C7 (as the code has it): a registration whose email and username are
    free (and whose id is new) is refused with 400 "Invalid usertype"
    unless its usertype is one of the strings "user", "admin",
    "flight-operator".  With one of these, and a username and an email
    that are not empty, a flight-operator is stored not-approved, a user
    or an admin approved, and the answer is 201; with one of these and an
    empty username or email nothing is stored and the answer is 500. *)
Theorem register_roles (oid : ObjectId) (req : RegisterReq.t) (db : DB) :
  findOne (fun u => User.email u = RegisterReq.email req) (users db) = None →
  findOne (fun u => User.username u = RegisterReq.username req) (users db) = None →
  findOne (fun u => User._id u = oid) (users db) = None →
  let role := RegisterReq.usertype req in
  let stored (a : Approval) :=
    let newUser := User.mk oid (RegisterReq.username req) (RegisterReq.email req)
                     role (bcrypt_hash (RegisterReq.password req) 10) a in
    if decide (RegisterReq.username req ≠ "" ∧ RegisterReq.email req ≠ "")
    then register oid req db
         = (mkDB (users db ++ [newUser]) (flights db) (bookings db),
            mkResponse 201
              (MessageTokenUser "Registration successful!" (Jwt.mk oid role a)
                 newUser))
    else register oid req db
         = (db, mkResponse 500 (Message "Server Error during registration.")) in
  if decide (role = "flight-operator") then stored not_approved
  else if decide (role = "user" ∨ role = "admin") then stored approved
  else register oid req db
       = (db, mkResponse 400
                (Message "Invalid usertype. Must be user, admin, or flight-operator.")).
Proof.
  intros Hemail Hname Hid role stored. subst stored.
  unfold register. rewrite Hemail, Hname. fold role.
  assert (Hins : ∀ a, role ≠ "" →
            User_insert (User.mk oid (RegisterReq.username req)
                           (RegisterReq.email req) role
                           (bcrypt_hash (RegisterReq.password req) 10) a) db
            = if decide (RegisterReq.username req ≠ ""
                         ∧ RegisterReq.email req ≠ "")
              then Some (mkDB (users db ++ [User.mk oid (RegisterReq.username req)
                           (RegisterReq.email req) role
                           (bcrypt_hash (RegisterReq.password req) 10) a])
                      (flights db) (bookings db))
              else None).
  { intros a Hrole. unfold User_insert, User.valid. simpl.
    rewrite Hid, Hemail. apply nonEmpty_true in Hrole. rewrite Hrole.
    case_decide as Hfilled.
    - destruct Hfilled as [Hu He].
      apply nonEmpty_true in Hu, He. rewrite Hu, He.
      by rewrite !bool_decide_eq_true_2.
    - unfold nonEmpty.
      destruct (String.eqb_spec (RegisterReq.username req) "") as [_ | Hu];
        [done |].
      destruct (String.eqb_spec (RegisterReq.email req) "") as [_ | He];
        [done |].
      exfalso. by apply Hfilled. }
  destruct (decide (role = "flight-operator")) as [Hop|Hop].
  - simpl. rewrite Hins by (by rewrite Hop). by case_decide.
  - destruct (decide (role = "user" ∨ role = "admin")) as [Hrole|Hrole].
    + rewrite (decide_False (P := role ≠ "user" ∧ role ≠ "admin"))
        by (intros [? ?]; by destruct Hrole).
      simpl. rewrite Hins by (by destruct Hrole as [-> | ->]). by case_decide.
    + rewrite decide_True; [done |]. split; intros E; apply Hrole; auto.
Qed.

(** With an accepted role and no username the answer is 500. *)
Example register_without_username :
  register 5 (RegisterReq.mk "" "opal@skyjet.example" "flight-operator" "s3cret")
           emptyDB
  = (emptyDB, mkResponse 500 (Message "Server Error during registration.")).
Proof. reflexivity. Qed.

Lemma register_roles_witness :
  register 5 Sample.operatorSignup emptyDB
  = (mkDB [User.mk 5 "opal" "opal@skyjet.example" "flight-operator"
             (bcrypt_hash "s3cret" 10) not_approved] ∅ [],
     mkResponse 201
       (MessageTokenUser "Registration successful!"
          (Jwt.mk 5 "flight-operator" not_approved)
          (User.mk 5 "opal" "opal@skyjet.example" "flight-operator"
             (bcrypt_hash "s3cret" 10) not_approved))).
Proof.
  apply (register_roles 5 Sample.operatorSignup emptyDB); reflexivity.
Defined.

(** C7, as stated, fails: "traveler" is in the specification's set of
    roles, and the route refuses it; "user", which is not, is accepted. *)
Lemma register_traveler_refused :
  register 6 Sample.travelerSignup emptyDB
  = (emptyDB, json 400 "Invalid usertype. Must be user, admin, or flight-operator.")
  ∧ status (snd (register 6 (RegisterReq.mk "tara" "tara@mail.example" "user"
                               "pa55word") emptyDB)) = 201%nat.
Proof. split; vm_compute; reflexivity. Qed.

(** What /login answers once the credentials match. *)
Lemma login_matched (req : LoginReq.t) (db : DB) (user : User.t) :
  findOne (fun u => User.email u = LoginReq.email req) (users db) = Some user →
  bcrypt_compare (LoginReq.password req) (User.password user) = true →
  login req db
  = if decide (User.usertype user = "flight-operator"
               ∧ User.approval user = not_approved)
    then json 403 "Flight operator account is not yet approved."
    else mkResponse 200
           (MessageTokenUser "Login successful!"
              (Jwt.mk (User._id user) (User.usertype user) (User.approval user))
              user).
Proof. intros Hu Hp. unfold login. by rewrite Hu, Hp. Qed.

(** C6 at a rejected operator: an operator registers, an admin rejects
    the account, and /login with the right password still answers 200
    with a token, where the specification has 403. *)
Lemma login_rejected_operator :
  let db1 := fst (register 5 Sample.operatorSignup emptyDB) in
  let db2 := fst (rejectOperator (GoodToken Sample.admin) 5 db1) in
  (User.approval <$> findOne (fun u => User._id u = 5%positive) (users db2))
  = Some rejected
  ∧ status (login (LoginReq.mk "opal@skyjet.example" "s3cret") db1) = 403%nat
  ∧ ∃ user,
      login (LoginReq.mk "opal@skyjet.example" "s3cret") db2
      = mkResponse 200
          (MessageTokenUser "Login successful!"
             (Jwt.mk 5 "flight-operator" rejected) user).
Proof.
  vm_compute. split; [reflexivity | split; [reflexivity |]].
  eexists. reflexivity.
Qed.

(** ** Seat codes as text *)

Lemma to_uint_nonnil (n : nat) : Nat.to_uint n ≠ Decimal.Nil.
Proof.
  intros E. assert (Hn : n = 0%nat).
  { rewrite <- (DecimalNat.Unsigned.of_to n), E. reflexivity. }
  subst n. discriminate E.
Qed.

Lemma countText_inj (a b : nat) : countText a = countText b → a = b.
Proof.
  unfold countText. intros E.
  apply (f_equal NilZero.uint_of_string) in E.
  rewrite !NilZero.usu in E by apply to_uint_nonnil.
  injection E as E. by apply DecimalNat.Unsigned.to_uint_inj.
Qed.

Lemma digits_no_dash (d : Decimal.uint) :
  hasDash (NilEmpty.string_of_uint d) = false.
Proof. induction d; simpl; done. Qed.

Lemma countText_no_dash (n : nat) : hasDash (countText n) = false.
Proof.
  unfold countText, NilZero.string_of_uint.
  destruct (Nat.to_uint n) eqn:E; try (rewrite <- E; apply digits_no_dash).
  reflexivity.
Qed.

Lemma append_empty (s : string) : "" +:+ s = s.
Proof. reflexivity. Qed.

Lemma append_String (a : ascii) (p s : string) :
  String a p +:+ s = String a (p +:+ s).
Proof. reflexivity. Qed.

Lemma hasDash_after (p q : string) : hasDash (p +:+ String "-" q) = true.
Proof.
  induction p as [|a p IH].
  - reflexivity.
  - rewrite append_String. simpl. rewrite IH. apply orb_true_r.
Qed.

(** A code is split at its last dash: prefix and number can be read
    back from it. *)
Lemma code_split (p1 p2 d1 d2 : string) :
  hasDash d1 = false → hasDash d2 = false →
  p1 +:+ String "-" d1 = p2 +:+ String "-" d2 → p1 = p2 ∧ d1 = d2.
Proof.
  intros H1 H2. revert p2.
  induction p1 as [|a p1 IH]; intros [|a' p2];
    rewrite ?append_empty, ?append_String.
  - by intros [= ->].
  - intros [= <- ->]. by rewrite hasDash_after in H1.
  - intros [= -> <-]. by rewrite hasDash_after in H2.
  - intros [= <- E]. destruct (IH _ E) as [-> ->]. done.
Qed.

Lemma code_inj (p1 p2 : string) (k1 k2 : nat) :
  p1 +:+ "-" +:+ countText k1 = p2 +:+ "-" +:+ countText k2 →
  p1 = p2 ∧ k1 = k2.
Proof.
  intros E.
  destruct (code_split p1 p2 (countText k1) (countText k2)
              (countText_no_dash k1) (countText_no_dash k2) E)
    as [-> Ek].
  split; [done | by apply countText_inj].
Qed.

(** ** Seat codes *)

Lemma seatCode_known (c prefix : string) :
  seatCode !! c = Some prefix ↔
  (c, prefix) ∈ [("economy", "E"); ("premium-economy", "P");
                 ("business", "B"); ("first-class", "A")].
Proof.
  unfold seatCode. rewrite !elem_of_cons, elem_of_nil.
  rewrite !lookup_insert, lookup_empty.
  repeat (destruct (decide _) as [<- | ?]);
    (split; [intros [= <-]; tauto | intros Hin; decompose [or] Hin; simplify_eq; done]).
Qed.

Lemma seatCode_unknown (c : string) : ¬ knownClass c → seatCode !! c = None.
Proof.
  unfold knownClass. intros Hc.
  destruct (seatCode !! c) as [prefix|] eqn:E; [| done].
  exfalso. apply Hc. apply seatCode_known in E.
  rewrite !elem_of_cons, elem_of_nil in E.
  rewrite !elem_of_cons, elem_of_nil.
  decompose [or] E; try tauto;
    match goal with H : (_, _) = (_, _) |- _ => injection H as -> _ end; tauto.
Qed.

Lemma objectPrototype_plain (c : string) :
  ¬ inheritedName c → objectPrototype c = JsUndefined.
Proof.
  unfold inheritedName, objectPrototype. intros Hc.
  rewrite !not_elem_of_cons in Hc.
  destruct (decide (c = "constructor")); [tauto |].
  destruct (decide (c ∈ _)) as [Hin|_].
  { rewrite !elem_of_cons, elem_of_nil in Hin. tauto. }
  destruct (decide (c = "__proto__")); [tauto | done].
Qed.

Lemma cancelTicket_bookings (h : AuthHeader) (bid : ObjectId) (db : DB) :
  bookings (fst (cancelTicket h bid db)) = bookings db
  ∨ bookings (fst (cancelTicket h bid db))
    = updateOne (fun b => Booking._id b = bid)
                (Booking.set_bookingStatus cancelled) (bookings db).
Proof.
  unfold cancelTicket.
  destruct (authMiddleware h); [by left |].
  destruct (findOne _ _); [| by left].
  repeat case_decide; try (by left).
  right. simpl. destruct (flights db !! _); [| done].
  by rewrite Flight_assign_bookings.
Qed.

(** No operation takes a booking away from a class: the count that
    numbers the next seat never goes down. *)
Lemma priorCount_step (fid : ObjectId) (c : string) (db : DB) (o : Op) :
  (priorCount fid c (bookings db) ≤ priorCount fid c (bookings (step db o)))%nat.
Proof.
  destruct o as [h oid req|h req|h oid now req|h bid]; simpl.
  - unfold addFlight. destruct (authMiddleware h); [done |].
    destruct (flightOperatorAuth _); [done |].
    unfold Flight_insert. by destruct (_ && _).
  - unfold updateFlight. destruct (authMiddleware h); [done |].
    destruct (flightOperatorAuth _); [done |].
    destruct (flights db !! _); [| done].
    unfold Flight_update. by destruct (Flight.valid _).
  - destruct (bookTicket_cases h oid now req db)
      as [[-> _]|(u & flight & _ & _ & _ & _ & ->)]; [done |].
    simpl. rewrite priorCount_app. lia.
  - destruct (cancelTicket_bookings h bid db) as [-> | ->]; [done |].
    by rewrite priorCount_updateOne.
Qed.

Lemma priorCount_runOps (fid : ObjectId) (c : string) (ops : list Op) (db : DB) :
  (priorCount fid c (bookings db)
   ≤ priorCount fid c (bookings (runOps ops db)))%nat.
Proof.
  revert db. induction ops as [|o ops IH]; intros db; simpl; [done |].
  etrans; [apply (priorCount_step fid c db o) | apply IH].
Qed.

(** C3 (as the code has it), for requests that are served one at a time:
    a booking of [n] passengers that succeeds in a class of the table is
    given the codes [prefix-(prior+1)] ... [prefix-(prior+n)], where
    [prefix] is the letter of the class (E, P, B, A) and [prior] counts
    the passengers of every booking already stored for the flight and
    class, cancelled ones included.  The count then stands at [prior+n];
    no cancellation lowers it, nor does any later sequence of operations
    served one at a time, so the codes issued to the class in any later
    state carry larger numbers and differ from every code of this
    booking. *)
Theorem seat_codes_assigned (h : AuthHeader) (oid : ObjectId) (now : Z)
    (req : BookReq.t) (db db' : DB) (b : Booking.t) (prefix : string) :
  seatCode !! BookReq.seatClass req = Some prefix →
  bookTicket h oid now req db = (db', created b) →
  let fid := BookReq.flightId req in
  let c := BookReq.seatClass req in
  let n := length (BookReq.passengers req) in
  let prior := priorCount fid c (bookings db) in
  (c, prefix) ∈ [("economy", "E"); ("premium-economy", "P");
                 ("business", "B"); ("first-class", "A")]
  ∧ Booking.seats b = String.concat ", " (codesFrom prefix prior n)
  ∧ priorCount fid c (bookings db') = (prior + n)%nat
  ∧ (∀ h' bid,
       priorCount fid c (bookings (fst (cancelTicket h' bid db')))
       = (prior + n)%nat)
  ∧ (∀ ops, (prior + n ≤ priorCount fid c (bookings (runOps ops db')))%nat)
  ∧ (∀ ops k1 k2, (1 ≤ k1 ≤ n)%nat → (1 ≤ k2)%nat →
       prefix +:+ "-" +:+ countText (prior + k1)
       ≠ prefix +:+ "-"
         +:+ countText (priorCount fid c (bookings (runOps ops db')) + k2)).
Proof.
  intros Hprefix Hbook fid c n prior.
  destruct (bookTicket_cases h oid now req db)
    as [[_ Hst]|(u & flight & _ & _ & _ & _ & Hrun)].
  { rewrite Hbook in Hst. by simpl in Hst. }
  rewrite Hbook in Hrun. injection Hrun as Hdb Hb.
  assert (Hcount : priorCount fid c (bookings db') = (prior + n)%nat).
  { rewrite Hdb. simpl. rewrite priorCount_app. simpl.
    rewrite decide_True by done. subst prior n. simpl. lia. }
  split; [by apply seatCode_known |].
  split.
  { rewrite Hb. simpl. unfold coachPrefix, getProp. rewrite Hprefix. simpl.
    by rewrite seatsAssigned_codesFrom, numBooked_priorCount. }
  split; [exact Hcount |].
  assert (Hlater : ∀ ops, (prior + n
                           ≤ priorCount fid c (bookings (runOps ops db')))%nat).
  { intros ops. rewrite <- Hcount. apply priorCount_runOps. }
  split; [| split; [exact Hlater |]].
  - intros h' bid.
    destruct (cancelTicket_bookings h' bid db') as [-> | ->]; [done |].
    by rewrite priorCount_updateOne.
  - intros ops k1 k2 Hk1 Hk2 [_ E]%code_inj.
    specialize (Hlater ops). lia.
Qed.

Lemma seat_codes_assigned_witness :
  Booking.seats Sample.booking = "E-1, E-2"
  ∧ priorCount 1 "economy" (bookings Sample.booked) = 2%nat.
Proof.
  destruct (seat_codes_assigned (GoodToken Sample.traveler) 7 0
              (Sample.bookReq "economy" 2) (Sample.withFlight 10)
              Sample.booked Sample.booking "E")
    as (_ & Hseats & Hcount & _); [reflexivity | reflexivity |].
  split; [exact Hseats | exact Hcount].
Defined.

(** C3, as stated, fails when two calls overlap: on a flight with ten
    seats, two calls for one economy seat each, resumed in turn, both
    count the bookings of the class before either has stored its own;
    both are answered 201 and the two bookings, both confirmed, both
    carry the code E-1. *)
Lemma overlapping_calls_repeat_a_code :
  ∃ b1 b2 db',
    InFlight.run [0; 1; 0; 1; 0; 1; 0; 1]%nat (Sample.withFlight 10)
      (InFlight.start <$> [Sample.call 7 "economy"; Sample.call 8 "economy"])
    = (db', [InFlight.Responded
               (mkResponse 201 (MessageBooking "Booking successful!" b1));
             InFlight.Responded
               (mkResponse 201 (MessageBooking "Booking successful!" b2))])
    ∧ bookings db' = [b1; b2]
    ∧ Booking._id b1 ≠ Booking._id b2
    ∧ Booking.bookingStatus b1 = confirmed
    ∧ Booking.bookingStatus b2 = confirmed
    ∧ Booking.seats b1 = "E-1" ∧ Booking.seats b2 = "E-1".
Proof.
  eexists _, _, _. split; [vm_compute; reflexivity |].
  repeat split; discriminate.
Qed.

(** The scenario of the specification: two economy seats are E-1 and
    E-2; once that booking is cancelled, the next economy seat is E-3. *)
Example seat_codes_survive_cancellation :
  let db1 := fst (bookTicket (GoodToken Sample.traveler) 7 0
                    (Sample.bookReq "economy" 2) (Sample.withFlight 10)) in
  let db2 := fst (cancelTicket (GoodToken Sample.traveler) 7 db1) in
  let r3 := snd (bookTicket (GoodToken Sample.traveler) 8 0
                   (Sample.bookReq "economy" 1) db2) in
  Booking.seats <$> bookings db1 = ["E-1, E-2"]
  ∧ Booking.bookingStatus <$> bookings db2 = [cancelled]
  ∧ Flight.availableSeats <$> flights db2 !! 1%positive = Some 10
  ∧ ∃ b, r3 = created b ∧ Booking.seats b = "E-3".
Proof.
  vm_compute. repeat split. eexists. split; reflexivity.
Qed.

(** C10 (as the code has it): a seat class outside the table does not
    stop a booking.  With seats enough it is created, and its codes carry
    as prefix the text of whatever [seatCode[seatClass]] evaluates to:
    "undefined" unless the class is a name that every object inherits. *)
Theorem unknown_class_booked (u : Jwt.payload) (oid : ObjectId) (now : Z)
    (req : BookReq.t) (db : DB) (flight : Flight.t) :
  ¬ knownClass (BookReq.seatClass req) →
  flights db !! BookReq.flightId req = Some flight →
  Z.of_nat (length (BookReq.passengers req)) ≤ Flight.availableSeats flight →
  nonEmpty (Flight.flightName flight) = true →
  findOne (fun b => Booking._id b = oid) (bookings db) = None →
  let prior := priorCount (BookReq.flightId req) (BookReq.seatClass req)
                          (bookings db) in
  let n := length (BookReq.passengers req) in
  ∃ b db',
    bookTicket (GoodToken u) oid now req db = (db', created b)
    ∧ Booking.seats b
      = String.concat ", "
          (codesFrom (templateText (objectPrototype (BookReq.seatClass req)))
                     prior n)
    ∧ (¬ inheritedName (BookReq.seatClass req) →
       Booking.seats b = String.concat ", " (codesFrom "undefined" prior n)).
Proof.
  intros Hc Hf Hn Hname Hfresh prior n.
  eexists _, _.
  split; [apply bookTicket_created; [done | by apply toDouble_mono | done..] |].
  assert (Hseats : ∀ b0, b0 = newBooking u oid now req flight
                    (existingBookingsInClass (BookReq.flightId req)
                       (BookReq.seatClass req) db) →
            Booking.seats b0
            = String.concat ", "
                (codesFrom (templateText (objectPrototype (BookReq.seatClass req)))
                           prior n)).
  { intros b0 ->. simpl. unfold coachPrefix, getProp.
    rewrite (seatCode_unknown _ Hc).
    by rewrite seatsAssigned_codesFrom, numBooked_priorCount. }
  split; [by apply Hseats |].
  intros Hplain. rewrite (Hseats _ eq_refl).
  by rewrite (objectPrototype_plain _ Hplain).
Qed.

Lemma unknown_class_booked_witness :
  ∃ b db',
    bookTicket (GoodToken Sample.traveler) 7 0 (Sample.bookReq "sleeper" 1)
               (Sample.withFlight 10) = (db', created b)
    ∧ Booking.seats b = "undefined-1".
Proof.
  destruct (unknown_class_booked Sample.traveler 7 0
              (Sample.bookReq "sleeper" 1) (Sample.withFlight 10)
              (Sample.flight 10))
    as (b & db' & Hrun & _ & Hseats);
    [unfold knownClass; rewrite !elem_of_cons, elem_of_nil;
       intros Hin; decompose [or] Hin; first [discriminate | contradiction]
    | reflexivity | vm_compute; discriminate | reflexivity | reflexivity |].
  exists b, db'. split; [exact Hrun |].
  apply Hseats.
  unfold inheritedName; rewrite !elem_of_cons, elem_of_nil.
  intros Hin; decompose [or] Hin; first [discriminate | contradiction].
Defined.

(** C10, as stated, fails at a class that names a member of
    [Object.prototype]: the booking is created, but its code does not
    start with "undefined". *)
Lemma inherited_class_prefix :
  ∃ b db',
    bookTicket (GoodToken Sample.traveler) 7 0 (Sample.bookReq "constructor" 1)
               (Sample.withFlight 10) = (db', created b)
    ∧ Booking.seats b = "function Object() { [native code] }-1"
    ∧ Booking.seats b ≠ "undefined-1".
Proof.
  eexists _, _. split; [vm_compute; reflexivity |].
  split; [reflexivity | discriminate].
Qed.

(** C8 (as the code has it): a request with no passengers is not
    validated.  On a stored flight that is not overdrawn it is answered
    201: a confirmed booking without passengers, seats or price is stored,
    and the flight stays as it was. *)
Theorem book_nobody (u : Jwt.payload) (oid : ObjectId) (now : Z)
    (req : BookReq.t) (db : DB) (flight : Flight.t) :
  BookReq.passengers req = [] →
  flights db !! BookReq.flightId req = Some flight →
  0 ≤ Flight.availableSeats flight →
  nonEmpty (Flight.flightName flight) = true →
  findOne (fun b => Booking._id b = oid) (bookings db) = None →
  ∃ b,
    bookTicket (GoodToken u) oid now req db
    = (mkDB (users db) (flights db) (bookings db ++ [b]), created b)
    ∧ Booking.passengers b = []
    ∧ Booking.seats b = ""
    ∧ Booking.totalPrice b = 0
    ∧ Booking.bookingStatus b = confirmed.
Proof.
  intros Hp Hf Ha Hname Hfresh.
  eexists. split.
  - rewrite (bookTicket_created u oid now req db flight Hf);
      [| rewrite Hp; by apply toDouble_mono | done | done].
    unfold Flight_saveAvailableSeats. simpl. f_equal. f_equal.
    rewrite Hp. simpl. rewrite assigned_sub_0.
    apply alter_id. intros f Hf'. rewrite Hf in Hf'. injection Hf' as <-.
    apply set_availableSeats_same.
  - simpl. rewrite Hp. simpl. rewrite jsMul_0. repeat split; reflexivity.
Qed.

Lemma book_nobody_witness :
  ∃ b,
    bookTicket (GoodToken Sample.traveler) 7 0 (Sample.bookReq "economy" 0)
               (Sample.withFlight 10)
    = (mkDB [] (flights (Sample.withFlight 10)) [b], created b)
    ∧ Booking.passengers b = [].
Proof.
  destruct (book_nobody Sample.traveler 7 0 (Sample.bookReq "economy" 0)
              (Sample.withFlight 10) (Sample.flight 10))
    as (b & Hrun & Hp & _);
    [reflexivity | reflexivity | vm_compute; discriminate | reflexivity
    | reflexivity |].
  exists b. split; [exact Hrun | exact Hp].
Defined.

(** C8, as stated, fails: the empty request is answered 201, not 400,
    and a booking is stored. *)
Lemma empty_booking_created :
  let r := bookTicket (GoodToken Sample.traveler) 7 0
             (Sample.bookReq "economy" 0) (Sample.withFlight 10) in
  status (snd r) = 201%nat
  ∧ length (bookings (fst r)) = 1%nat
  ∧ length (bookings (Sample.withFlight 10)) = 0%nat.
Proof. vm_compute. repeat split. Qed.

(** ** Seat bookkeeping *)

Lemma confirmedSeats_nonneg (fid : ObjectId) (bs : list Booking.t) :
  0 ≤ confirmedSeats fid bs.
Proof. induction bs as [|b bs IH]; simpl; [done | case_decide; lia]. Qed.

Lemma confirmedSeats_app (fid : ObjectId) (l1 l2 : list Booking.t) :
  confirmedSeats fid (l1 ++ l2) = confirmedSeats fid l1 + confirmedSeats fid l2.
Proof. induction l1 as [|b l1 IH]; simpl; [done | rewrite IH; lia]. Qed.

Lemma confirmedSeats_elsewhere (fid : ObjectId) (bs : list Booking.t) :
  (∀ b, b ∈ bs → Booking.flight b ≠ fid) → confirmedSeats fid bs = 0.
Proof.
  induction bs as [|b bs IH]; simpl; [done |]. intros Hbs.
  rewrite decide_False.
  - rewrite IH; [done |]. intros b' Hb'. apply Hbs. by right.
  - intros [Hfl _]. by apply (Hbs b); [left |].
Qed.

(** Cancelling the booking found under [bid] takes its passengers off
    the confirmed seats of its flight, and off no other flight. *)
Lemma confirmedSeats_cancel (fid bid : ObjectId) (bs : list Booking.t)
    (booking : Booking.t) :
  findOne (fun b => Booking._id b = bid) bs = Some booking →
  Booking.bookingStatus booking = confirmed →
  confirmedSeats fid
    (updateOne (fun b => Booking._id b = bid)
               (Booking.set_bookingStatus cancelled) bs)
  = confirmedSeats fid bs
    - (if decide (Booking.flight booking = fid)
       then Z.of_nat (length (Booking.passengers booking)) else 0).
Proof.
  unfold findOne. induction bs as [|b bs IH]; simpl; [done |].
  destruct (decide (Booking._id b = bid)) as [Hb|Hb].
  - rewrite (bool_decide_eq_true_2 _ Hb). intros [= ->] Hst. simpl.
    rewrite decide_False by (by intros [_ ?]).
    destruct (decide (Booking.flight booking = fid)) as [Hfl|Hfl].
    + rewrite decide_True by done. lia.
    + rewrite decide_False by (by intros [? _]). lia.
  - rewrite (bool_decide_eq_false_2 _ Hb). intros Hfind Hst. simpl.
    rewrite (IH Hfind Hst). lia.
Qed.

Lemma elem_of_updateOne_flight (bid : ObjectId) (s : BookingStatus)
    (bs : list Booking.t) (b' : Booking.t) :
  b' ∈ updateOne (fun b => Booking._id b = bid) (Booking.set_bookingStatus s) bs →
  ∃ b, b ∈ bs ∧ Booking.flight b' = Booking.flight b.
Proof.
  induction bs as [|b bs IH]; simpl; [by intros ?%elem_of_nil |].
  destruct (decide (Booking._id b = bid)).
  - intros [-> | Hin]%elem_of_cons.
    + exists b. split; [left | done].
    + exists b'. split; [by right | done].
  - intros [-> | Hin]%elem_of_cons.
    + exists b. split; [left | done].
    + destruct (IH Hin) as (b0 & Hb0 & E). exists b0. split; [by right | done].
Qed.

(** Either nothing is stored, or the caller was entitled to cancel a
    booking that was still confirmed: it is marked cancelled and its
    flight, when there is one, gets its seats back. *)
Lemma cancelTicket_cases (h : AuthHeader) (bid : ObjectId) (db : DB) :
  fst (cancelTicket h bid db) = db
  ∨ ∃ booking,
      findOne (fun b => Booking._id b = bid) (bookings db) = Some booking
      ∧ Booking.bookingStatus booking = confirmed
      ∧ fst (cancelTicket h bid db)
        = let db1 := Booking_saveStatus bid cancelled db in
          match flights db !! Booking.flight booking with
          | Some flight =>
            Flight_saveAvailableSeats (Booking.flight booking)
              (assigned (Flight.availableSeats flight)
                 (jsAdd (Flight.availableSeats flight)
                        (Z.of_nat (length (Booking.passengers booking))))) db1
          | None => db1
          end.
Proof.
  unfold cancelTicket.
  destruct (authMiddleware h); [by left |].
  destruct (findOne _ _) as [booking|] eqn:Hb; [| by left].
  case_decide; [by left |]. case_decide as Hst; [by left |].
  right. exists booking. split; [done |].
  split; [by destruct (Booking.bookingStatus booking) |].
  simpl. destruct (flights db !! Booking.flight booking) eqn:Hf; [| done].
  by rewrite Flight_assign_assigned.
Qed.

(** The seats of a confirmed booking are among the confirmed seats of
    its flight. *)
Lemma confirmedSeats_holds (bid : ObjectId) (bs : list Booking.t)
    (booking : Booking.t) :
  findOne (fun b => Booking._id b = bid) bs = Some booking →
  Booking.bookingStatus booking = confirmed →
  Z.of_nat (length (Booking.passengers booking))
  ≤ confirmedSeats (Booking.flight booking) bs.
Proof.
  intros Hb Hst.
  pose proof (confirmedSeats_cancel (Booking.flight booking) bid bs booking
                Hb Hst) as E.
  rewrite decide_True in E by done.
  pose proof (confirmedSeats_nonneg (Booking.flight booking)
                (updateOne (fun b => Booking._id b = bid)
                           (Booking.set_bookingStatus cancelled) bs)).
  lia.
Qed.

Lemma SeatsAccounted_empty : SeatsAccounted emptyDB.
Proof.
  split; simpl.
  - intros fid f Hf. by rewrite lookup_empty in Hf.
  - intros fid f Hf. by rewrite lookup_empty in Hf.
  - intros fid f Hf. by rewrite lookup_empty in Hf.
  - intros b Hb. by apply elem_of_nil in Hb.
Qed.

Lemma SeatsAccounted_addFlight (h : AuthHeader) (oid : ObjectId)
    (req : AddFlightReq.t) (db : DB) :
  SeatsAccounted db → keepsCapacity db (OpAddFlight h oid req) = true →
  SeatsAccounted (fst (addFlight h oid req db)).
Proof.
  intros Hdb Hcap. pose proof Hdb as [Hex Hnn Hfit Hon].
  apply bool_decide_eq_true in Hcap. simpl in Hcap. revert Hcap.
  unfold addFlight.
  destruct (authMiddleware h); [done |].
  destruct (flightOperatorAuth _); [done |].
  unfold Flight_insert.
  destruct (Flight.valid _ && _) eqn:Hins; [| done].
  apply andb_true_iff in Hins as [_ Hnew]. apply bool_decide_eq_true in Hnew.
  simpl in *. intros Hcap.
  pose proof (Hcap oid _ (lookup_insert_eq _ _ _)) as [Hlt Hge].
  unfold capacityIn in Hge. rewrite Hnew in Hge. simpl in Hlt, Hge.
  split; simpl.
  - intros fid f. rewrite lookup_insert. case_decide.
    + by intros [= <-].
    + apply Hex.
  - intros fid f. rewrite lookup_insert. case_decide.
    + by intros [= <-].
    + apply Hnn.
  - intros fid f. rewrite lookup_insert. case_decide as Hk.
    + intros [= <-]. simpl. subst fid. rewrite confirmedSeats_elsewhere; [lia |].
      intros b Hb E. destruct (Hon b Hb) as [f Hf]. congruence.
    + apply Hfit.
  - intros b Hb. rewrite lookup_insert_is_Some'. right. by apply Hon.
Qed.

Lemma SeatsAccounted_updateFlight (h : AuthHeader) (req : UpdateFlightReq.t)
    (db : DB) :
  SeatsAccounted db → keepsCapacity db (OpUpdateFlight h req) = true →
  SeatsAccounted (fst (updateFlight h req db)).
Proof.
  intros Hdb Hcap. pose proof Hdb as [Hex Hnn Hfit Hon].
  apply bool_decide_eq_true in Hcap. simpl in Hcap. revert Hcap.
  unfold updateFlight.
  destruct (authMiddleware h); [done |].
  destruct (flightOperatorAuth _); [done |].
  destruct (flights db !! UpdateFlightReq._id req) as [flight|] eqn:Hf; [| done].
  unfold Flight_update. destruct (Flight.valid _); [| done].
  simpl. intros Hcap.
  pose proof (Hcap (UpdateFlightReq._id req) _ (lookup_insert_eq _ _ _))
    as [Hlt Hge].
  unfold capacityIn in Hge. rewrite Hf in Hge. simpl in Hge.
  split; simpl.
  - intros fid f. rewrite lookup_insert. case_decide.
    + by intros [= <-].
    + apply Hex.
  - intros fid f. rewrite lookup_insert. case_decide.
    + intros [= <-]. simpl. by apply (Hnn _ _ Hf).
    + apply Hnn.
  - intros fid f. rewrite lookup_insert. case_decide as Hk.
    + intros [= <-]. subst fid. specialize (Hfit _ _ Hf).
      change (Flight.availableSeats (applyUpdate req flight))
        with (Flight.availableSeats flight).
      change (Flight.totalSeats (applyUpdate req flight))
        with (jsOr (UpdateFlightReq.totalSeats req) (Flight.totalSeats flight)).
      lia.
    + apply Hfit.
  - intros b Hb. rewrite lookup_insert_is_Some'. right. by apply Hon.
Qed.

Lemma SeatsAccounted_bookTicket (h : AuthHeader) (oid : ObjectId) (now : Z)
    (req : BookReq.t) (db : DB) :
  SeatsAccounted db → SeatsAccounted (fst (bookTicket h oid now req db)).
Proof.
  intros [Hex Hnn Hfit Hon].
  destruct (bookTicket_cases h oid now req db)
    as [[-> _]|(u & flight & _ & Hf & Hn & _ & ->)]; [done |].
  pose proof (Hex _ _ Hf) as Hcap. unfold exactBelow in Hcap.
  pose proof (Hfit _ _ Hf) as Hfits.
  pose proof (confirmedSeats_nonneg (BookReq.flightId req) (bookings db)).
  apply toDouble_le_exact in Hn as Hle; [| lia | lia].
  rewrite assigned_sub_exact by lia.
  split; simpl.
  - intros fid f. rewrite lookup_alter. case_decide as Hk.
    + rewrite Hf. intros [= <-]. simpl. by apply (Hex _ _ Hf).
    + apply Hex.
  - intros fid f. rewrite lookup_alter. case_decide as Hk.
    + rewrite Hf. intros [= <-]. simpl. lia.
    + apply Hnn.
  - intros fid f. rewrite confirmedSeats_app. simpl.
    rewrite lookup_alter. case_decide as Hk.
    + rewrite Hf. intros [= <-]. simpl.
      rewrite decide_True by done. subst fid. lia.
    + intros Hf'. rewrite decide_False by (by intros [? _]).
      specialize (Hfit _ _ Hf'). lia.
  - intros b [Hb | ->%list_elem_of_singleton]%elem_of_app;
      rewrite lookup_alter_is_Some; [by apply Hon | simpl; eauto].
Qed.

Lemma SeatsAccounted_cancelTicket (h : AuthHeader) (bid : ObjectId) (db : DB) :
  SeatsAccounted db → SeatsAccounted (fst (cancelTicket h bid db)).
Proof.
  intros [Hex Hnn Hfit Hon].
  destruct (cancelTicket_cases h bid db)
    as [-> | (booking & Hb & Hst & ->)]; [done |].
  pose proof (confirmedSeats_nonneg) as Hpos.
  pose proof (confirmedSeats_holds bid _ booking Hb Hst) as Hheld.
  assert (Hon' : ∀ (m : gmap positive Flight.t) b,
            (∀ k, is_Some (flights db !! k) → is_Some (m !! k)) →
            b ∈ updateOne (fun b => Booking._id b = bid)
                  (Booking.set_bookingStatus cancelled) (bookings db) →
            is_Some (m !! Booking.flight b)).
  { intros m b Hm Hin.
    destruct (elem_of_updateOne_flight _ _ _ _ Hin) as (b0 & Hb0 & ->).
    by apply Hm, Hon. }
  destruct (flights db !! Booking.flight booking) as [flight|] eqn:Hf; simpl.
  - pose proof (Hex _ _ Hf) as Hcap. unfold exactBelow in Hcap.
    pose proof (Hfit _ _ Hf) as Hfits. pose proof (Hnn _ _ Hf) as Hnneg.
    rewrite assigned_add_exact by lia.
    split; simpl.
    + intros fid f. rewrite lookup_alter. case_decide as Hk.
      * rewrite Hf. intros [= <-]. simpl. by apply (Hex _ _ Hf).
      * apply Hex.
    + intros fid f. rewrite lookup_alter. case_decide as Hk.
      * rewrite Hf. intros [= <-]. simpl. lia.
      * apply Hnn.
    + intros fid f. rewrite (confirmedSeats_cancel fid bid _ booking Hb Hst).
      rewrite lookup_alter. case_decide as Hk.
      * rewrite Hf. intros [= <-]. simpl.
        subst fid. lia.
      * intros Hf'. specialize (Hfit _ _ Hf'). lia.
    + intros b Hin. apply Hon'; [| done].
      intros k Hk. by rewrite lookup_alter_is_Some.
  - split; simpl.
    + apply Hex.
    + apply Hnn.
    + intros fid f Hf'. rewrite (confirmedSeats_cancel fid bid _ booking Hb Hst).
      specialize (Hfit _ _ Hf'). specialize (Hpos fid (bookings db)).
      case_decide; [congruence | lia].
    + intros b Hin. by apply Hon'.
Qed.

Lemma SeatsAccounted_step (db : DB) (o : Op) :
  SeatsAccounted db → keepsCapacity db o = true → SeatsAccounted (step db o).
Proof.
  intros Hdb Hcap. destruct o as [h oid req|h req|h oid now req|h bid]; simpl.
  - by apply SeatsAccounted_addFlight.
  - by apply SeatsAccounted_updateFlight.
  - by apply SeatsAccounted_bookTicket.
  - by apply SeatsAccounted_cancelTicket.
Qed.

Lemma SeatsAccounted_runOps (ops : list Op) (db : DB) :
  SeatsAccounted db → capacityKept db ops = true →
  SeatsAccounted (runOps ops db).
Proof.
  revert db. induction ops as [|o ops IH]; intros db Hdb Hcap; simpl; [done |].
  simpl in Hcap. apply andb_true_iff in Hcap as [Ho Hops].
  apply IH; [by apply SeatsAccounted_step | done].
Qed.

(** C1 (as the code has it): starting from the empty database, after any
    sequence of /add-flight, /update-flight, /book-ticket and
    /cancel-ticket requests served one at a time, accepted or refused,
    after each of which every stored flight has a [totalSeats] below
    2^53 that is not less than it was before the request (and not
    negative if the request added the flight), every flight has
    [0 <= availableSeats <= totalSeats]. *)
Theorem seats_within_capacity (ops : list Op) (fid : ObjectId) (f : Flight.t) :
  capacityKept emptyDB ops = true →
  flights (runOps ops emptyDB) !! fid = Some f →
  0 ≤ Flight.availableSeats f ≤ Flight.totalSeats f.
Proof.
  intros Hcap Hf.
  destruct (SeatsAccounted_runOps ops emptyDB SeatsAccounted_empty Hcap)
    as [_ Hnn Hfit _].
  specialize (Hnn _ _ Hf). specialize (Hfit _ _ Hf).
  pose proof (confirmedSeats_nonneg fid (bookings (runOps ops emptyDB))). lia.
Qed.

Lemma seats_within_capacity_witness :
  0 ≤ Flight.availableSeats (Flight.set_availableSeats 10 (Sample.flight 10))
    ≤ Flight.totalSeats (Flight.set_availableSeats 10 (Sample.flight 10)).
Proof.
  apply (seats_within_capacity
           [OpAddFlight (GoodToken Sample.operator) 1 (Sample.flightReq 10);
            OpBookTicket (GoodToken Sample.traveler) 7 0
              (Sample.bookReq "economy" 2);
            OpUpdateFlight (GoodToken Sample.operator) Sample.noChange;
            OpCancelTicket (GoodToken Sample.traveler) 7]
           1%positive);
    vm_compute; reflexivity.
Defined.

(** C1, as stated, fails: an update that lowers [totalSeats] leaves
    [availableSeats] where it was, above the new capacity. *)
Lemma capacity_lowered_below_available :
  ∃ f,
    flights (runOps [OpAddFlight (GoodToken Sample.operator) 1
                       (Sample.flightReq 10);
                     OpUpdateFlight (GoodToken Sample.operator) Sample.shrink]
                    emptyDB) !! 1%positive = Some f
    ∧ Flight.availableSeats f = 10
    ∧ Flight.totalSeats f = 5
    ∧ ¬ (0 ≤ Flight.availableSeats f ≤ Flight.totalSeats f).
Proof.
  eexists. split; [vm_compute; reflexivity |].
  split; [reflexivity |]. split; [reflexivity |]. simpl. lia.
Qed.

(** Above 2^53 the counts are rounded and the capacity can be exceeded
    with no edit of the flight at all: on a flight added with 2^53 + 4
    seats, a booking of one passenger leaves the count where it was, a
    booking of two lowers it by two, and the two cancellations raise it
    to 2^53 + 6. *)
Example rounding_overfills_a_flight :
  let db := runOps [OpAddFlight (GoodToken Sample.operator) 1
                      (Sample.flightReq (2 ^ 53 + 4));
                    OpBookTicket (GoodToken Sample.traveler) 7 0
                      (Sample.bookReq "economy" 1);
                    OpBookTicket (GoodToken Sample.traveler) 8 0
                      (Sample.bookReq "economy" 2);
                    OpCancelTicket (GoodToken Sample.traveler) 7;
                    OpCancelTicket (GoodToken Sample.traveler) 8] emptyDB in
  Flight.totalSeats <$> flights db !! 1%positive = Some (2 ^ 53 + 4)
  ∧ Flight.availableSeats <$> flights db !! 1%positive = Some (2 ^ 53 + 6).
Proof. vm_compute. split; reflexivity. Qed.

(** ** Calls in flight *)

(** A call that is resumed four times in a row, with no other call in
    between, does what the route does in one piece. *)
Lemma complete_bookTicket (c : InFlight.BookCall) (db : DB) :
  InFlight.complete c db
  = (fst (bookTicket (InFlight.header c) (InFlight.oid c) (InFlight.now c)
            (InFlight.req c) db),
     InFlight.Responded
       (snd (bookTicket (InFlight.header c) (InFlight.oid c) (InFlight.now c)
               (InFlight.req c) db))).
Proof.
  unfold InFlight.complete, InFlight.start, bookTicket.
  destruct (authMiddleware (InFlight.header c)) as [r|u]; simpl; [done |].
  destruct (flights db !! _) as [flight|]; simpl; [| done].
  destruct (jsLt _ _); simpl; [done |].
  destruct (Booking_insert _ db) as [db1|]; simpl; done.
Qed.

(** C2, as stated, fails.  Two calls for one seat each on a flight with
    one seat left, resumed in turn: both read the seat count before
    either writes it, both are answered 201, both are given seat E-1.
    And even served one after the other, two calls in different classes
    that the table does not know are both given "undefined-1". *)
Lemma interleaved_calls_both_succeed :
  (∃ b1 b2 db',
     InFlight.run [0; 1; 0; 1; 0; 1; 0; 1]%nat (Sample.withFlight 1)
       (InFlight.start <$> [Sample.call 7 "economy"; Sample.call 8 "economy"])
     = (db', [InFlight.Responded (created b1); InFlight.Responded (created b2)])
     ∧ Booking.seats b1 = "E-1" ∧ Booking.seats b2 = "E-1"
     ∧ Flight.availableSeats <$> flights db' !! 1%positive = Some 0)
  ∧ (∃ b1 b2 db',
       InFlight.serial [Sample.call 7 "sleeper"; Sample.call 8 "couchette";
                        Sample.call 9 "sleeper"] (Sample.withFlight 2)
       = (db', [created b1; created b2; notEnoughSeats 0])
       ∧ Booking.seats b1 = "undefined-1" ∧ Booking.seats b2 = "undefined-1").
Proof.
  split.
  - eexists _, _, _. split; [vm_compute; reflexivity |].
    repeat split; reflexivity.
  - eexists _, _, _. split; [vm_compute; reflexivity |].
    split; reflexivity.
Qed.

Lemma serial_app (l1 l2 : list InFlight.BookCall) (db : DB) :
  InFlight.serial (l1 ++ l2) db
  = let (db1, r1) := InFlight.serial l1 db in
    let (db2, r2) := InFlight.serial l2 db1 in
    (db2, r1 ++ r2).
Proof.
  revert db. induction l1 as [|c l1 IH]; intros db; simpl.
  - by destruct (InFlight.serial l2 db).
  - destruct (bookTicket _ _ _ _ db) as [db1 r]. rewrite IH.
    destruct (InFlight.serial l1 db1) as [db2 rs].
    by destruct (InFlight.serial l2 db2).
Qed.

(** Calls for one seat each, no more of them than seats are left, served
    one after the other: each is given a booking, numbered in its class
    after everything booked before it. *)
Lemma serial_within_seats (fid : ObjectId) (calls : list InFlight.BookCall) :
  ∀ (db : DB) (flight : Flight.t),
  flights db !! fid = Some flight →
  nonEmpty (Flight.flightName flight) = true →
  Z.of_nat (length calls) ≤ Flight.availableSeats flight →
  Flight.availableSeats flight < 2 ^ 53 →
  (∀ c, c ∈ calls →
     (∃ u, InFlight.header c = GoodToken u)
     ∧ BookReq.flightId (InFlight.req c) = fid
     ∧ length (BookReq.passengers (InFlight.req c)) = 1%nat
     ∧ findOne (fun b => Booking._id b = InFlight.oid c) (bookings db) = None) →
  NoDup (InFlight.oid <$> calls) →
  (∀ c1 c2, c1 ∈ calls → c2 ∈ calls →
     coachPrefix (BookReq.seatClass (InFlight.req c1))
     = coachPrefix (BookReq.seatClass (InFlight.req c2)) →
     BookReq.seatClass (InFlight.req c1) = BookReq.seatClass (InFlight.req c2)) →
  ∃ bs db',
    InFlight.serial calls db = (db', created <$> bs)
    ∧ Booking.seatClass <$> bs
      = (fun c => BookReq.seatClass (InFlight.req c)) <$> calls
    ∧ Forall (issuedBetween fid (bookings db) (bookings db')) bs
    ∧ NoDup (Booking.seats <$> bs)
    ∧ (∀ c, (priorCount fid c (bookings db)
             ≤ priorCount fid c (bookings db'))%nat)
    ∧ flights db' !! fid
      = Some (Flight.set_availableSeats
                (Flight.availableSeats flight - Z.of_nat (length calls)) flight).
Proof.
  induction calls as [|c rest IH];
    intros db flight Hf Hname Hfit Hsmall Hcalls Hids Hinj.
  { exists [], db. simpl. repeat split; try done; [constructor |].
    by rewrite Z.sub_0_r, set_availableSeats_same. }
  destruct (Hcalls c) as ([u Hu] & Hfid & Hone & Hfresh); [left |].
  apply NoDup_cons in Hids as [Hc_new Hids]. simpl in Hfit.
  set (b := newBooking u (InFlight.oid c) (InFlight.now c) (InFlight.req c) flight
              (existingBookingsInClass fid
                 (BookReq.seatClass (InFlight.req c)) db)).
  set (db1 := Flight_saveAvailableSeats fid (Flight.availableSeats flight - 1)
                (mkDB (users db) (flights db) (bookings db ++ [b]))).
  assert (Hrun : bookTicket (InFlight.header c) (InFlight.oid c) (InFlight.now c)
                   (InFlight.req c) db = (db1, created b)).
  { rewrite Hu. rewrite (bookTicket_created u _ _ _ db flight);
      [| by rewrite Hfid | rewrite Hone; apply toDouble_mono; lia | done | done].
    rewrite Hfid, Hone.
    by rewrite assigned_sub_exact by (try apply toDouble_mono; lia). }
  assert (Hseats : Booking.seats b
                   = coachPrefix (Booking.seatClass b) +:+ "-"
                     +:+ countText (priorCount fid (Booking.seatClass b)
                                      (bookings db) + 1)).
  { subst b. simpl. rewrite Hone, numBooked_priorCount. simpl.
    by rewrite Nat.add_0_r. }
  assert (Hprior1 : ∀ cl, priorCount fid cl (bookings db1)
                    = (priorCount fid cl (bookings db)
                       + (if decide (BookReq.seatClass (InFlight.req c) = cl)
                          then 1 else 0))%nat).
  { intros cl. subst db1. simpl. rewrite priorCount_app. simpl.
    rewrite Hone, Hfid.
    destruct (decide (BookReq.seatClass (InFlight.req c) = cl)).
    - rewrite decide_True by done. lia.
    - rewrite decide_False by (by intros [_ ?]). lia. }
  destruct (IH db1 (Flight.set_availableSeats (Flight.availableSeats flight - 1) flight))
    as (bs & db' & Hserial & Hclasses & Hissued & Hnodup & Hmono & Hleft).
  { subst db1. simpl. by rewrite lookup_alter_eq, Hf. }
  { done. }
  { simpl. lia. }
  { simpl. lia. }
  { intros c' Hc'. destruct (Hcalls c') as (Hu' & Hfid' & Hone' & Hfresh');
      [by right |].
    repeat split; try done.
    subst db1. simpl. rewrite findOne_app_None by done.
    rewrite decide_False; [done |].
    intros E. apply Hc_new. apply list_elem_of_fmap. exists c'.
    split; [by rewrite <- E | done]. }
  { done. }
  { intros c1 c2 H1 H2. apply Hinj; by right. }
  exists (b :: bs), db'.
  assert (Hmono' : ∀ cl, (priorCount fid cl (bookings db)
                          ≤ priorCount fid cl (bookings db'))%nat).
  { intros cl. specialize (Hmono cl). rewrite Hprior1 in Hmono. lia. }
  split; [simpl; by rewrite Hrun, Hserial |].
  split; [rewrite !fmap_cons; by rewrite Hclasses |].
  split.
  { constructor.
    - eexists. split; [exact Hseats |].
      specialize (Hmono (Booking.seatClass b)). rewrite Hprior1 in Hmono.
      change (Booking.seatClass b) with (BookReq.seatClass (InFlight.req c)) in *.
      rewrite decide_True in Hmono by done. lia.
    - eapply Forall_impl; [exact Hissued |].
      intros b' (k & Hk & Hlt & Hle). exists k. split; [done |].
      rewrite Hprior1 in Hlt. lia. }
  split.
  { rewrite fmap_cons. apply NoDup_cons. split; [| done].
    intros (b' & Heq & Hb')%list_elem_of_fmap.
    assert (Hcl : Booking.seatClass b' ∈ Booking.seatClass <$> bs)
      by (apply list_elem_of_fmap; eauto).
    rewrite Hclasses in Hcl.
    apply list_elem_of_fmap in Hcl as (c' & Hcl & Hc').
    rewrite Forall_forall in Hissued.
    destruct (Hissued b' Hb') as (k & Hk & Hlt & _).
    rewrite Hseats, Hk in Heq. apply code_inj in Heq as [Hp <-].
    assert (Hsame : BookReq.seatClass (InFlight.req c) = Booking.seatClass b').
    { rewrite Hcl. apply Hinj; [left | by right |].
      rewrite <- Hcl. exact Hp. }
    rewrite Hprior1 in Hlt. rewrite decide_True in Hlt by done.
    change (Booking.seatClass b) with (BookReq.seatClass (InFlight.req c)) in Hlt.
    rewrite Hsame in Hlt. lia. }
  split; [exact Hmono' |].
  rewrite Hleft. f_equal. unfold Flight.set_availableSeats. simpl.
  f_equal. lia.
Qed.

(** C2 (as the code has it): [N >= 1] calls for one seat each on a
    flight with [N-1] seats left ([N-1] below 2^53), served one after the
    other (no call is resumed while another is in flight), their classes
    such that two different ones never print the same prefix: the first
    [N-1] are answered 201, the last is answered 400 with the message
    "Not enough seats available. Only 0 seats left.", the flight is left
    with no seat, and no two of the bookings carry the same seat code. *)
Theorem serial_calls_fill_flight (fid : ObjectId) (calls : list InFlight.BookCall)
    (db : DB) (flight : Flight.t) :
  flights db !! fid = Some flight →
  nonEmpty (Flight.flightName flight) = true →
  0 ≤ Flight.availableSeats flight < 2 ^ 53 →
  Z.of_nat (length calls) = Flight.availableSeats flight + 1 →
  (∀ c, c ∈ calls →
     (∃ u, InFlight.header c = GoodToken u)
     ∧ BookReq.flightId (InFlight.req c) = fid
     ∧ length (BookReq.passengers (InFlight.req c)) = 1%nat
     ∧ findOne (fun b => Booking._id b = InFlight.oid c) (bookings db) = None) →
  NoDup (InFlight.oid <$> calls) →
  (∀ c1 c2, c1 ∈ calls → c2 ∈ calls →
     coachPrefix (BookReq.seatClass (InFlight.req c1))
     = coachPrefix (BookReq.seatClass (InFlight.req c2)) →
     BookReq.seatClass (InFlight.req c1) = BookReq.seatClass (InFlight.req c2)) →
  ∃ bs db',
    InFlight.serial calls db
    = (db', ((fun b => mkResponse 201 (MessageBooking "Booking successful!" b))
               <$> bs)
            ++ [mkResponse 400
                  (Message "Not enough seats available. Only 0 seats left.")])
    ∧ length bs = (length calls - 1)%nat
    ∧ NoDup (Booking.seats <$> bs)
    ∧ Flight.availableSeats <$> flights db' !! fid = Some 0.
Proof.
  intros Hf Hname Hnn Hlen Hcalls Hids Hinj.
  destruct calls as [|c0 rest0] using rev_ind.
  { simpl in Hlen. lia. }
  clear IHrest0. rename rest0 into front. rename c0 into last.
  rewrite length_app in Hlen. simpl in Hlen.
  rewrite fmap_app in Hids. apply NoDup_app in Hids as (Hids & Hlast_new & _).
  destruct (serial_within_seats fid front db flight)
    as (bs & db' & Hserial & Hclasses & _ & Hnodup & _ & Hleft);
    [done | done | lia | lia | | done | |].
  { intros c Hc. apply Hcalls, elem_of_app. by left. }
  { intros c1 c2 H1 H2. apply Hinj; apply elem_of_app; by left. }
  destruct (Hcalls last) as ([u Hu] & Hfid & Hone & _);
    [apply elem_of_app; right; left |].
  exists bs, db'. split; [| split; [| split]].
  - rewrite serial_app, Hserial. simpl.
    unfold bookTicket. rewrite Hu. simpl. rewrite Hfid, Hleft. simpl.
    rewrite Hone. replace (Flight.availableSeats flight - Z.of_nat (length front))
      with 0 by lia.
    reflexivity.
  - rewrite length_app. simpl.
    apply (f_equal length) in Hclasses. rewrite !length_fmap in Hclasses. lia.
  - exact Hnodup.
  - rewrite Hleft. simpl. f_equal. lia.
Qed.

Lemma serial_calls_fill_flight_witness :
  ∃ bs db',
    InFlight.serial [Sample.call 7 "economy"; Sample.call 8 "business";
                     Sample.call 9 "economy"] (Sample.withFlight 2)
    = (db', ((fun b => mkResponse 201 (MessageBooking "Booking successful!" b))
               <$> bs)
            ++ [mkResponse 400
                  (Message "Not enough seats available. Only 0 seats left.")])
    ∧ length bs = 2%nat
    ∧ NoDup (Booking.seats <$> bs)
    ∧ Flight.availableSeats <$> flights db' !! 1%positive = Some 0.
Proof.
  apply (serial_calls_fill_flight 1
           [Sample.call 7 "economy"; Sample.call 8 "business";
            Sample.call 9 "economy"]
           (Sample.withFlight 2) (Sample.flight 2)).
  - reflexivity.
  - reflexivity.
  - simpl. lia.
  - reflexivity.
  - intros c Hc. cases_of_membership Hc; subst c;
      (split; [eexists; reflexivity | repeat split; reflexivity]).
  - compute_done.
  - intros c1 c2 H1 H2.
    cases_of_membership H1; subst c1; cases_of_membership H2; subst c2;
      intros E; first [reflexivity | vm_compute in E; discriminate E].
Defined.

(** * Further properties of the routes *)

(** ** More about the store operations *)

Lemma findOne_None {A : Type} (P : A -> Prop) `{∀ x, Decision (P x)}
    (l : list A) :
  findOne P l = None ↔ ∀ x, x ∈ l → ¬ P x.
Proof.
  unfold findOne. induction l as [|y l IH]; simpl.
  - split; [intros _ x Hx; by apply elem_of_nil in Hx | done].
  - destruct (decide (P y)) as [Hy|Hy].
    + rewrite (bool_decide_eq_true_2 _ Hy). split; [done |].
      intros Hall. exfalso. apply (Hall y); [left | done].
    + rewrite (bool_decide_eq_false_2 _ Hy). rewrite IH. split.
      * intros Hall x [-> | Hx]%elem_of_cons; [done | by apply Hall].
      * intros Hall x Hx. apply Hall. by right.
Qed.

Lemma findOne_app_Some {A : Type} (P : A -> Prop) `{∀ x, Decision (P x)}
    (l l' : list A) (x : A) :
  findOne P l = Some x → findOne P (l ++ l') = Some x.
Proof.
  unfold findOne. induction l as [|y l IH]; simpl; [done |].
  by destruct (bool_decide (P y)).
Qed.

(** In a collection without two documents of the same key, a document
    is the one found under its key. *)
Lemma findOne_unique {A K : Type} `{EqDecision K} (key : A -> K)
    (l : list A) (x : A) :
  NoDup (key <$> l) → x ∈ l → findOne (fun y => key y = key x) l = Some x.
Proof.
  unfold findOne. induction l as [|y l IH]; simpl.
  - by intros _ ?%elem_of_nil.
  - rewrite NoDup_cons. intros [Hy Hl] [-> | Hx]%elem_of_cons.
    + by rewrite bool_decide_eq_true_2.
    + rewrite bool_decide_eq_false_2; [by apply IH |].
      intros E. apply Hy. rewrite E. apply list_elem_of_fmap. eauto.
Qed.

Lemma updateOne_app_None {A : Type} (P : A -> Prop) `{∀ x, Decision (P x)}
    (change : A -> A) (l l' : list A) :
  findOne P l = None → updateOne P change (l ++ l') = l ++ updateOne P change l'.
Proof.
  unfold findOne. induction l as [|y l IH]; simpl; [done |].
  destruct (decide (P y)) as [Hy|Hy].
  - by rewrite (bool_decide_eq_true_2 _ Hy).
  - rewrite (bool_decide_eq_false_2 _ Hy). intros Hl. by rewrite IH.
Qed.

Lemma updateOne_None {A : Type} (P : A -> Prop) `{∀ x, Decision (P x)}
    (change : A -> A) (l : list A) :
  findOne P l = None → updateOne P change l = l.
Proof.
  intros Hl. rewrite <- (app_nil_r l) at 1.
  rewrite updateOne_app_None by done. simpl. apply app_nil_r.
Qed.

Lemma fmap_updateOne {A B : Type} (P : A -> Prop) `{∀ x, Decision (P x)}
    (change : A -> A) (g : A -> B) (l : list A) :
  (∀ x, g (change x) = g x) → g <$> updateOne P change l = g <$> l.
Proof.
  intros Hg. induction l as [|y l IH]; [done |]. cbn [updateOne].
  destruct (decide (P y)); rewrite !fmap_cons; [by rewrite Hg | by rewrite IH].
Qed.

Lemma length_updateOne {A : Type} (P : A -> Prop) `{∀ x, Decision (P x)}
    (change : A -> A) (l : list A) :
  length (updateOne P change l) = length l.
Proof.
  induction l as [|y l IH]; simpl; [done |].
  destruct (decide (P y)); simpl; [done | by rewrite IH].
Qed.

(** Finding by one key after an update by another: the found document
    is the updated one exactly when it is the one the update reached. *)
Lemma findOne_updateOne_key {A K : Type} `{EqDecision K} (key : A -> K)
    (change : A -> A) (k k' : K) (l : list A) :
  (∀ x, key (change x) = key x) →
  findOne (fun y => key y = k) (updateOne (fun y => key y = k') change l)
  = (if decide (k' = k) then change else id)
      <$> findOne (fun y => key y = k) l.
Proof.
  intros Hkey. unfold findOne. induction l as [|y l IH]; simpl.
  { by destruct (decide (k' = k)). }
  destruct (decide (key y = k')) as [Hy|Hy]; simpl.
  - rewrite Hkey. destruct (decide (key y = k)) as [Hk|Hk].
    + rewrite !(bool_decide_eq_true_2 _ Hk). simpl.
      rewrite decide_True by congruence. done.
    + rewrite !(bool_decide_eq_false_2 _ Hk).
      rewrite decide_False by congruence.
      clear IH. induction l as [|z l IHl]; simpl; [done |].
      destruct (bool_decide (key z = k)); [done | exact IHl].
  - destruct (bool_decide (key y = k)) eqn:Hk; simpl.
    + apply bool_decide_eq_true in Hk.
      rewrite decide_False by congruence. done.
    + exact IH.
Qed.

(** ** Who may write flights *)

(** X1. /add-flight and /update-flight pass only the token of an approved
    flight operator: any other authenticated caller, an admin included,
    is answered 403 by both and nothing is stored. *)
Theorem flight_writes_need_operator (u : Jwt.payload) (oid : ObjectId)
    (areq : AddFlightReq.t) (ureq : UpdateFlightReq.t) (db : DB) :
  Jwt.usertype u ≠ "flight-operator" ∨ Jwt.approval u ≠ approved →
  addFlight (GoodToken u) oid areq db
  = (db, json 403 "Access denied: Approved Flight Operator role required")
  ∧ updateFlight (GoodToken u) ureq db
    = (db, json 403 "Access denied: Approved Flight Operator role required").
Proof.
  intros Hu. unfold addFlight, updateFlight, flightOperatorAuth. simpl.
  by rewrite decide_True.
Qed.

Lemma flight_writes_need_operator_witness :
  addFlight (GoodToken Sample.admin) 1 (Sample.flightReq 10) emptyDB
  = (emptyDB, json 403 "Access denied: Approved Flight Operator role required")
  ∧ updateFlight (GoodToken Sample.admin) Sample.shrink emptyDB
    = (emptyDB, json 403 "Access denied: Approved Flight Operator role required").
Proof.
  apply (flight_writes_need_operator Sample.admin 1 (Sample.flightReq 10)
           Sample.shrink emptyDB).
  left. discriminate.
Defined.

(** X2. A flight added by an approved operator, under a new id and with
    its required fields filled in, is the one /fetch-flight/:id then
    returns: it starts with [availableSeats = totalSeats]; every other id
    fetches what it did before. *)
Theorem added_flight_is_fetched (u : Jwt.payload) (oid : ObjectId)
    (req : AddFlightReq.t) (db : DB) :
  Jwt.usertype u = "flight-operator" → Jwt.approval u = approved →
  flights db !! oid = None →
  nonEmpty (AddFlightReq.flightName req) = true →
  nonEmpty (AddFlightReq.flightId req) = true →
  nonEmpty (AddFlightReq.origin req) = true →
  nonEmpty (AddFlightReq.destination req) = true →
  nonEmpty (AddFlightReq.departureTime req) = true →
  nonEmpty (AddFlightReq.arrivalTime req) = true →
  isValidDate (AddFlightReq.journeyDate req) = true →
  ∃ f db',
    addFlight (GoodToken u) oid req db
    = (db', mkResponse 201 (MessageFlight "Flight added successfully!" f))
    ∧ fetchFlight oid db' = inr f
    ∧ Flight.availableSeats f = AddFlightReq.totalSeats req
    ∧ Flight.totalSeats f = AddFlightReq.totalSeats req
    ∧ (∀ id, id ≠ oid → fetchFlight id db' = fetchFlight id db)
    ∧ users db' = users db ∧ bookings db' = bookings db.
Proof.
  intros Hrole Happ Hnew H1 H2 H3 H4 H5 H6 H7.
  eexists _, _. split.
  - unfold addFlight, flightOperatorAuth. simpl.
    rewrite decide_False by (intros [? | ?]; done).
    unfold Flight_insert, Flight.valid. simpl.
    rewrite H1, H2, H3, H4, H5, H6, H7, Hnew. simpl. reflexivity.
  - unfold fetchFlight. simpl. rewrite lookup_insert_eq.
    repeat split; try done.
    intros id Hid. by rewrite lookup_insert_ne.
Qed.

Lemma added_flight_is_fetched_witness :
  ∃ f db',
    addFlight (GoodToken Sample.operator) 1 (Sample.flightReq 10) emptyDB
    = (db', mkResponse 201 (MessageFlight "Flight added successfully!" f))
    ∧ fetchFlight 1 db' = inr f
    ∧ Flight.availableSeats f = 10.
Proof.
  destruct (added_flight_is_fetched Sample.operator 1 (Sample.flightReq 10)
              emptyDB)
    as (f & db' & Hrun & Hfetch & Havail & _); try reflexivity.
  exists f, db'. split; [exact Hrun |]. split; [exact Hfetch | exact Havail].
Defined.

(** ** Edits of a flight *)

Lemma jsOr_truthyOnly {A : Type} `{Truthy A} (a : option A) (b : A) :
  jsOr (truthyOnly a) b = jsOr a b.
Proof.
  destruct a as [v|]; simpl; [| done].
  destruct (truthy v) eqn:Hv; simpl; [by rewrite Hv | done].
Qed.

(** X3. /update-flight answers a request in which a text field is the
    empty string, or [basePrice] or [totalSeats] the number [0], exactly
    as it answers the same request without those fields, and stores the
    same: each assignment is [field || stored]. *)
Theorem falsy_fields_are_ignored (h : AuthHeader) (req : UpdateFlightReq.t)
    (db : DB) :
  updateFlight h req db = updateFlight h (dropFalsy req) db.
Proof.
  unfold updateFlight.
  destruct (authMiddleware h); [done |].
  destruct (flightOperatorAuth _); [done |].
  change (UpdateFlightReq._id (dropFalsy req)) with (UpdateFlightReq._id req).
  destruct (flights db !! UpdateFlightReq._id req) as [flight|]; [| done].
  assert (E : applyUpdate (dropFalsy req) flight = applyUpdate req flight).
  { unfold applyUpdate, dropFalsy. simpl. by rewrite !jsOr_truthyOnly. }
  by rewrite E.
Qed.

(** X4. An edit whose [journeyDate] does not parse is answered 500 and
    nothing of it is stored, its other fields included; an edit of an id
    that is not stored is answered 404. *)
Theorem unparsed_date_loses_the_edit (u : Jwt.payload)
    (req : UpdateFlightReq.t) (db : DB) :
  Jwt.usertype u = "flight-operator" → Jwt.approval u = approved →
  (UpdateFlightReq.journeyDate req = Some InvalidDate →
   is_Some (flights db !! UpdateFlightReq._id req) →
   updateFlight (GoodToken u) req db
   = (db, json 500 "Server Error updating flight."))
  ∧ (flights db !! UpdateFlightReq._id req = None →
     updateFlight (GoodToken u) req db = (db, json 404 "Flight not found.")).
Proof.
  intros Hrole Happ. unfold updateFlight, flightOperatorAuth. simpl.
  rewrite decide_False by (intros [? | ?]; done).
  split.
  - intros Hdate [flight Hf]. rewrite Hf.
    unfold Flight_update, Flight.valid, applyUpdate. simpl.
    rewrite Hdate. simpl. by rewrite andb_false_r.
  - by intros ->.
Qed.

Lemma unparsed_date_loses_the_edit_witness :
  updateFlight (GoodToken Sample.operator) Demo.badDate (Sample.withFlight 10)
  = (Sample.withFlight 10, json 500 "Server Error updating flight.").
Proof.
  apply (unparsed_date_loses_the_edit Sample.operator Demo.badDate
           (Sample.withFlight 10)); try reflexivity.
  eexists. reflexivity.
Defined.

(** ** Accounts *)

(** Either nothing is stored and the answer is an error, or the email,
    the username and the id were free and the account is appended:
    not-approved for a flight operator, approved for a user or an admin. *)
Lemma register_cases (oid : ObjectId) (req : RegisterReq.t) (db : DB) :
  (fst (register oid req db) = db
   ∧ status (snd (register oid req db)) ≠ 201%nat)
  ∨ ∃ a,
      findOne (fun u => User.email u = RegisterReq.email req) (users db) = None
      ∧ findOne (fun u => User.username u = RegisterReq.username req) (users db)
        = None
      ∧ findOne (fun u => User._id u = oid) (users db) = None
      ∧ (RegisterReq.usertype req = "flight-operator" ∧ a = not_approved
         ∨ (RegisterReq.usertype req = "user"
            ∨ RegisterReq.usertype req = "admin") ∧ a = approved)
      ∧ register oid req db
        = (mkDB (users db ++ [registeredUser oid req a]) (flights db)
                (bookings db),
           mkResponse 201
             (MessageTokenUser "Registration successful!"
                (Jwt.mk oid (RegisterReq.usertype req) a)
                (registeredUser oid req a))).
Proof.
  unfold register.
  destruct (findOne (fun u => User.email u = _) _) eqn:Hemail;
    [left; split; [done | simpl; lia] |].
  destruct (findOne (fun u => User.username u = _) _) eqn:Hname;
    [left; split; [done | simpl; lia] |].
  assert (Hins : ∀ a,
            User_insert (registeredUser oid req a) db
            = Some (mkDB (users db ++ [registeredUser oid req a]) (flights db)
                         (bookings db))
            ∧ findOne (fun u => User._id u = oid) (users db) = None
            ∨ User_insert (registeredUser oid req a) db = None).
  { intros a. unfold User_insert.
    destruct (_ && _) eqn:E; [left | by right].
    split; [done |].
    apply andb_true_iff in E as [E _]. apply andb_true_iff in E as [_ E].
    by apply bool_decide_eq_true in E. }
  destruct (decide (RegisterReq.usertype req = "flight-operator")) as [Hop|Hop].
  - simpl. fold (registeredUser oid req not_approved).
    destruct (Hins not_approved) as [[-> Hid] | ->];
      [| left; split; [done | simpl; lia]].
    right. exists not_approved. repeat split; try done. by left.
  - destruct (decide (_ ∧ _)) as [Hbad|Hok];
      [left; split; [done | simpl; lia] |].
    simpl. fold (registeredUser oid req approved).
    destruct (Hins approved) as [[-> Hid] | ->];
      [| left; split; [done | simpl; lia]].
    right. exists approved. repeat split; try done. right. split; [| done].
    destruct (decide (RegisterReq.usertype req = "user")); [by left |].
    destruct (decide (RegisterReq.usertype req = "admin")); [by right |].
    exfalso. by apply Hok.
Qed.

Lemma bcrypt_compare_hash (p q : string) (rounds : nat) :
  bcrypt_compare p (bcrypt_hash q rounds)
  = bool_decide (bcryptInput p = bcryptInput q).
Proof.
  unfold bcrypt_compare, bcrypt_hash.
  destruct (String.eqb_spec (bcryptInput p) (bcryptInput q)) as [->|Hne].
  - by rewrite bool_decide_eq_true_2.
  - by rewrite bool_decide_eq_false_2.
Qed.

(** X5. Once /register has answered 201, /login with the registered
    email answers by the first 72 bytes of the password, the part that
    [bcrypt] reads: 401 if they differ from those of the registered
    password; if they agree, 403 if the account is a flight operator (it
    starts not-approved) and otherwise 200 with a token for the new id,
    role and approval. *)
Theorem registered_user_logs_in (oid : ObjectId) (req : RegisterReq.t)
    (db db' : DB) (r : Response) (password : string) :
  register oid req db = (db', r) → status r = 201%nat →
  login (LoginReq.mk (RegisterReq.email req) password) db'
  = if decide (bcryptInput password = bcryptInput (RegisterReq.password req))
    then if decide (RegisterReq.usertype req = "flight-operator")
         then json 403 "Flight operator account is not yet approved."
         else mkResponse 200
                (MessageTokenUser "Login successful!"
                   (Jwt.mk oid (RegisterReq.usertype req) approved)
                   (registeredUser oid req approved))
    else json 401 "Invalid credentials".
Proof.
  intros Hreg Hst.
  destruct (register_cases oid req db)
    as [[_ Hno] | (a & Hemail & _ & _ & Hrole & Hrun)].
  { rewrite Hreg in Hno. by simpl in Hno. }
  rewrite Hreg in Hrun. injection Hrun as -> _.
  unfold login. cbn [LoginReq.email LoginReq.password users].
  rewrite (findOne_app_None _ _ _ Hemail). cbn [findOne filter head].
  cbn [registeredUser User.email User.password User.approval User.usertype].
  rewrite decide_True by done. cbn [head].
  change (User.password (registeredUser oid req a))
    with (bcrypt_hash (RegisterReq.password req) 10).
  change (User.usertype (registeredUser oid req a))
    with (RegisterReq.usertype req).
  change (User.approval (registeredUser oid req a)) with a.
  change (User._id (registeredUser oid req a)) with oid.
  rewrite bcrypt_compare_hash.
  destruct (decide (bcryptInput password
                    = bcryptInput (RegisterReq.password req))) as [Hp|Hp].
  - rewrite (bool_decide_eq_true_2 _ Hp). simpl.
    destruct Hrole as [[Hop ->] | [Hother ->]].
    + rewrite decide_True by done. by rewrite decide_True.
    + rewrite decide_False by (by intros [_ ?]).
      rewrite decide_False; [done |].
      intros E. rewrite E in Hother. by destruct Hother.
  - by rewrite (bool_decide_eq_false_2 _ Hp).
Qed.

Lemma registered_user_logs_in_witness :
  login (LoginReq.mk "tara@mail.example" "pa55word")
        (fst (register 2 Demo.userSignup emptyDB))
  = mkResponse 200
      (MessageTokenUser "Login successful!" (Jwt.mk 2 "user" approved)
         (registeredUser 2 Demo.userSignup approved)).
Proof.
  apply (registered_user_logs_in 2 Demo.userSignup emptyDB
           (fst (register 2 Demo.userSignup emptyDB))
           (snd (register 2 Demo.userSignup emptyDB)) "pa55word");
    reflexivity.
Defined.

(** Two passwords that agree on their first 72 bytes open the same
    account; one that differs within them does not. *)
Example long_passwords_are_cut :
  String.length (Demo.longPassword "") = 72%nat
  ∧ status (login (LoginReq.mk "lena@mail.example" (Demo.longPassword "y"))
              (fst (register 2 Demo.longSignup emptyDB))) = 200%nat
  ∧ status (login (LoginReq.mk "lena@mail.example" "correct-horse")
              (fst (register 2 Demo.longSignup emptyDB))) = 401%nat.
Proof. repeat split; vm_compute; reflexivity. Qed.

(** X6. A registration that repeats the email or the username of a
    stored account is answered 400 and stores nothing, whatever else it
    carries. *)
Theorem taken_email_or_username_refused (oid : ObjectId) (req : RegisterReq.t)
    (db : DB) (v : User.t) :
  v ∈ users db →
  User.email v = RegisterReq.email req
  ∨ User.username v = RegisterReq.username req →
  register oid req db = (db, json 400 "User already exists with this email.")
  ∨ register oid req db = (db, json 400 "Username already taken.").
Proof.
  intros Hv Hsame. unfold register.
  destruct (findOne (fun u => User.email u = _) _) eqn:Hemail; [by left |].
  destruct (findOne (fun u => User.username u = _) _) eqn:Hname; [by right |].
  exfalso. destruct Hsame as [E | E].
  - by apply (proj1 (findOne_None _ _) Hemail v).
  - by apply (proj1 (findOne_None _ _) Hname v).
Qed.

Lemma taken_email_or_username_refused_witness :
  register 9 (RegisterReq.mk "tara" "other@mail.example" "admin" "x")
           Demo.signedUp
  = (Demo.signedUp, json 400 "User already exists with this email.")
  ∨ register 9 (RegisterReq.mk "tara" "other@mail.example" "admin" "x")
             Demo.signedUp
    = (Demo.signedUp, json 400 "Username already taken.").
Proof.
  apply (taken_email_or_username_refused 9
           (RegisterReq.mk "tara" "other@mail.example" "admin" "x")
           Demo.signedUp (registeredUser 2 Demo.userSignup approved)).
  - vm_compute. do 2 right. left.
  - right. reflexivity.
Defined.

(** An approval decision either stores nothing, or it was taken by an
    admin on a stored flight operator, whose approval alone changes. *)
Lemma decideOperator_cases (a : Approval) (refusal notice : string)
    (h : AuthHeader) (id : ObjectId) (db : DB) :
  (fst (decideOperator a refusal notice h id db) = db
   ∧ status (snd (decideOperator a refusal notice h id db)) ≠ 200%nat)
  ∨ ∃ u user,
      h = GoodToken u ∧ Jwt.usertype u = "admin"
      ∧ findOne (fun v => User._id v = id) (users db) = Some user
      ∧ User.usertype user = "flight-operator"
      ∧ decideOperator a refusal notice h id db
        = (mkDB (updateOne (fun v => User._id v = id) (withApproval a)
                   (users db))
                (flights db) (bookings db),
           mkResponse 200 (MessageUser notice (withApproval a user))).
Proof.
  unfold decideOperator.
  destruct h as [| |u]; simpl; [left; split; [done | lia].. |].
  unfold adminAuth.
  destruct (decide (Jwt.usertype u ≠ "admin")) as [Hna|Hadm];
    [left; split; [done | simpl; lia] |].
  destruct (findOne _ _) as [user|] eqn:Hu; [| left; split; [done | simpl; lia]].
  destruct (decide (User.usertype user ≠ "flight-operator")) as [Hno|Hop];
    [left; split; [done | simpl; lia] |].
  right. exists u, user. repeat split; try done.
  - by destruct (decide (Jwt.usertype u = "admin")).
  - by destruct (decide (User.usertype user = "flight-operator")).
Qed.

Lemma elem_of_updateOne {A : Type} (P : A -> Prop) `{∀ x, Decision (P x)}
    (change : A -> A) (l : list A) (x' : A) :
  x' ∈ updateOne P change l →
  x' ∈ l ∨ ∃ x, findOne P l = Some x ∧ x' = change x.
Proof.
  unfold findOne. induction l as [|y l IH]; simpl; [by intros ?%elem_of_nil |].
  destruct (decide (P y)) as [Hy|Hy].
  - rewrite (bool_decide_eq_true_2 _ Hy).
    intros [-> | Hin]%elem_of_cons; [right; eauto | left; by right].
  - rewrite (bool_decide_eq_false_2 _ Hy).
    intros [-> | Hin]%elem_of_cons; [left; left |].
    destruct (IH Hin) as [? | ?]; [left; by right | by right].
Qed.

Lemma users_step (db : DB) (o : Op) : users (step db o) = users db.
Proof.
  destruct o as [h oid req|h req|h oid now req|h bid]; simpl.
  - unfold addFlight. destruct (authMiddleware h); [done |].
    destruct (flightOperatorAuth _); [done |].
    unfold Flight_insert. by destruct (_ && _).
  - unfold updateFlight. destruct (authMiddleware h); [done |].
    destruct (flightOperatorAuth _); [done |].
    destruct (flights db !! _); [| done].
    unfold Flight_update. by destruct (Flight.valid _).
  - by destruct (bookTicket_cases h oid now req db)
      as [[-> _]|(u & flight & _ & _ & _ & _ & ->)].
  - destruct (cancelTicket_cases h bid db)
      as [-> | (booking & _ & _ & ->)]; [done |].
    simpl. by destruct (flights db !! _).
Qed.

Lemma NoDup_key_snoc {A K : Type} `{EqDecision K} (key : A → K)
    (l : list A) (x : A) :
  findOne (fun y => key y = key x) l = None →
  NoDup (key <$> l) → NoDup (key <$> l ++ [x]).
Proof.
  intros Hnone Hnd. rewrite fmap_app. apply NoDup_app.
  split; [done |]. split; [| apply NoDup_singleton].
  intros k (y & -> & Hy)%list_elem_of_fmap Hk.
  apply list_elem_of_singleton in Hk.
  by apply (proj1 (findOne_None _ _) Hnone y).
Qed.

Lemma UsersInOrder_register (oid : ObjectId) (req : RegisterReq.t) (db : DB) :
  UsersInOrder db → UsersInOrder (fst (register oid req db)).
Proof.
  intros [He Hn Hi Hr Ha].
  destruct (register_cases oid req db)
    as [[-> _] | (a & Hemail & Hname & Hid & Hrole & ->)]; [done |].
  split; simpl.
  - by apply NoDup_key_snoc.
  - by apply NoDup_key_snoc.
  - by apply NoDup_key_snoc.
  - intros u [Hu | ->%list_elem_of_singleton]%elem_of_app; [by apply Hr |].
    simpl. rewrite !elem_of_cons.
    destruct Hrole as [[-> _] | [[-> | ->] _]]; auto.
  - intros u [Hu | ->%list_elem_of_singleton]%elem_of_app; [by apply Ha |].
    simpl. by destruct Hrole as [[-> _] | [_ ->]].
Qed.

Lemma UsersInOrder_decideOperator (a : Approval) (refusal notice : string)
    (h : AuthHeader) (id : ObjectId) (db : DB) :
  UsersInOrder db → UsersInOrder (fst (decideOperator a refusal notice h id db)).
Proof.
  intros [He Hn Hi Hr Ha].
  destruct (decideOperator_cases a refusal notice h id db)
    as [[-> _] | (u & user & _ & _ & Hu & Hop & ->)]; [done |].
  split; simpl.
  - by rewrite fmap_updateOne.
  - by rewrite fmap_updateOne.
  - by rewrite fmap_updateOne.
  - intros x [Hx | (x0 & Hx0 & ->)]%elem_of_updateOne; [by apply Hr |].
    apply findOne_Some in Hx0 as [_ Hx0]. by apply (Hr x0).
  - intros x [Hx | (x0 & Hx0 & ->)]%elem_of_updateOne; [by apply Ha |].
    rewrite Hu in Hx0. injection Hx0 as <-. simpl. by rewrite Hop.
Qed.

Lemma UsersInOrder_empty : UsersInOrder emptyDB.
Proof.
  split; simpl; try apply NoDup_nil_2;
    intros u Hu; by apply elem_of_nil in Hu.
Qed.

Lemma UsersInOrder_serveAll (rs : list Request) (db : DB) :
  UsersInOrder db → UsersInOrder (serveAll rs db).
Proof.
  revert db. induction rs as [|r rs IH]; intros db Hdb; simpl; [done |].
  apply IH. destruct r as [oid req|h id|h id|o]; simpl.
  - by apply UsersInOrder_register.
  - by apply UsersInOrder_decideOperator.
  - by apply UsersInOrder_decideOperator.
  - destruct Hdb as [He Hn Hi Hr Ha].
    split; rewrite users_step; done.
Qed.

(** X7. From the empty database, whatever requests are served, one at a
    time: no two accounts share an email, a username or an id; every
    role is "user", "admin" or "flight-operator"; and every account that
    is not a flight operator is approved. *)
Theorem accounts_stay_in_order (rs : list Request) :
  UsersInOrder (serveAll rs emptyDB).
Proof. apply UsersInOrder_serveAll, UsersInOrder_empty. Qed.

(** X8. /approve-operator and /reject-operator store something only
    when an admin names a stored flight operator: then that account, and
    no other, carries the decided approval, with every other field as it
    was; flights and bookings are never touched.  In every other case
    (401, 403, 404, 400) the database is the one it was. *)
Theorem operator_decision (a : Approval) (refusal notice : string)
    (h : AuthHeader) (id : ObjectId) (db : DB) :
  let db' := fst (decideOperator a refusal notice h id db) in
  let r := snd (decideOperator a refusal notice h id db) in
  (status r ≠ 200%nat → db' = db)
  ∧ (status r = 200%nat →
     ∃ u user,
       h = GoodToken u ∧ Jwt.usertype u = "admin"
       ∧ findOne (fun v => User._id v = id) (users db) = Some user
       ∧ User.usertype user = "flight-operator"
       ∧ findOne (fun v => User._id v = id) (users db')
         = Some (withApproval a user))
  ∧ (∀ id', id' ≠ id →
     findOne (fun v => User._id v = id') (users db')
     = findOne (fun v => User._id v = id') (users db))
  ∧ length (users db') = length (users db)
  ∧ flights db' = flights db
  ∧ bookings db' = bookings db.
Proof.
  intros db' r. subst db' r.
  destruct (decideOperator_cases a refusal notice h id db)
    as [[Hdb Hst] | (u & user & Hh & Hadm & Hu & Hop & Hrun)].
  - rewrite Hdb. repeat split; done.
  - rewrite Hrun. simpl. split; [done |]. split; [| split; [| split]].
    + intros _. exists u, user. repeat split; try done.
      rewrite (findOne_updateOne_key User._id (withApproval a) id id) by done.
      rewrite Hu. simpl. by rewrite decide_True.
    + intros id' Hne.
      rewrite (findOne_updateOne_key User._id (withApproval a) id' id) by done.
      rewrite decide_False by congruence.
      by destruct (findOne (fun v => User._id v = id') (users db)).
    + apply length_updateOne.
    + done.
Qed.

(** Once approved by an admin, a flight operator who knew the password
    is let in, and the token opens /add-flight. *)
Lemma findOne_after_update {A K1 K2 : Type} `{EqDecision K1} `{EqDecision K2}
    (key1 : A → K1) (key2 : A → K2) (change : A → A) (l : list A) (x : A) :
  NoDup (key1 <$> l) → NoDup (key2 <$> l) → x ∈ l →
  (∀ y, key2 (change y) = key2 y) →
  findOne (fun y => key2 y = key2 x)
          (updateOne (fun y => key1 y = key1 x) change l)
  = Some (change x).
Proof.
  intros H1 H2 Hx Hkey. unfold findOne.
  induction l as [|y l IH]; [by apply elem_of_nil in Hx |].
  rewrite fmap_cons in H1. rewrite fmap_cons in H2.
  apply NoDup_cons in H1 as [Hy1 H1]. apply NoDup_cons in H2 as [Hy2 H2].
  apply elem_of_cons in Hx as [-> | Hx]; simpl.
  - rewrite decide_True by done. simpl.
    by rewrite bool_decide_eq_true_2 by apply Hkey.
  - rewrite decide_False.
    + simpl. rewrite bool_decide_eq_false_2; [by apply IH |].
      intros E. apply Hy2. rewrite E. apply list_elem_of_fmap. eauto.
    + intros E. apply Hy1. rewrite E. apply list_elem_of_fmap. eauto.
Qed.

(** X9. For a stored flight operator, in a user collection without
    repeated ids or emails: once an admin has approved the account,
    /login with the right password answers 200, and the token it issues
    passes the check of /add-flight and /update-flight; while the account
    is not-approved, the same login is answered 403. *)
Theorem approval_opens_login (admin : Jwt.payload) (user : User.t)
    (password : string) (db : DB) :
  UsersInOrder db → user ∈ users db →
  User.usertype user = "flight-operator" →
  bcrypt_compare password (User.password user) = true →
  Jwt.usertype admin = "admin" →
  let db' := fst (approveOperator (GoodToken admin) (User._id user) db) in
  let token := Jwt.mk (User._id user) "flight-operator" approved in
  login (LoginReq.mk (User.email user) password) db'
  = mkResponse 200
      (MessageTokenUser "Login successful!" token (withApproval approved user))
  ∧ flightOperatorAuth token = None
  ∧ (User.approval user = not_approved →
     login (LoginReq.mk (User.email user) password) db
     = json 403 "Flight operator account is not yet approved.").
Proof.
  intros [He _ Hi _ _] Hin Hop Hpw Hadm db' token.
  assert (Hid : findOne (fun v => User._id v = User._id user) (users db)
                = Some user) by (by apply findOne_unique).
  assert (Hem : findOne (fun v => User.email v = User.email user) (users db)
                = Some user) by (by apply findOne_unique).
  split; [| split].
  - subst db'. unfold approveOperator.
    destruct (decideOperator_cases approved
                "Only flight operators can be approved."
                "Flight operator approved!" (GoodToken admin) (User._id user) db)
      as [[_ Hst] | (u & user0 & _ & _ & _ & _ & ->)].
    { exfalso. apply Hst. unfold decideOperator, adminAuth. simpl.
      rewrite decide_False by (by intros ?). rewrite Hid.
      by rewrite decide_False by (by intros ?). }
    unfold login. simpl.
    rewrite (findOne_after_update User._id User.email (withApproval approved)
               (users db) user) by done.
    simpl. rewrite Hpw. simpl.
    rewrite decide_False by (by intros [_ ?]).
    subst token. by rewrite Hop.
  - done.
  - intros Hna. unfold login. simpl. rewrite Hem, Hpw. simpl.
    by rewrite decide_True.
Qed.

Lemma approval_opens_login_witness :
  login (LoginReq.mk "opal@skyjet.example" "s3cret")
        (fst (approveOperator (GoodToken Sample.admin) 1 Demo.signedUp))
  = mkResponse 200
      (MessageTokenUser "Login successful!"
         (Jwt.mk 1 "flight-operator" approved)
         (withApproval approved
            (registeredUser 1 Sample.operatorSignup not_approved))).
Proof.
  destruct (approval_opens_login Sample.admin
              (registeredUser 1 Sample.operatorSignup not_approved)
              "s3cret" Demo.signedUp) as [Hlogin _].
  - apply (UsersInOrder_serveAll
             [PostRegister 3 Demo.adminSignup;
              PostRegister 1 Sample.operatorSignup;
              PostRegister 2 Demo.userSignup]), UsersInOrder_empty.
  - vm_compute. right. left.
  - reflexivity.
  - reflexivity.
  - reflexivity.
  - exact Hlogin.
Defined.

(** X10. The approval that /add-flight and /update-flight check is the
    one written in the token, not the stored one: whatever an admin
    decides about an operator in between, a token answers and stores the
    same as before. *)
Theorem token_is_not_rechecked (a : Approval) (refusal notice : string)
    (h' : AuthHeader) (id : ObjectId) (h : AuthHeader) (oid : ObjectId)
    (areq : AddFlightReq.t) (ureq : UpdateFlightReq.t) (db : DB) :
  let db' := fst (decideOperator a refusal notice h' id db) in
  snd (addFlight h oid areq db') = snd (addFlight h oid areq db)
  ∧ flights (fst (addFlight h oid areq db'))
    = flights (fst (addFlight h oid areq db))
  ∧ snd (updateFlight h ureq db') = snd (updateFlight h ureq db)
  ∧ flights (fst (updateFlight h ureq db'))
    = flights (fst (updateFlight h ureq db)).
Proof.
  intros db'.
  assert (Hfl : flights db' = flights db).
  { subst db'.
    by destruct (decideOperator_cases a refusal notice h' id db)
      as [[-> _] | (u & user & _ & _ & _ & _ & ->)]. }
  unfold addFlight, updateFlight.
  destruct (authMiddleware h); [done |].
  destruct (flightOperatorAuth _); [done |].
  unfold Flight_insert, Flight_update. simpl. rewrite Hfl.
  split; [by destruct (_ && _) |]. split; [by destruct (_ && _) |].
  destruct (flights db !! UpdateFlightReq._id ureq); [| done].
  by destruct (Flight.valid _).
Qed.

(** X11. The token that /register issues fetches the new account under
    its own id; unless the account is an admin it is refused (403) every
    other stored account, and the list of all accounts. *)
Theorem registered_user_fetches_self (oid : ObjectId) (req : RegisterReq.t)
    (db db' : DB) (m : string) (token : Jwt.payload) (user : User.t) :
  register oid req db = (db', mkResponse 201 (MessageTokenUser m token user)) →
  fetchUser (GoodToken token) oid db' = inr user
  ∧ (RegisterReq.usertype req ≠ "admin" →
     (∀ other, other ≠ oid →
        is_Some (findOne (fun v => User._id v = other) (users db')) →
        fetchUser (GoodToken token) other db'
        = inl (json 403 "Not authorized to view this user."))
     ∧ fetchUsers (GoodToken token) db'
       = inl (json 403 "Access denied: Admin role required"))
  ∧ (RegisterReq.usertype req = "admin" →
     fetchUsers (GoodToken token) db' = inr (users db')).
Proof.
  intros Hreg.
  destruct (register_cases oid req db)
    as [[_ Hno] | (a & _ & _ & Hid & _ & Hrun)].
  { rewrite Hreg in Hno. by simpl in Hno. }
  rewrite Hreg in Hrun. injection Hrun as -> _ -> ->.
  unfold fetchUser, fetchUsers, adminAuth. simpl.
  split; [| split].
  - rewrite (findOne_app_None _ _ _ Hid). simpl.
    rewrite decide_True by done. by rewrite decide_False by (by intros [? _]).
  - intros Hrole. split.
    + intros other Hne [v ->]. by rewrite decide_True.
    + by rewrite decide_True.
  - intros ->. by rewrite decide_False by (by intros ?).
Qed.

Lemma registered_user_fetches_self_witness :
  fetchUser (GoodToken (Jwt.mk 2 "user" approved)) 2
            (fst (register 2 Demo.userSignup emptyDB))
  = inr (registeredUser 2 Demo.userSignup approved).
Proof.
  destruct (registered_user_fetches_self 2 Demo.userSignup emptyDB
              (fst (register 2 Demo.userSignup emptyDB))
              "Registration successful!" (Jwt.mk 2 "user" approved)
              (registeredUser 2 Demo.userSignup approved)) as [Hself _];
    [reflexivity | exact Hself].
Defined.

(** ** What a write does to the collections *)

(** The five things a flight-side operation can do. *)
Lemma step_effect (db : DB) (o : Op) :
  step db o = db
  ∨ (∃ fid f,
       flights db !! fid = None
       ∧ Flight.availableSeats f = Flight.totalSeats f
       ∧ step db o = mkDB (users db) (<[fid := f]> (flights db)) (bookings db))
  ∨ (∃ h req f,
       o = OpUpdateFlight h req
       ∧ flights db !! UpdateFlightReq._id req = Some f
       ∧ step db o
         = mkDB (users db)
             (<[UpdateFlightReq._id req := applyUpdate req f]> (flights db))
             (bookings db))
  ∨ (∃ fid flight b,
       flights db !! fid = Some flight
       ∧ Booking.flight b = fid
       ∧ Booking.bookingStatus b = confirmed
       ∧ toDouble (Z.of_nat (length (Booking.passengers b)))
         ≤ toDouble (Flight.availableSeats flight)
       ∧ findOne (fun c => Booking._id c = Booking._id b) (bookings db) = None
       ∧ Booking.seats b
         = String.concat ", "
             (codesFrom (coachPrefix (Booking.seatClass b))
                (priorCount fid (Booking.seatClass b) (bookings db))
                (length (Booking.passengers b)))
       ∧ step db o
         = Flight_saveAvailableSeats fid
             (assigned (Flight.availableSeats flight)
                (jsSub (Flight.availableSeats flight)
                       (Z.of_nat (length (Booking.passengers b)))))
             (mkDB (users db) (flights db) (bookings db ++ [b])))
  ∨ (∃ bid booking,
       findOne (fun c => Booking._id c = bid) (bookings db) = Some booking
       ∧ Booking.bookingStatus booking = confirmed
       ∧ step db o
         = match flights db !! Booking.flight booking with
           | Some flight =>
             Flight_saveAvailableSeats (Booking.flight booking)
               (assigned (Flight.availableSeats flight)
                  (jsAdd (Flight.availableSeats flight)
                         (Z.of_nat (length (Booking.passengers booking)))))
               (Booking_saveStatus bid cancelled db)
           | None => Booking_saveStatus bid cancelled db
           end).
Proof.
  destruct o as [h oid req|h req|h oid now req|h bid]; simpl.
  - unfold addFlight. destruct (authMiddleware h); [by left |].
    destruct (flightOperatorAuth _); [by left |].
    unfold Flight_insert. destruct (_ && _) eqn:E; [| by left].
    right. left. apply andb_true_iff in E as [_ E].
    apply bool_decide_eq_true in E. eexists _, _. by repeat split.
  - unfold updateFlight. destruct (authMiddleware h); [by left |].
    destruct (flightOperatorAuth _); [by left |].
    destruct (flights db !! _) as [f|] eqn:Hf; [| by left].
    unfold Flight_update. destruct (Flight.valid _); [| by left].
    right. right. left. exists h, req, f. by repeat split.
  - destruct (bookTicket_cases h oid now req db)
      as [[-> _]|(u & flight & _ & Hf & Hn & Hfresh & ->)]; [by left |].
    do 3 right. left.
    exists (BookReq.flightId req), flight,
      (newBooking u oid now req flight
         (existingBookingsInClass (BookReq.flightId req)
            (BookReq.seatClass req) db)).
    split; [done |]. split; [done |]. split; [done |]. split; [done |].
    split; [done |]. split; [| done].
    simpl. by rewrite seatsAssigned_codesFrom, numBooked_priorCount.
  - destruct (cancelTicket_cases h bid db)
      as [-> | (booking & Hb & Hst & ->)]; [by left |].
    do 4 right. exists bid, booking. by repeat split.
Qed.

(** Requests about accounts leave flights and bookings alone. *)
Lemma account_side_frame (db : DB) (r : Request) :
  (∀ o, r ≠ FlightSide o) →
  flights (serve db r) = flights db ∧ bookings (serve db r) = bookings db.
Proof.
  intros Hr. destruct r as [oid req|h id|h id|o]; simpl.
  - by destruct (register_cases oid req db)
      as [[-> _] | (a & _ & _ & _ & _ & ->)].
  - unfold approveOperator.
    by destruct (decideOperator_cases approved
                   "Only flight operators can be approved."
                   "Flight operator approved!" h id db)
      as [[-> _] | (u & user & _ & _ & _ & _ & ->)].
  - unfold rejectOperator.
    by destruct (decideOperator_cases rejected
                   "Only flight operators can be rejected."
                   "Flight operator rejected!" h id db)
      as [[-> _] | (u & user & _ & _ & _ & _ & ->)].
  - by destruct (Hr o).
Qed.

(** What holds of flights and bookings at the start and is kept by every
    flight-side operation holds after every sequence of requests. *)
Lemma serveAll_ind (Inv : gmap positive Flight.t → list Booking.t → Prop)
    (ok : DB → Request → bool) :
  (∀ db o, Inv (flights db) (bookings db) → ok db (FlightSide o) = true →
           Inv (flights (step db o)) (bookings (step db o))) →
  ∀ rs db,
    Inv (flights db) (bookings db) →
    allServed ok db rs = true →
    Inv (flights (serveAll rs db)) (bookings (serveAll rs db)).
Proof.
  intros Hstep rs. induction rs as [|r rs IH]; intros db Hdb Hok; [done |].
  simpl in Hok. apply andb_true_iff in Hok as [Hr Hrs].
  change (serveAll (r :: rs) db) with (serveAll rs (serve db r)).
  apply IH; [| done].
  assert (Hside : (∃ o, r = FlightSide o) ∨ ∀ o, r ≠ FlightSide o).
  { destruct r; [right; done.. | left; eauto]. }
  destruct Hside as [[o ->] | Hno].
  - by apply Hstep.
  - by destruct (account_side_frame db r Hno) as [-> ->].
Qed.

Lemma allServed_always (db : DB) (rs : list Request) :
  allServed (fun _ _ => true) db rs = true.
Proof. revert db. induction rs as [|r rs IH]; intros db; simpl; [done | apply IH]. Qed.

Lemma totalsKept_allServed (db : DB) (rs : list Request) :
  totalsKept db rs = allServed keepsTotal db rs.
Proof.
  revert db. induction rs as [|r rs IH]; intros db; simpl; [done |].
  by rewrite IH.
Qed.

Lemma bookings_name_flights (rs : list Request) (b : Booking.t) :
  b ∈ bookings (serveAll rs emptyDB) →
  is_Some (flights (serveAll rs emptyDB) !! Booking.flight b).
Proof.
  revert b.
  apply (serveAll_ind
           (fun fl bs => ∀ b, b ∈ bs → is_Some (fl !! Booking.flight b))
           (fun _ _ => true)).
  - intros db o Hdb _.
    destruct (step_effect db o)
      as [-> | [(fid & f & _ & _ & ->)
         | [(h & req & f & _ & Hf & ->)
         | [(fid & flight & b0 & Hf & Hfl & _ & _ & _ & _ & ->)
         | (bid & booking & Hb & _ & ->)]]]]; simpl.
    + done.
    + intros b Hb. apply lookup_insert_is_Some'. right. by apply Hdb.
    + intros b Hb. apply lookup_insert_is_Some'. right. by apply Hdb.
    + intros b [Hb | ->%list_elem_of_singleton]%elem_of_app;
        apply lookup_alter_is_Some; [by apply Hdb | rewrite Hfl; eauto].
    + assert (Hkept : ∀ b, b ∈ updateOne (fun c => Booking._id c = bid)
                               (Booking.set_bookingStatus cancelled)
                               (bookings db) →
                is_Some (flights db !! Booking.flight b)).
      { intros b Hin.
        destruct (elem_of_updateOne_flight _ _ _ _ Hin) as (b0 & Hb0 & ->).
        by apply Hdb. }
      destruct (flights db !! Booking.flight booking); simpl; [| done].
      intros b Hin. apply lookup_alter_is_Some. by apply Hkept.
  - intros b Hb. by apply elem_of_nil in Hb.
  - apply allServed_always.
Qed.

(** ** Bookings *)

(** X12. /fetch-bookings is for admins only (403 otherwise).  From the
    empty database, whatever requests were served, an admin gets one
    entry per stored booking, in order, and none of them has a [null]
    flight: a booking always names a stored flight. *)
Theorem fetched_bookings_have_flights (rs : list Request) (u : Jwt.payload) :
  let db := serveAll rs emptyDB in
  (Jwt.usertype u ≠ "admin" →
   fetchBookings (GoodToken u) db
   = inl (json 403 "Access denied: Admin role required"))
  ∧ (Jwt.usertype u = "admin" →
     ∃ l, fetchBookings (GoodToken u) db = inr l
          ∧ Populated.booking <$> l = bookings db
          ∧ Forall (fun p => is_Some (Populated.flight p)) l).
Proof.
  intros db. unfold fetchBookings, adminAuth. simpl. split.
  - intros Hu. by rewrite decide_True.
  - intros Hu. rewrite decide_False by (by intros ?).
    eexists. split; [done |]. split.
    + rewrite <- list_fmap_compose. apply list_fmap_id.
    + apply Forall_fmap, Forall_forall. intros b Hb. simpl.
      apply fmap_is_Some. by apply bookings_name_flights.
Qed.


(** X14. What a created booking holds: the caller as owner, the
    passengers as sent, the price [n * basePrice] as the double it is
    (the product itself when the base price and the product are within
    2^53 of zero), the name, code, departure, destination and date the
    flight had at that moment, no email at all (the token carries none),
    and [mobile] or "N/A".  A later /update-flight does not reach it: it
    stays a snapshot. *)
Theorem booking_is_a_snapshot (h : AuthHeader) (oid : ObjectId) (now : Z)
    (req : BookReq.t) (db db' : DB) (b : Booking.t) :
  bookTicket h oid now req db = (db', created b) →
  ∃ u flight,
    h = GoodToken u
    ∧ flights db !! BookReq.flightId req = Some flight
    ∧ Booking._id b = oid
    ∧ Booking.user b = Jwt.id u
    ∧ Booking.flight b = BookReq.flightId req
    ∧ Booking.passengers b = BookReq.passengers req
    ∧ Booking.totalPrice b
      = jsMul (Z.of_nat (length (BookReq.passengers req)))
              (Flight.basePrice flight)
    ∧ (- 2 ^ 53 ≤ Flight.basePrice flight ≤ 2 ^ 53 →
       - 2 ^ 53 ≤ Z.of_nat (length (BookReq.passengers req))
                  * Flight.basePrice flight ≤ 2 ^ 53 →
       Booking.totalPrice b
       = Z.of_nat (length (BookReq.passengers req)) * Flight.basePrice flight)
    ∧ Booking.flightName b = Flight.flightName flight
    ∧ Booking.flightId b = Flight.flightId flight
    ∧ Booking.departure b = Flight.departureTime flight
    ∧ Booking.journeyTime b = Flight.departureTime flight
    ∧ Booking.destination b = Flight.destination flight
    ∧ Booking.journeyDate b = Flight.journeyDate flight
    ∧ Booking.email b = None
    ∧ Booking.mobile b = jsOr (BookReq.mobile req) "N/A"
    ∧ Booking.bookingStatus b = confirmed
    ∧ (∀ h' ureq, bookings (fst (updateFlight h' ureq db')) = bookings db').
Proof.
  intros Hrun.
  destruct (bookTicket_cases h oid now req db)
    as [[_ Hst]|(u & flight & Hh & Hf & _ & _ & Hrun')].
  { rewrite Hrun in Hst. by simpl in Hst. }
  rewrite Hrun in Hrun'. injection Hrun' as _ ->.
  exists u, flight. repeat split; try done.
  { intros Hbase Hprod. simpl. apply jsMul_count; [lia | done | done]. }
  intros h' ureq.
  pose proof (users_step db' (OpUpdateFlight h' ureq)) as _.
  unfold updateFlight. destruct (authMiddleware h'); [done |].
  destruct (flightOperatorAuth _); [done |].
  destruct (flights db' !! _); [| done].
  unfold Flight_update. by destruct (Flight.valid _).
Qed.

Lemma booking_is_a_snapshot_witness :
  ∃ u flight,
    GoodToken Sample.traveler = GoodToken u
    ∧ flights (Sample.withFlight 10) !! 1%positive = Some flight
    ∧ Booking.totalPrice Sample.booking = 2 * Flight.basePrice flight
    ∧ Booking.email Sample.booking = None.
Proof.
  destruct (booking_is_a_snapshot (GoodToken Sample.traveler) 7 0
              (Sample.bookReq "economy" 2) (Sample.withFlight 10)
              Sample.booked Sample.booking)
    as (u & flight & Hh & Hf & _ & _ & _ & _ & Hprice & _ & _ & _ & _ & _
        & _ & _ & Hemail & _); [vm_compute; reflexivity |].
  exists u, flight. split; [exact Hh |]. split; [exact Hf |].
  split; [| exact Hemail].
  rewrite Hprice. injection Hf as <-. reflexivity.
Defined.

(** X15. On a flight with fewer than 2^53 seats left, cancelling a
    booking right after it was made, by the one who made it, brings
    every flight back to what it was before the booking; the booking
    itself stays, cancelled, at the end of the collection. *)
Theorem cancel_undoes_booking (u : Jwt.payload) (oid : ObjectId) (now : Z)
    (req : BookReq.t) (db db1 : DB) (b : Booking.t) :
  bookTicket (GoodToken u) oid now req db = (db1, created b) →
  (∀ f, flights db !! BookReq.flightId req = Some f →
        Flight.availableSeats f < 2 ^ 53) →
  let db2 := fst (cancelTicket (GoodToken u) oid db1) in
  flights db2 = flights db
  ∧ users db2 = users db
  ∧ bookings db2 = bookings db ++ [Booking.set_bookingStatus cancelled b].
Proof.
  intros Hrun Hsmall db2.
  destruct (bookTicket_cases (GoodToken u) oid now req db)
    as [[_ Hst]|(u' & flight & [= <-] & Hf & Hn & Hfresh & Hrun')].
  { rewrite Hrun in Hst. by simpl in Hst. }
  rewrite Hrun in Hrun'. injection Hrun' as -> ->.
  specialize (Hsmall _ Hf).
  destruct (toDouble_le_exact _ _ (Nat2Z.is_nonneg _) Hsmall Hn) as [Hlo Hle].
  subst db2. rewrite assigned_sub_exact by (done || lia).
  unfold cancelTicket. simpl.
  rewrite (findOne_app_None _ _ _ Hfresh). simpl.
  rewrite decide_True by done.
  rewrite decide_False by (by intros [? _]). simpl.
  rewrite lookup_alter_eq, Hf. simpl.
  rewrite Flight_assign_assigned by (simpl; by rewrite lookup_alter_eq, Hf).
  simpl. rewrite assigned_add_exact by lia.
  split; [| split; [done |]].
  - simpl. rewrite alter_alter_eq. apply alter_id.
    intros f Hf'. rewrite Hf in Hf'. injection Hf' as <-. simpl.
    unfold Flight.set_availableSeats. simpl. destruct flight. simpl.
    f_equal. lia.
  - simpl. rewrite updateOne_app_None by done. simpl.
    by rewrite decide_True.
Qed.

Lemma cancel_undoes_booking_witness :
  flights (fst (cancelTicket (GoodToken Sample.traveler) 7 Sample.booked))
  = flights (Sample.withFlight 10).
Proof.
  destruct (cancel_undoes_booking Sample.traveler 7 0
              (Sample.bookReq "economy" 2) (Sample.withFlight 10)
              Sample.booked Sample.booking) as [Hfl _];
    [vm_compute; reflexivity
    | intros f [= <-]; reflexivity
    | exact Hfl].
Defined.

(** X16. /cancel-ticket stores something only when the caller owns the
    booking or is an admin, and the booking was still confirmed; every
    other call (no token, unknown id, someone else's booking, already
    cancelled) leaves the database as it was.  It never removes a booking
    and never touches an account. *)
Theorem cancel_needs_owner_or_admin (h : AuthHeader) (bid : ObjectId) (db : DB) :
  let db' := fst (cancelTicket h bid db) in
  let r := snd (cancelTicket h bid db) in
  (status r ≠ 200%nat → db' = db)
  ∧ (status r = 200%nat →
     ∃ u booking,
       h = GoodToken u
       ∧ findOne (fun b => Booking._id b = bid) (bookings db) = Some booking
       ∧ (Booking.user booking = Jwt.id u ∨ Jwt.usertype u = "admin")
       ∧ Booking.bookingStatus booking = confirmed)
  ∧ length (bookings db') = length (bookings db)
  ∧ users db' = users db.
Proof.
  intros db' r. subst db' r. unfold cancelTicket.
  destruct h as [| |u]; simpl; [by repeat split.. |].
  destruct (findOne _ _) as [booking|] eqn:Hb; [| by repeat split].
  destruct (decide (_ ∧ _)) as [Hno|Hown]; [by repeat split |].
  destruct (decide (Booking.bookingStatus booking = cancelled)) as [Hc|Hc];
    [by repeat split |].
  split; [done |]. split; [| split].
  - intros _. exists u, booking. repeat split; try done.
    + destruct (decide (Booking.user booking = Jwt.id u)); [by left |].
      destruct (decide (Jwt.usertype u = "admin")); [by right |].
      exfalso. by apply Hown.
    + by destruct (Booking.bookingStatus booking).
  - destruct (flights db !! _); simpl; rewrite ?Flight_assign_bookings;
      apply length_updateOne.
  - destruct (flights db !! _); simpl; by rewrite ?Flight_assign_users.
Qed.

(** X17. A confirmed booking whose flight is not stored can still be
    cancelled by its owner or an admin: it is answered 200 and marked
    cancelled, and no flight changes. *)
Theorem cancel_without_flight (u : Jwt.payload) (bid : ObjectId) (db : DB)
    (booking : Booking.t) :
  findOne (fun b => Booking._id b = bid) (bookings db) = Some booking →
  Booking.bookingStatus booking = confirmed →
  Booking.user booking = Jwt.id u ∨ Jwt.usertype u = "admin" →
  flights db !! Booking.flight booking = None →
  ∃ db',
    cancelTicket (GoodToken u) bid db
    = (db', mkResponse 200
              (MessageBooking "Booking cancelled successfully!"
                 (Booking.set_bookingStatus cancelled booking)))
    ∧ flights db' = flights db
    ∧ findOne (fun b => Booking._id b = bid) (bookings db')
      = Some (Booking.set_bookingStatus cancelled booking).
Proof.
  intros Hb Hst Hown Hf. eexists. split; [| split].
  - unfold cancelTicket. simpl. rewrite Hb.
    rewrite decide_False by (intros [? ?]; by destruct Hown).
    rewrite decide_False by (by rewrite Hst).
    simpl. rewrite Hf. reflexivity.
  - done.
  - simpl. by apply findOne_updateOne.
Qed.

Lemma cancel_without_flight_witness :
  ∃ db',
    cancelTicket (GoodToken Sample.traveler) 7 (mkDB [] ∅ [Sample.booking])
    = (db', mkResponse 200
              (MessageBooking "Booking cancelled successfully!"
                 (Booking.set_bookingStatus cancelled Sample.booking)))
    ∧ flights db' = ∅.
Proof.
  destruct (cancel_without_flight Sample.traveler 7
              (mkDB [] ∅ [Sample.booking]) Sample.booking)
    as (db' & Hrun & Hfl & _);
    [reflexivity | reflexivity | left; reflexivity | reflexivity |].
  exists db'. split; [exact Hrun | exact Hfl].
Defined.

Lemma booking_kept_serve (db : DB) (r : Request) (bid : ObjectId)
    (b : Booking.t) :
  findOne (fun c => Booking._id c = bid) (bookings db) = Some b →
  ∃ b', findOne (fun c => Booking._id c = bid) (bookings (serve db r)) = Some b'
        ∧ sameButStatus b b'
        ∧ (Booking.bookingStatus b = cancelled →
           Booking.bookingStatus b' = cancelled)
        ∧ (length (bookings db) ≤ length (bookings (serve db r)))%nat.
Proof.
  intros Hb.
  assert (Hsame : ∀ db', bookings db' = bookings db →
            ∃ b', findOne (fun c => Booking._id c = bid) (bookings db') = Some b'
                  ∧ sameButStatus b b'
                  ∧ (Booking.bookingStatus b = cancelled →
                     Booking.bookingStatus b' = cancelled)
                  ∧ (length (bookings db) ≤ length (bookings db'))%nat).
  { intros db' ->. exists b. by repeat split. }
  assert (Hside : (∃ o, r = FlightSide o) ∨ ∀ o, r ≠ FlightSide o).
  { destruct r; [right; done.. | left; eauto]. }
  destruct Hside as [[o ->] | Hno];
    [| apply Hsame; by destruct (account_side_frame db r Hno)].
  simpl.
  destruct (step_effect db o)
    as [-> | [(fid & f & _ & _ & ->)
       | [(h & req & f & _ & Hf & ->)
       | [(fid & flight & b0 & Hf & Hfl & _ & _ & _ & _ & ->)
       | (bid' & booking & Hb' & Hst & ->)]]]];
    try (by apply Hsame).
  - exists b. simpl. rewrite (findOne_app_Some _ _ _ _ Hb).
    repeat split; try done. rewrite length_app. lia.
  - assert (Hfound : findOne (fun c => Booking._id c = bid)
                       (updateOne (fun c => Booking._id c = bid')
                          (Booking.set_bookingStatus cancelled) (bookings db))
                     = Some ((if decide (bid' = bid)
                              then Booking.set_bookingStatus cancelled
                              else id) b)).
    { rewrite (findOne_updateOne_key Booking._id
                 (Booking.set_bookingStatus cancelled) bid bid') by done.
      by rewrite Hb. }
    assert (Hlen := length_updateOne (fun c => Booking._id c = bid')
                      (Booking.set_bookingStatus cancelled) (bookings db)).
    eexists. split.
    { destruct (flights db !! Booking.flight booking); exact Hfound. }
    destruct (decide (bid' = bid)); simpl.
    + repeat split; try done.
      destruct (flights db !! _); simpl; lia.
    + repeat split; try done.
      destruct (flights db !! _); simpl; lia.
Qed.

(** X18. A stored booking is there to stay: whatever requests are served
    afterwards, the same id finds it, the same in every field but its
    status, which only ever goes from confirmed to cancelled; the
    collection never shrinks. *)
Theorem bookings_are_kept (rs : list Request) (db : DB) (bid : ObjectId)
    (b : Booking.t) :
  findOne (fun c => Booking._id c = bid) (bookings db) = Some b →
  ∃ b',
    findOne (fun c => Booking._id c = bid) (bookings (serveAll rs db)) = Some b'
    ∧ sameButStatus b b'
    ∧ (Booking.bookingStatus b = cancelled →
       Booking.bookingStatus b' = cancelled)
    ∧ (length (bookings db) ≤ length (bookings (serveAll rs db)))%nat.
Proof.
  revert db b. induction rs as [|r rs IH]; intros db b Hb.
  { exists b. by repeat split. }
  destruct (booking_kept_serve db r bid b Hb) as (b1 & Hb1 & Hs1 & Hc1 & Hl1).
  destruct (IH (serve db r) b1 Hb1) as (b' & Hb' & Hs' & Hc' & Hl').
  exists b'. split; [exact Hb' |]. split; [| split].
  - unfold sameButStatus in *. by rewrite Hs'.
  - auto.
  - change (serveAll (r :: rs) db) with (serveAll rs (serve db r)). lia.
Qed.

Lemma bookings_are_kept_witness :
  ∃ b',
    findOne (fun c => Booking._id c = 7%positive)
      (bookings (serveAll
                   [FlightSide (OpCancelTicket (GoodToken Sample.traveler) 7);
                    FlightSide (OpBookTicket (GoodToken Sample.traveler) 8 0
                                  (Sample.bookReq "economy" 1))]
                   Sample.booked)) = Some b'
    ∧ sameButStatus Sample.booking b'.
Proof.
  destruct (bookings_are_kept
              [FlightSide (OpCancelTicket (GoodToken Sample.traveler) 7);
               FlightSide (OpBookTicket (GoodToken Sample.traveler) 8 0
                             (Sample.bookReq "economy" 1))]
              Sample.booked 7 Sample.booking)
    as (b' & Hb' & Hs & _); [reflexivity |].
  exists b'. split; [exact Hb' | exact Hs].
Defined.

Lemma SeatsConserved_step (db : DB) (o : Op) :
  SeatsConserved (flights db) (bookings db) →
  keepsTotal db (FlightSide o) = true →
  SeatsConserved (flights (step db o)) (bookings (step db o)).
Proof.
  unfold SeatsConserved. intros [Hsum Hon] Hkeep.
  apply bool_decide_eq_true in Hkeep. cbn [serve] in Hkeep.
  unfold exactBelow in *. revert Hkeep.
  destruct (step_effect db o)
    as [-> | [(fid & f & Hnew & Hfull & ->)
       | [(h & req & f & -> & Hf & ->)
       | [(fid & flight & b0 & Hf & Hfl & Hst & Hn & _ & _ & ->)
       | (bid & booking & Hb & Hst & ->)]]]]; intros Hkeep; simpl in *.
  - done.
  - split.
    + intros k g. rewrite lookup_insert. case_decide as Hk.
      * intros [= <-]. subst k.
        destruct (Hkeep fid f (lookup_insert_eq _ _ _)) as [Hcap _].
        rewrite confirmedSeats_elsewhere; [lia |].
        intros b Hb E. destruct (Hon b Hb) as [g Hg]. congruence.
      * apply Hsum.
    + intros b Hb. apply lookup_insert_is_Some'. right. by apply Hon.
  - destruct (Hkeep _ _ (lookup_insert_eq _ _ _)) as [Hcap Hsame].
    rewrite Hf in Hsame. simpl in Hsame.
    destruct (Hsum _ _ Hf) as (Hlo & _ & Hparts).
    split.
    + intros k g. rewrite lookup_insert. case_decide as Hk.
      * intros [= <-]. subst k.
        change (Flight.availableSeats (applyUpdate req f))
          with (Flight.availableSeats f).
        change (Flight.totalSeats (applyUpdate req f))
          with (jsOr (UpdateFlightReq.totalSeats req) (Flight.totalSeats f))
          in *.
        lia.
      * apply Hsum.
    + intros b Hb. apply lookup_insert_is_Some'. right. by apply Hon.
  - destruct (Hsum _ _ Hf) as (Hlo & Hcap & Hparts).
    pose proof (confirmedSeats_nonneg fid (bookings db)).
    assert (Flight.availableSeats flight < 2 ^ 53) as Hsmall by lia.
    destruct (toDouble_le_exact _ _ (Nat2Z.is_nonneg _) Hsmall Hn)
      as [_ Hle].
    rewrite assigned_sub_exact by (done || lia).
    split.
    + intros k g. rewrite confirmedSeats_app. simpl.
      rewrite lookup_alter. case_decide as Hk.
      * rewrite Hf. intros [= <-]. simpl.
        rewrite decide_True by (split; congruence).
        subst k. lia.
      * intros Hg. rewrite decide_False by (intros [? _]; congruence).
        specialize (Hsum _ _ Hg). lia.
    + intros b [Hb | ->%list_elem_of_singleton]%elem_of_app;
        apply lookup_alter_is_Some; [by apply Hon | rewrite Hfl; eauto].
  - assert (Hkept : ∀ b, b ∈ updateOne (fun c => Booking._id c = bid)
                               (Booking.set_bookingStatus cancelled)
                               (bookings db) →
              is_Some (flights db !! Booking.flight b)).
    { intros b Hin.
      destruct (elem_of_updateOne_flight _ _ _ _ Hin) as (b0 & Hb0 & ->).
      by apply Hon. }
    destruct (Hon booking) as [flight Hfl];
      [by apply (findOne_Some _ _ _ Hb) |].
    rewrite Hfl. simpl.
    destruct (Hsum _ _ Hfl) as (Hlo & Hcap & Hparts).
    pose proof (confirmedSeats_holds bid _ booking Hb Hst) as Hheld.
    rewrite assigned_add_exact by lia.
    split.
    + intros k g. rewrite (confirmedSeats_cancel k bid _ booking Hb Hst).
      rewrite lookup_alter. case_decide as Hk.
      * rewrite Hfl. intros [= <-]. simpl. subst k. lia.
      * intros Hg. specialize (Hsum _ _ Hg). lia.
    + intros b Hin. apply lookup_alter_is_Some. by apply Hkept.
Qed.

(** X19. From the empty database, whatever requests are served, one at a
    time, accepted or refused, as long as after each of them every
    stored flight has a capacity from 0 up to 2^53 - 1, the one it had
    before the request if it was stored then: on every flight,
    [availableSeats] is exactly [totalSeats] less the passengers of its
    confirmed bookings.  No seat is lost or created by booking and
    cancelling. *)
Theorem seats_are_conserved (rs : list Request) (fid : ObjectId) (f : Flight.t) :
  totalsKept emptyDB rs = true →
  flights (serveAll rs emptyDB) !! fid = Some f →
  Flight.availableSeats f
  = Flight.totalSeats f - confirmedSeats fid (bookings (serveAll rs emptyDB)).
Proof.
  intros Hok Hf. rewrite totalsKept_allServed in Hok.
  assert (Hinv : SeatsConserved (flights (serveAll rs emptyDB))
                                (bookings (serveAll rs emptyDB))).
  { apply (serveAll_ind SeatsConserved keepsTotal); [| | exact Hok].
    - apply SeatsConserved_step.
    - split; [intros k g Hg; simpl in Hg; by rewrite lookup_empty in Hg |].
      intros b Hb. by apply elem_of_nil in Hb. }
  destruct Hinv as [Hsum _]. destruct (Hsum _ _ Hf) as (_ & _ & Hparts). lia.
Qed.

Lemma seats_are_conserved_witness :
  Flight.availableSeats (Flight.set_availableSeats 8 (Sample.flight 10))
  = Flight.totalSeats (Flight.set_availableSeats 8 (Sample.flight 10))
    - confirmedSeats 1
        (bookings
           (serveAll
              [FlightSide (OpAddFlight (GoodToken Sample.operator) 1
                             (Sample.flightReq 10));
               PostRegister 2 Demo.userSignup;
               FlightSide (OpBookTicket (GoodToken Sample.traveler) 7 0
                             (Sample.bookReq "economy" 2))]
              emptyDB)).
Proof.
  apply (seats_are_conserved
           [FlightSide (OpAddFlight (GoodToken Sample.operator) 1
                          (Sample.flightReq 10));
            PostRegister 2 Demo.userSignup;
            FlightSide (OpBookTicket (GoodToken Sample.traveler) 7 0
                          (Sample.bookReq "economy" 2))]
           1%positive);
    vm_compute; reflexivity.
Defined.

(** ** Seat codes across the collection *)

Lemma elem_of_codesFrom (prefix : string) (prior n : nat) (code : string) :
  code ∈ codesFrom prefix prior n ↔
  ∃ k, (1 ≤ k ≤ n)%nat ∧ code = prefix +:+ "-" +:+ countText (prior + k).
Proof.
  unfold codesFrom. rewrite list_elem_of_fmap. split.
  - intros (k & -> & Hk). apply elem_of_seq in Hk. exists k. split; [lia | done].
  - intros (k & Hk & ->). exists k. split; [done |]. apply elem_of_seq. lia.
Qed.

(** X20. The loop of /book-ticket gives [n] passengers [n] codes, no two
    of them the same. *)
Theorem codes_of_a_booking_differ (prefix : string) (booked n : nat) :
  length (seatsAssigned prefix booked n) = n
  ∧ NoDup (seatsAssigned prefix booked n).
Proof.
  unfold seatsAssigned. split.
  - by rewrite length_fmap, length_seq.
  - apply NoDup_fmap_2_strong; [| apply NoDup_seq].
    intros i j _ _ E. apply code_inj in E as [_ E]. lia.
Qed.

Lemma priorCount_take_updateOne (fid : ObjectId) (c : string) (bid : ObjectId)
    (s : BookingStatus) (bs : list Booking.t) (i : nat) :
  priorCount fid c
    (take i (updateOne (fun b => Booking._id b = bid)
                       (Booking.set_bookingStatus s) bs))
  = priorCount fid c (take i bs).
Proof.
  revert i. induction bs as [|b bs IH]; intros i; simpl; [done |].
  destruct (decide (Booking._id b = bid)); destruct i as [|i]; simpl;
    try done.
  by rewrite IH.
Qed.

Lemma lookup_updateOne_status (bid : ObjectId) (s : BookingStatus)
    (bs : list Booking.t) (i : nat) (b' : Booking.t) :
  updateOne (fun b => Booking._id b = bid) (Booking.set_bookingStatus s) bs !! i
  = Some b' →
  ∃ b, bs !! i = Some b ∧ (b' = b ∨ b' = Booking.set_bookingStatus s b).
Proof.
  revert i. induction bs as [|b bs IH]; intros i; simpl; [done |].
  destruct (decide (Booking._id b = bid)); destruct i as [|i]; simpl.
  - intros [= <-]. eauto.
  - intros Hi. eauto.
  - intros [= <-]. eauto.
  - apply IH.
Qed.

(** From the empty database, every stored booking carries the codes that
    its place in the collection gives it. *)
Lemma bookings_numbered_in_order (rs : list Request) :
  numberedInOrder (bookings (serveAll rs emptyDB)).
Proof.
  apply (serveAll_ind (fun _ bs => numberedInOrder bs) (fun _ _ => true));
    [| | apply allServed_always].
  - intros db o Hdb _.
    destruct (step_effect db o)
      as [-> | [(fid & f & _ & _ & ->)
         | [(h & req & f & _ & Hf & ->)
         | [(fid & flight & b0 & Hf & Hfl & _ & _ & _ & Hseats & ->)
         | (bid & booking & Hb & _ & ->)]]]]; simpl; try done.
    + intros i b Hi.
      destruct (decide (i < length (bookings db))%nat) as [Hlt|Hge].
      * rewrite lookup_app_l in Hi by done.
        rewrite take_app_le by lia. by apply Hdb.
      * rewrite lookup_app_r in Hi by lia.
        destruct (i - length (bookings db))%nat as [|k] eqn:Hk; [| done].
        injection Hi as <-. rewrite take_app_ge by lia.
        rewrite Hk. simpl. rewrite app_nil_r.
        by rewrite Hfl.
    + assert (Hnum : numberedInOrder
                       (updateOne (fun c => Booking._id c = bid)
                          (Booking.set_bookingStatus cancelled) (bookings db))).
      { intros i b' Hi. rewrite priorCount_take_updateOne.
        destruct (lookup_updateOne_status _ _ _ _ _ Hi)
          as (b & Hbi & [-> | ->]); exact (Hdb i b Hbi). }
      by destruct (flights db !! Booking.flight booking).
  - intros i b Hi. simpl in Hi. by rewrite lookup_nil in Hi.
Qed.

(** X21. From the empty database, whatever requests are served, one at a
    time: two stored bookings of the same flight and seat class never
    share a seat code, cancelled or not.  The later one is numbered from
    where the earlier one stopped, or further. *)
Theorem seat_codes_never_collide (rs : list Request) (i j : nat)
    (b1 b2 : Booking.t) :
  bookings (serveAll rs emptyDB) !! i = Some b1 →
  bookings (serveAll rs emptyDB) !! j = Some b2 →
  (i < j)%nat →
  Booking.flight b1 = Booking.flight b2 →
  Booking.seatClass b1 = Booking.seatClass b2 →
  ∃ p1 p2,
    Booking.seats b1
    = String.concat ", "
        (codesFrom (coachPrefix (Booking.seatClass b1)) p1
                   (length (Booking.passengers b1)))
    ∧ Booking.seats b2
      = String.concat ", "
          (codesFrom (coachPrefix (Booking.seatClass b1)) p2
                     (length (Booking.passengers b2)))
    ∧ (p1 + length (Booking.passengers b1) ≤ p2)%nat
    ∧ ∀ code,
        code ∈ codesFrom (coachPrefix (Booking.seatClass b1)) p1
                 (length (Booking.passengers b1)) →
        code ∉ codesFrom (coachPrefix (Booking.seatClass b1)) p2
                 (length (Booking.passengers b2)).
Proof.
  intros H1 H2 Hij Hfl Hcl.
  pose proof (bookings_numbered_in_order rs) as Hnum.
  set (bs := bookings (serveAll rs emptyDB)) in *.
  set (p1 := priorCount (Booking.flight b1) (Booking.seatClass b1) (take i bs)).
  set (p2 := priorCount (Booking.flight b1) (Booking.seatClass b1) (take j bs)).
  assert (Hle : (p1 + length (Booking.passengers b1) ≤ p2)%nat).
  { subst p1 p2.
    assert (Hsplit : take j bs = take (S i) bs ++ drop (S i) (take j bs)).
    { rewrite <- (take_drop (S i) (take j bs)) at 1.
      rewrite take_take. by replace (S i `min` j)%nat with (S i) by lia. }
    rewrite Hsplit, priorCount_app, (take_S_r _ _ _ H1), priorCount_app.
    simpl. rewrite decide_True by done. lia. }
  exists p1, p2. split; [by apply (Hnum i) |]. split; [| split; [done |]].
  - rewrite (Hnum j b2 H2). subst p2. by rewrite <- Hfl, <- Hcl.
  - intros code (k1 & Hk1 & ->)%elem_of_codesFrom
                (k2 & Hk2 & E)%elem_of_codesFrom.
    apply code_inj in E as [_ E]. lia.
Qed.

Lemma seat_codes_never_collide_witness :
  ∃ p1 p2,
    Booking.seats Sample.booking
    = String.concat ", " (codesFrom "E" p1 2)
    ∧ (p1 + 2 ≤ p2)%nat.
Proof.
  destruct (seat_codes_never_collide
              [FlightSide (OpAddFlight (GoodToken Sample.operator) 1
                             (Sample.flightReq 10));
               FlightSide (OpBookTicket (GoodToken Sample.traveler) 7 0
                             (Sample.bookReq "economy" 2));
               FlightSide (OpCancelTicket (GoodToken Sample.traveler) 7);
               FlightSide (OpBookTicket (GoodToken Sample.traveler) 8 0
                             (Sample.bookReq "economy" 1))]
              0 1 (Booking.set_bookingStatus cancelled Sample.booking)
              (newBooking Sample.traveler 8 0 (Sample.bookReq "economy" 1)
                 (Flight.set_availableSeats 10 (Sample.flight 10))
                 [Booking.set_bookingStatus cancelled Sample.booking]))
    as (p1 & p2 & Hs1 & _ & Hle & _);
    [vm_compute; reflexivity | vm_compute; reflexivity | lia
    | reflexivity | reflexivity |].
  exists p1, p2. split; [exact Hs1 | exact Hle].
Defined.

(** ** Calls in flight, under any schedule *)

Lemma resume_keeps_seats_nonneg (t : InFlight.Task) (db : DB) :
  (∀ fid f, flights db !! fid = Some f → 0 ≤ Flight.availableSeats f) →
  withinSeatsRead t →
  (∀ fid f, flights (fst (InFlight.resume t db)) !! fid = Some f →
            0 ≤ Flight.availableSeats f)
  ∧ withinSeatsRead (snd (InFlight.resume t db)).
Proof.
  intros Hdb Ht. destruct t as [u c|u c flight|c flight b|c flight v b|r]; simpl.
  - destruct (flights db !! _) as [flight|]; [| done].
    unfold jsLt. case_bool_decide; simpl; [done |]. split; [done | lia].
  - done.
  - unfold Booking_insert. destruct (_ && _); simpl; [| done].
    split; [done |]. simpl in Ht. by apply jsSub_bounds; [lia |].
  - split; [| done]. unfold Flight_assignAvailableSeats.
    case_decide; [done |]. simpl.
    intros fid f. rewrite lookup_alter. case_decide.
    + destruct (flights db !! _); [| done]. by intros [= <-].
    + apply Hdb.
  - done.
Qed.

(** X22. However the calls to /book-ticket are interleaved, no flight's
    [availableSeats] goes below zero: a call only ever writes the count
    it read less the seats it was granted out of that count.  (What does
    go wrong when calls interleave is that more seats are sold than the
    count was lowered by.) *)
Theorem no_schedule_overdraws (schedule : list nat)
    (calls : list InFlight.BookCall) (db : DB) :
  (∀ fid f, flights db !! fid = Some f → 0 ≤ Flight.availableSeats f) →
  ∀ fid f,
    flights (fst (InFlight.run schedule db (InFlight.start <$> calls))) !! fid
    = Some f →
    0 ≤ Flight.availableSeats f.
Proof.
  intros Hdb.
  assert (Hgen : ∀ tasks db,
            (∀ fid f, flights db !! fid = Some f → 0 ≤ Flight.availableSeats f) →
            Forall withinSeatsRead tasks →
            ∀ fid f, flights (fst (InFlight.run schedule db tasks)) !! fid
                     = Some f →
                     0 ≤ Flight.availableSeats f).
  { clear. induction schedule as [|i rest IH]; intros tasks db Hdb Hts;
      simpl; [done |].
    destruct (tasks !! i) as [t|] eqn:Ht; [| by apply IH].
    pose proof (resume_keeps_seats_nonneg t db Hdb
                  (proj1 (Forall_lookup _ _) Hts i t Ht)) as [Hdb' Ht'].
    destruct (InFlight.resume t db) as [db' t']. apply IH; [done |].
    by apply Forall_insert. }
  apply Hgen; [done |].
  apply Forall_fmap, Forall_forall. intros c _. unfold InFlight.start. simpl.
  by destruct (authMiddleware _).
Qed.

Lemma no_schedule_overdraws_witness :
  0 ≤ Flight.availableSeats (Flight.set_availableSeats 0 (Sample.flight 1)).
Proof.
  apply (no_schedule_overdraws [0; 1; 0; 1; 0; 1; 0; 1]%nat
           [Sample.call 7 "economy"; Sample.call 8 "economy"]
           (Sample.withFlight 1)) with (fid := 1%positive).
  - intros fid f. unfold Sample.withFlight. simpl.
    rewrite lookup_insert. case_decide; [| by rewrite lookup_empty].
    intros [= <-]. simpl. lia.
  - vm_compute. reflexivity.
Defined.

Lemma run_one (k : nat) (schedule : list nat) (db : DB)
    (served : list InFlight.Task) (t : InFlight.Task)
    (waiting : list InFlight.Task) :
  length served = k →
  InFlight.run (k :: schedule) db (served ++ t :: waiting)
  = InFlight.run schedule (fst (InFlight.resume t db))
      (served ++ snd (InFlight.resume t db) :: waiting).
Proof.
  intros Hk. simpl. rewrite list_lookup_middle by done.
  destruct (InFlight.resume t db) as [db' t']. simpl.
  rewrite insert_app_r_alt by lia.
  by replace (k - length served)%nat with 0%nat by lia.
Qed.

Lemma run_four (k : nat) (schedule : list nat) (db : DB)
    (served : list InFlight.Task) (c : InFlight.BookCall)
    (waiting : list InFlight.Task) :
  length served = k →
  InFlight.run (replicate 4 k ++ schedule) db
    (served ++ InFlight.start c :: waiting)
  = InFlight.run schedule (fst (InFlight.complete c db))
      (served ++ snd (InFlight.complete c db) :: waiting).
Proof.
  intros Hk. unfold InFlight.complete.
  change (replicate 4 k ++ schedule) with (k :: k :: k :: k :: schedule).
  rewrite !(run_one k) by done.
  destruct (InFlight.resume (InFlight.start c) db) as [db1 t1]. simpl.
  destruct (InFlight.resume t1 db1) as [db2 t2]. simpl.
  destruct (InFlight.resume t2 db2) as [db3 t3]. simpl.
  by destruct (InFlight.resume t3 db3).
Qed.

(** X23. The schedule that resumes the first call four times, then the
    second four times, and so on, leaves the database and the answers
    that serving the calls one after the other leaves: the four awaits of
    the route are the route. *)
Theorem one_at_a_time_is_serial (calls : list InFlight.BookCall) (db : DB) :
  InFlight.run (oneAtATime 0 (length calls)) db (InFlight.start <$> calls)
  = (fst (InFlight.serial calls db),
     InFlight.Responded <$> snd (InFlight.serial calls db)).
Proof.
  assert (Hgen : ∀ served db,
            InFlight.run (oneAtATime (length served) (length calls)) db
              (served ++ (InFlight.start <$> calls))
            = (fst (InFlight.serial calls db),
               served ++ (InFlight.Responded <$> snd (InFlight.serial calls db)))).
  { induction calls as [|c calls IH]; intros served db'; [done |].
    change (oneAtATime (length served) (length (c :: calls)))
      with (replicate 4 (length served)
            ++ oneAtATime (S (length served)) (length calls)).
    rewrite fmap_cons, run_four by done.
    rewrite complete_bookTicket. simpl.
    destruct (bookTicket _ _ _ _ db') as [db1 r]. simpl.
    rewrite (cons_middle _ served), app_assoc.
    replace (S (length served)) with (length (served ++ [InFlight.Responded r]))
      by (rewrite length_app; simpl; lia).
    rewrite IH. destruct (InFlight.serial calls db1) as [db2 rs]. simpl.
    by rewrite <- app_assoc. }
  apply (Hgen []).
Qed.

(** X24. The lost update, in general.  Two authenticated calls on the
    same stored flight with fewer than 2^53 seats left, each asking for
    no more seats than are left, resumed in turn: both are answered 201,
    both bookings are stored and numbered as if the other did not exist,
    and the flight is left with the count that was written last, which
    is the count both calls read less the seats of the second call (less
    those of the first when the second asked for no seat and so wrote
    nothing): the seats of the other call are sold but not deducted. *)
Theorem interleaved_calls_lose_an_update (u1 u2 : Jwt.payload)
    (oid1 oid2 : ObjectId) (now1 now2 : Z) (req1 req2 : BookReq.t) (db : DB)
    (flight : Flight.t) :
  BookReq.flightId req1 = BookReq.flightId req2 →
  flights db !! BookReq.flightId req1 = Some flight →
  nonEmpty (Flight.flightName flight) = true →
  Flight.availableSeats flight < 2 ^ 53 →
  Z.of_nat (length (BookReq.passengers req1)) ≤ Flight.availableSeats flight →
  Z.of_nat (length (BookReq.passengers req2)) ≤ Flight.availableSeats flight →
  findOne (fun b => Booking._id b = oid1) (bookings db) = None →
  findOne (fun b => Booking._id b = oid2) (bookings db) = None →
  oid1 ≠ oid2 →
  let b1 := newBooking u1 oid1 now1 req1 flight
              (existingBookingsInClass (BookReq.flightId req1)
                 (BookReq.seatClass req1) db) in
  let b2 := newBooking u2 oid2 now2 req2 flight
              (existingBookingsInClass (BookReq.flightId req2)
                 (BookReq.seatClass req2) db) in
  ∃ db',
    InFlight.run [0; 1; 0; 1; 0; 1; 0; 1]%nat db
      (InFlight.start <$> [InFlight.mkCall (GoodToken u1) oid1 now1 req1;
                           InFlight.mkCall (GoodToken u2) oid2 now2 req2])
    = (db', [InFlight.Responded
               (mkResponse 201 (MessageBooking "Booking successful!" b1));
             InFlight.Responded
               (mkResponse 201 (MessageBooking "Booking successful!" b2))])
    ∧ bookings db' = bookings db ++ [b1; b2]
    ∧ Flight.availableSeats <$> flights db' !! BookReq.flightId req1
      = Some (Flight.availableSeats flight
              - Z.of_nat (if decide (length (BookReq.passengers req2) = 0%nat)
                          then length (BookReq.passengers req1)
                          else length (BookReq.passengers req2))).
Proof.
  intros Hsame Hf Hname Hsmall Hn1 Hn2 Hnew1 Hnew2 Hne b1 b2.
  assert (Hf2 : flights db !! BookReq.flightId req2 = Some flight)
    by (by rewrite <- Hsame).
  set (dbA := mkDB (users db) (flights db) (bookings db ++ [b1])).
  set (dbB := mkDB (users db) (flights db) ((bookings db ++ [b1]) ++ [b2])).
  assert (Hins1 : Booking_insert b1 db = Some dbA).
  { unfold Booking_insert.
    replace (Booking.valid b1) with true by (symmetry; exact Hname).
    change (Booking._id b1) with oid1. rewrite Hnew1.
    by rewrite bool_decide_eq_true_2. }
  assert (Hins2 : Booking_insert b2 dbA = Some dbB).
  { unfold Booking_insert.
    replace (Booking.valid b2) with true by (symmetry; exact Hname).
    change (Booking._id b2) with oid2. simpl.
    rewrite (findOne_app_None _ _ _ Hnew2).
    rewrite decide_False by done. by rewrite bool_decide_eq_true_2. }
  eexists. split; [| split].
  - simpl. rewrite Hf. rewrite (jsLt_le _ _ Hn1). simpl.
    rewrite Hf2. rewrite (jsLt_le _ _ Hn2). simpl.
    fold b1 b2. rewrite Hins1, Hins2. simpl. reflexivity.
  - rewrite !Flight_assign_bookings. simpl. by rewrite <- app_assoc.
  - rewrite <- Hsame. unfold Flight_assignAvailableSeats.
    rewrite !jsSub_exact by lia. rewrite toDouble_small by lia.
    repeat case_decide; simpl;
      rewrite ?alter_alter_eq, ?lookup_alter_eq, Hf; simpl; f_equal; lia.
Qed.

Lemma interleaved_calls_lose_an_update_witness :
  ∃ db',
    InFlight.run [0; 1; 0; 1; 0; 1; 0; 1]%nat (Sample.withFlight 5)
      (InFlight.start <$> [InFlight.mkCall (GoodToken Sample.traveler) 7 0
                             (Sample.bookReq "economy" 3);
                           InFlight.mkCall (GoodToken Demo.stranger) 8 0
                             (Sample.bookReq "economy" 4)])
    = (db', [InFlight.Responded
               (created (newBooking Sample.traveler 7 0
                           (Sample.bookReq "economy" 3) (Sample.flight 5) []));
             InFlight.Responded
               (created (newBooking Demo.stranger 8 0
                           (Sample.bookReq "economy" 4) (Sample.flight 5) []))])
    ∧ Flight.availableSeats <$> flights db' !! 1%positive = Some 1.
Proof.
  destruct (interleaved_calls_lose_an_update Sample.traveler Demo.stranger
              7 8 0 0 (Sample.bookReq "economy" 3) (Sample.bookReq "economy" 4)
              (Sample.withFlight 5) (Sample.flight 5))
    as (db' & Hrun & _ & Hleft);
    [reflexivity | reflexivity | reflexivity | reflexivity | simpl; lia
    | simpl; lia | reflexivity | reflexivity | discriminate |].
  exists db'. split; [exact Hrun | exact Hleft].
Defined.
